(** * AgriBot-AI: the query orchestration pipeline

    A shallow embedding of the orchestration code of the repository:

    - [Backend]      : [AIAgentService] of [Backend/app/services/ai_agents.py]
                       (keyword classifier, single-agent pipeline, fallback);
    - [Coordinator]  : [AgentCoordinator] of [Frontend/src/agents/cordinates.py]
                       (query analysis, parallel routing, synthesis, memory);
    - [QueryHandler] : the session routes of [Frontend/src/utils/query_handler.py];
    - [WeatherAgent] : the weather agent of
                       [Backend/app/services/agents/weather_agents.py];
    - [CropAdvisor]  : [CropAdvisorAgent] of [Frontend/src/agents/crop_advisor.py];
    - [Api]          : the routes of [Backend/app/api/__init__.py].

    Python dictionaries are insertion-ordered association lists, because the
    code iterates over several of them ([agent_keywords], [scores],
    [agent_responses]); the session table, which is only read and updated by
    key, is a finite map.  Calls that may raise live in the exception monad
    [exc], code that also updates state in [stexc].  The external
    collaborators (language detector, translator, language model, agents,
    formatter, clock) are the fields of a record of services. *)

From Stdlib Require Import QArith.
From stdpp Require Import gmap strings list.
From stdpp Require Import pretty.

Local Open Scope string_scope.
Set Warnings "-register-all".

(* ===================================================================== *)
(** * Python values, exceptions and dictionaries *)
(* ===================================================================== *)

Module Py.

(** The exceptions the pipeline can meet.  All of them derive from Python's
    [Exception], so every [except Exception] clause catches each of them. *)
Inductive exception : Type :=
| Error (msg : string)               (* raised by an external collaborator *)
| KeyError (key : string)            (* d[key] on a missing key *)
| TypeError (msg : string)
| AttributeError (msg : string)
| UnboundLocalError (name : string)  (* a NameError: local read before assignment *)
| HTTPException (status_code : nat) (detail : string).

(** [str(e)] *)
Definition str_of_exception (e : exception) : string :=
  match e with
  | Error msg => msg
  | KeyError key => "'" +:+ key +:+ "'"
  | TypeError msg => msg
  | AttributeError msg => msg
  | UnboundLocalError name =>
      "cannot access local variable '" +:+ name +:+
      "' where it is not associated with a value"
  | HTTPException _ detail => detail
  end.

(** Outcome of a call: a value or a raised exception. *)
Inductive exc (A : Type) : Type :=
| Returned (a : A)
| Raised (e : exception).
Arguments Returned {A} a.
Arguments Raised {A} e.

Definition bind {A B : Type} (c : exc A) (k : A -> exc B) : exc B :=
  match c with
  | Returned a => k a
  | Raised e => Raised e
  end.

(** [try: body  except Exception as e: handler(e)] *)
Definition try_except {A : Type} (body : exc A) (handler : exception -> exc A) : exc A :=
  match body with
  | Returned a => Returned a
  | Raised e => handler e
  end.

(** Code that reads and writes a state [S] and may raise: the state reached
    when an exception is raised is kept, as Python keeps the assignments and
    mutations made before the raise. *)
Definition stexc (S A : Type) : Type := S -> exc A * S.

Definition st_ret {S A : Type} (a : A) : stexc S A := fun s => (Returned a, s).

Definition st_bind {S A B : Type} (c : stexc S A) (k : A -> stexc S B) : stexc S B :=
  fun s =>
    match c s with
    | (Returned a, s') => k a s'
    | (Raised e, s') => (Raised e, s')
    end.

Definition st_lift {S A : Type} (c : exc A) : stexc S A := fun s => (c, s).

Definition st_get {S : Type} : stexc S S := fun s => (Returned s, s).

Definition st_modify {S : Type} (f : S -> S) : stexc S unit := fun s => (Returned tt, f s).

(** [try ... except Exception as e ...] around stateful code: the handler
    starts in the state the body had reached when it raised. *)
Definition st_try_except {S A : Type} (body : stexc S A)
    (handler : exception -> stexc S A) : stexc S A :=
  fun s =>
    match body s with
    | (Returned a, s') => (Returned a, s')
    | (Raised e, s') => handler e s'
    end.

(** JSON-like values.  Python floats occur in this code only as decimal
    literals and as numbers that are stored, copied and compared: a float is
    modelled by the rational it denotes. *)
Inductive value : Type :=
| VNone
| VBool (b : bool)
| VNum (q : Q)
| VStr (s : string)
| VList (l : list value)
| VDict (d : list (string * value)).

(** A Python [dict] with string keys, in insertion order. *)
Abbreviation odict V := (list (string * V)).
Abbreviation dict := (list (string * value)).

Fixpoint od_lookup {V : Type} (key : string) (d : odict V) : option V :=
  match d with
  | [] => None
  | (k, v) :: d' => if String.eqb k key then Some v else od_lookup key d'
  end.

(** [d[key] = v]: an existing key keeps its position, a new one goes last. *)
Fixpoint od_set {V : Type} (key : string) (v : V) (d : odict V) : odict V :=
  match d with
  | [] => [(key, v)]
  | (k, w) :: d' =>
      if String.eqb k key then (k, v) :: d' else (k, w) :: od_set key v d'
  end.

Definition od_keys {V : Type} (d : odict V) : list string := map fst d.
Definition od_values {V : Type} (d : odict V) : list V := map snd d.

(** [key in d] *)
Definition od_has {V : Type} (key : string) (d : odict V) : bool :=
  match od_lookup key d with Some _ => true | None => false end.

(** [d.get(key, default)] *)
Definition dict_get {V : Type} (d : odict V) (key : string) (default : V) : V :=
  match od_lookup key d with
  | Some v => v
  | None => default
  end.

(** [d[key]] *)
Definition dict_item {V : Type} (d : odict V) (key : string) : exc V :=
  match od_lookup key d with
  | Some v => Returned v
  | None => Raised (KeyError key)
  end.

(** ** Strings *)

Definition ascii_lower (c : Ascii.ascii) : Ascii.ascii :=
  let n := Ascii.nat_of_ascii c in
  if (65 <=? n)%nat && (n <=? 90)%nat then Ascii.ascii_of_nat (n + 32) else c.

(** [s.lower()] on the UTF-8 bytes of [s]: ASCII letters are lowered, the
    bytes of other code points are kept (Devanagari has no case).  This is
    [str.lower] on text whose cased letters are ASCII letters, as the
    keyword tables and the examples are; it does not lower the cased
    letters outside ASCII. *)
Fixpoint str_lower (s : string) : string :=
  match s with
  | EmptyString => EmptyString
  | String c s' => String (ascii_lower c) (str_lower s')
  end.

(** [needle in hay] for strings: substring test. *)
Fixpoint str_contains (needle hay : string) : bool :=
  if String.prefix needle hay then true
  else match hay with
       | EmptyString => false
       | String _ hay' => str_contains needle hay'
       end.

(** The white space of [str.strip()] and [str.isspace()], by the UTF-8
    bytes of its code points: U+0009 to U+000D, U+001C to U+0020 in one
    byte; U+0085 and U+00A0 in two; U+1680, U+2000 to U+200A, U+2028,
    U+2029, U+202F, U+205F and U+3000 in three. *)
Definition is_space1 (b1 : nat) : bool :=
  (((9 <=? b1) && (b1 <=? 13)) || ((28 <=? b1) && (b1 <=? 32)))%nat.

Definition is_space2 (b1 b2 : nat) : bool :=
  ((b1 =? 194) && ((b2 =? 133) || (b2 =? 160)))%nat.

Definition is_space3 (b1 b2 b3 : nat) : bool :=
  (((b1 =? 225) && (b2 =? 154) && (b3 =? 128))
   || ((b1 =? 226) && (b2 =? 128)
       && (((128 <=? b3) && (b3 <=? 138)) || (b3 =? 168) || (b3 =? 169)
           || (b3 =? 175)))
   || ((b1 =? 226) && (b2 =? 129) && (b3 =? 159))
   || ((b1 =? 227) && (b2 =? 128) && (b3 =? 128)))%nat.

(** [s.strip()] is empty: every character of [s] is white space. *)
Fixpoint str_is_blank (s : string) : bool :=
  match s with
  | EmptyString => true
  | String c1 s1 =>
      let b1 := Ascii.nat_of_ascii c1 in
      if is_space1 b1 then str_is_blank s1
      else
        match s1 with
        | EmptyString => false
        | String c2 s2 =>
            let b2 := Ascii.nat_of_ascii c2 in
            if is_space2 b1 b2 then str_is_blank s2
            else
              match s2 with
              | EmptyString => false
              | String c3 s3 =>
                  if is_space3 b1 b2 (Ascii.nat_of_ascii c3)
                  then str_is_blank s3
                  else false
              end
        end
  end.

(** [v == s] for a string literal [s]. *)
Definition value_is_str (v : value) (s : string) : bool :=
  match v with
  | VStr s' => String.eqb s' s
  | _ => false
  end.

(** [v in l] where [l] is a list of string literals. *)
Definition value_in_strs (v : value) (l : list string) : bool :=
  existsb (value_is_str v) l.

(** [x in v] for a string literal [x] and a dynamically typed [v]. *)
Definition py_in (x : string) (v : value) : exc bool :=
  match v with
  | VList l => Returned (existsb (fun y => value_is_str y x) l)
  | VStr s => Returned (str_contains x s)
  | VDict d => Returned (od_has x d)
  | VNone => Raised (TypeError "argument of type 'NoneType' is not iterable")
  | VBool _ => Raised (TypeError "argument of type 'bool' is not iterable")
  | VNum _ => Raised (TypeError "argument of type 'float' is not iterable")
  end.

(** [a < b] on the rationals. *)
Definition Qltb (a b : Q) : bool := negb (Qle_bool b a).

(** [v] is a number of the interval [[lo, hi]]. *)
Definition num_between (lo hi : Q) (v : value) : Prop :=
  match v with
  | VNum q => (lo <= q)%Q /\ (q <= hi)%Q
  | _ => False
  end.

(** Position of the first occurrence of [x] in [l] ([length l] if none). *)
Fixpoint index_of (x : string) (l : list string) : nat :=
  match l with
  | [] => 0
  | y :: l' => if String.eqb y x then 0 else S (index_of x l')
  end.

(** [max(keys, key=f)] started on its first element: a later element
    replaces the current best only when its key is strictly greater, so the
    first of several maxima wins. *)
Fixpoint max_from {A : Type} (f : A -> nat) (best : A) (l : list A) : A :=
  match l with
  | [] => best
  | x :: l' => max_from f (if (f best <? f x)%nat then x else best) l'
  end.

End Py.

Export Py.

Declare Scope exc_scope.
Delimit Scope exc_scope with exc.
Notation "x <- c ;; k" := (Py.bind c (fun x => k))
  (at level 100, c at next level, right associativity) : exc_scope.

Declare Scope stexc_scope.
Delimit Scope stexc_scope with st.
Notation "x <- c ;; k" := (Py.st_bind c (fun x => k))
  (at level 100, c at next level, right associativity) : stexc_scope.

(* ===================================================================== *)
(** * Dynamically typed reads *)
(* ===================================================================== *)

(** The weather data and the health reports are dictionaries that come
    from outside, so the code reads them without knowing what they hold. *)
Module Dyn.

(** Truth value of an object, as [if v:] tests it. *)
Definition truthy (v : value) : bool :=
  match v with
  | VNone => false
  | VBool b => b
  | VNum q => negb (Qeq_bool q 0)
  | VStr s => negb (String.eqb s "")
  | VList l => match l with [] => false | _ => true end
  | VDict d => match d with [] => false | _ => true end
  end.

(** [v.get(key, default)] *)
Definition get (v : value) (key : string) (default : value) : exc value :=
  match v with
  | VDict d => Returned (dict_get d key default)
  | _ => Raised (AttributeError "object has no attribute 'get'")
  end.

(** [v > n] for a number literal [n]; [True] and [False] count as 1 and 0. *)
Definition gt (v : value) (n : Q) : exc bool :=
  match v with
  | VNum q => Returned (Qltb n q)
  | VBool b => Returned (Qltb n (if b then 1 else 0))
  | _ => Raised (TypeError "'>' not supported between these instances")
  end.

(** [v < n] for a number literal [n]. *)
Definition lt (v : value) (n : Q) : exc bool :=
  match v with
  | VNum q => Returned (Qltb q n)
  | VBool b => Returned (Qltb (if b then 1 else 0) n)
  | _ => Raised (TypeError "'<' not supported between these instances")
  end.

(** [v[:n]], then iterated over: only a list can be sliced into items that
    the loops go on to read with [.get]. *)
Definition first_items (n : nat) (v : value) : exc (list value) :=
  match v with
  | VList l => Returned (take n l)
  | VStr s =>
      if String.eqb s "" || (n =? 0)%nat then Returned []
      else Raised (AttributeError "'str' object has no attribute 'get'")
  | _ => Raised (TypeError "object is not subscriptable")
  end.

End Dyn.

(* ===================================================================== *)
(** * Backend: [AIAgentService] *)
(* ===================================================================== *)

Module Backend.

(** The dictionary [detect_language] returns; [process_query] reads its two
    keys with [.get], so either may be absent. *)
Record language_info : Type := {
  li_language : option string;
  li_confidence : option Q
}.

(** A specialised agent: [agent.process_query(query, location, context,
    user_context)]; a location is a string or [None]. *)
Definition agent : Type :=
  string -> option string -> list string -> dict -> exc dict.

(** The collaborators of [AIAgentService]. *)
Record services : Type := {
  detect_language : string -> exc language_info;
  (* language_processor.translate(text, source_lang, target_lang) *)
  translate : value -> string -> string -> exc string;
  extract_location : string -> exc (option string);
  (* self.model.encode([text])[0], vectors of one length *)
  encode : string -> exc (list Q);
  (* knowledge_base.search_relevant_content(query, limit) *)
  search_relevant_content : string -> nat -> exc (list string);
  (* self.agents *)
  agents : odict agent;
  (* (datetime.now() - start_time).total_seconds() and datetime.now().isoformat() *)
  elapsed_seconds : Q;
  now_isoformat : string
}.

(** [self.agent_keywords], in the order the dictionary literal lists it. *)
Definition agent_keywords : odict (list string) :=
  [ ("weather",
      ["weather"; "rain"; "temperature"; "humidity"; "climate";
       "monsoon"; "drought"; "frost"; "मौसम"; "बारिश"; "तापमान"]);
    ("crop",
      ["crop"; "seed"; "variety"; "planting"; "harvest"; "pest";
       "disease"; "fertilizer"; "फसल"; "बीज"; "खाद"]);
    ("financial",
      ["loan"; "credit"; "insurance"; "subsidy"; "price"; "market";
       "cost"; "profit"; "ऋण"; "बीमा"; "सब्सिडी"; "कीमत"]);
    ("policy",
      ["scheme"; "policy"; "government"; "yojana"; "PM-KISAN";
       "registration"; "application"; "योजना"; "सरकार"; "आवेदन"]) ].

(** [agent_descriptions] of the semantic fallback. *)
Definition agent_descriptions : odict string :=
  [ ("weather", "weather forecast rain temperature climate conditions");
    ("crop", "agriculture farming crops seeds planting harvesting");
    ("financial", "money loan credit insurance subsidy market prices");
    ("policy", "government schemes policies programs registration") ].

(** [sum(1 for keyword in keywords if keyword in query_lower)] *)
Fixpoint keyword_score (keywords : list string) (query_lower : string) : nat :=
  match keywords with
  | [] => 0
  | keyword :: rest =>
      (if str_contains keyword query_lower then 1 else 0)
      + keyword_score rest query_lower
  end.

(** The scoring loop: [scores] receives, in table order, the categories
    whose score is positive. *)
Fixpoint score_agents (table : odict (list string)) (query_lower : string)
    (scores : odict nat) : odict nat :=
  match table with
  | [] => scores
  | (agent_type, keywords) :: rest =>
      let score := keyword_score keywords query_lower in
      score_agents rest query_lower
        (if (0 <? score)%nat then od_set agent_type score scores else scores)
  end.

(** [scores.get], the key function handed to [max]. *)
Definition scores_get (scores : odict nat) (agent_type : string) : nat :=
  default 0 (od_lookup agent_type scores).

(** [max(scores, key=scores.get)]; [None] on an empty [scores], which the
    guard [if scores:] excludes. *)
Definition max_scores (scores : odict nat) : option string :=
  match od_keys scores with
  | [] => None
  | k :: ks => Some (max_from (scores_get scores) k ks)
  end.

(** [np.dot] of two one-dimensional arrays of one length, as the encoder
    yields them: the exact sum of the products, where NumPy rounds. *)
Fixpoint np_dot (u v : list Q) : Q :=
  match u, v with
  | x :: u', y :: v' => (x * y + np_dot u' v')%Q
  | _, _ => 0%Q
  end.

(** The loop of the semantic fallback, carrying [(best_match, best_score)]. *)
Fixpoint semantic_loop (enc : string -> exc (list Q)) (query_embedding : list Q)
    (descriptions : odict string) (best : string * Q) : exc string :=
  match descriptions with
  | [] => Returned (fst best)
  | (agent_type, description) :: rest =>
      (desc_embedding <- enc description ;;
       let similarity := np_dot query_embedding desc_embedding in
       semantic_loop enc query_embedding rest
         (if Qltb (snd best) similarity then (agent_type, similarity) else best))%exc
  end.

(** [AIAgentService._classify_query] *)
Definition _classify_query (enc : string -> exc (list Q)) (query : string)
    : exc string :=
  let query_lower := str_lower query in
  let scores := score_agents agent_keywords query_lower [] in
  match max_scores scores with
  | Some best => Returned best
  | None =>
      (query_embedding <- enc query ;;
       semantic_loop enc query_embedding agent_descriptions ("crop", 0%Q))%exc
  end.

Definition fallback_en : string :=
  "I apologize, but I'm having trouble understanding your question right now. Please try rephrasing your agricultural query, and I'll do my best to help you.".

Definition fallback_hi : string :=
  "मुझे खेद है, मुझे अभी आपका प्रश्न समझने में कठिनाई हो रही है। कृपया अपना कृषि संबंधी प्रश्न दोबारा पूछें, और मैं आपकी सहायता करने की पूरी कोशिश करूंगा।".

(** [AIAgentService._get_fallback_response] *)
Definition _get_fallback_response (language : string) : string :=
  let fallback_responses := [("en", fallback_en); ("hi", fallback_hi)] in
  dict_get fallback_responses language fallback_en.

(** The local variables of [process_query] that its [except] clause reads and
    that are assigned inside the [try] block; [None] is "not yet assigned".
    ([query] and [start_time] are bound before the [try].) *)
Record locals : Type := {
  original_language : option string
}.

Definition assign_original_language (l : string) : stexc locals unit :=
  st_modify (fun _ => {| original_language := Some l |}).

(** Reading the local [original_language]. *)
Definition read_original_language : stexc locals string :=
  fun s =>
    match original_language s with
    | Some l => (Returned l, s)
    | None => (Raised (UnboundLocalError "original_language"), s)
    end.

(** Truth value of a location, as [if not location] tests it. *)
Definition location_given (location : option string) : bool :=
  match location with
  | Some l => negb (String.eqb l "")
  | None => false
  end.

Definition value_of_location (location : option string) : value :=
  match location with
  | Some l => VStr l
  | None => VNone
  end.

(** [agent = self.agents.get(agent_type)], with the default to the crop
    agent. *)
Definition select_agent (svc : services) (agent_type : string) : exc agent :=
  match od_lookup agent_type (agents svc) with
  | Some a => Returned a
  | None => dict_item (agents svc) "crop"
  end.

(** The [try] block of [process_query], steps 1 to 7. *)
Definition process_query_body (svc : services) (query : string)
    (location : option string) (context : option dict) : stexc locals dict :=
  ((* Step 1: language detection and translation *)
   language_info <- st_lift (detect_language svc query) ;;
   let lang := default "en" (li_language language_info) in
   _ <- assign_original_language lang ;;
   let confidence := default 0%Q (li_confidence language_info) in
   processed_query <-
     (if negb (String.eqb lang "en")
      then st_lift (translate svc (VStr query) lang "en")
      else st_ret query) ;;
   (* Step 2: extract location if not provided *)
   location <-
     (if negb (location_given location)
      then st_lift (extract_location svc processed_query)
      else st_ret location) ;;
   (* Step 3: classify *)
   agent_type <- st_lift (_classify_query (encode svc) processed_query) ;;
   (* Step 4: knowledge base *)
   context_data <- st_lift (search_relevant_content svc processed_query 5) ;;
   (* Step 5: the agent *)
   agent <- st_lift (select_agent svc agent_type) ;;
   response <- st_lift (agent processed_query location context_data
                          (default [] context)) ;;
   (* Step 6: translate the answer back *)
   answer <- st_lift (dict_item response "answer") ;;
   final_response <-
     (if negb (String.eqb lang "en")
      then st_lift (s <- translate svc answer "en" lang ;; Returned (VStr s))%exc
      else st_ret answer) ;;
   (* Step 7: the result *)
   st_ret
     [ ("answer", final_response);
       ("original_query", VStr query);
       ("processed_query", VStr processed_query);
       ("agent_type", VStr agent_type);
       ("language", VStr lang);
       ("language_confidence", VNum confidence);
       ("location", value_of_location location);
       ("sources", dict_get response "sources" (VList []));
       ("confidence_score", dict_get response "confidence" (VNum 0.8));
       ("processing_time", VNum (elapsed_seconds svc));
       ("suggestions", dict_get response "suggestions" (VList []));
       ("metadata",
         VDict [ ("context_used", VNum (inject_Z (Z.of_nat (length context_data))));
                 ("agent_confidence", dict_get response "confidence" (VNum 0.0));
                 ("timestamp", VStr (now_isoformat svc)) ]) ])%st.

(** The dictionary the [except] clause returns. *)
Definition fallback_result (svc : services) (query : string)
    (original_language : string) (e : exception) : dict :=
  [ ("answer", VStr (_get_fallback_response original_language));
    ("original_query", VStr query);
    ("agent_type", VStr "fallback");
    ("language", VStr original_language);
    ("error", VStr (str_of_exception e));
    ("processing_time", VNum (elapsed_seconds svc));
    ("confidence_score", VNum 0.1) ].

(** The [except Exception as e] clause of [process_query]: its dictionary
    literal is evaluated item by item, and the first item reads the local
    [original_language]. *)
Definition process_query_handler (svc : services) (query : string)
    (e : exception) : stexc locals dict :=
  (original_language <- read_original_language ;;
   st_ret (fallback_result svc query original_language e))%st.

(** ** Vocabulary of the statements about the classifier *)

(** The categories, highest priority first. *)
Definition priority_order : list string :=
  ["weather"; "crop"; "financial"; "policy"].

Definition rank (agent_type : string) : nat := index_of agent_type priority_order.

(** The keyword-match score of a category on a query. *)
Definition score_of (agent_type query : string) : nat :=
  keyword_score (dict_get agent_keywords agent_type []) (str_lower query).

(** ** The classifier over the operations of its libraries

    [_classify_query] calls three operations that are not its own:
    [str.lower], the encoder of the sentence-transformers model and
    [np.dot], whose floating-point result it compares with [>].  Here
    they are parameters of the code, so that what is proved of it holds
    for the operations of Python and NumPy themselves; [_classify_query]
    above is the instance at [str_lower], [np_dot] and the order of the
    rationals. *)
Section Classifier.

(** [str.lower] *)
Variable lower : string -> string.

(** The vectors of the encoder and the floats of [np.dot]. *)
Variables embedding float : Type.

(** [self.model.encode([text])[0]] *)
Variable encode : string -> exc embedding.

(** [np.dot], the literal [0.0] and the comparison [a > b]. *)
Variable dot : embedding -> embedding -> float.
Variable zero : float.
Variable gt : float -> float -> bool.

(** The loop of the semantic fallback, carrying [(best_match, best_score)]. *)
Fixpoint semantic_loop_over (query_embedding : embedding)
    (descriptions : odict string) (best : string * float) : exc string :=
  match descriptions with
  | [] => Returned (fst best)
  | (agent_type, description) :: rest =>
      (desc_embedding <- encode description ;;
       let similarity := dot query_embedding desc_embedding in
       semantic_loop_over query_embedding rest
         (if gt similarity (snd best) then (agent_type, similarity) else best))%exc
  end.

(** [AIAgentService._classify_query] *)
Definition _classify_query_over (query : string) : exc string :=
  let query_lower := lower query in
  let scores := score_agents agent_keywords query_lower [] in
  match max_scores scores with
  | Some best => Returned best
  | None =>
      (query_embedding <- encode query ;;
       semantic_loop_over query_embedding agent_descriptions ("crop", zero))%exc
  end.

End Classifier.

Arguments semantic_loop_over {embedding float} encode dot gt
  query_embedding descriptions best.
Arguments _classify_query_over lower {embedding float} encode dot zero gt query.

(** ** Specification side: the keyword-match score

    The score the specification ranks the categories by, written from its
    words and not from the code: the number of keywords of the category
    that occur in the text, a keyword occurring where the text holds it
    at some position. *)

(** The characters of [text] from [position] on, as many as [keyword]
    has, are [keyword]. *)
Definition occurs_at (keyword text : string) (position : nat) : bool :=
  String.eqb (String.substring position (String.length keyword) text) keyword.

Definition occurs_in (keyword text : string) : bool :=
  existsb (occurs_at keyword text) (seq 0 (S (String.length text))).


(** ** Vocabulary of the statements about the pipeline *)

(** The keys of the result of step 7 and those of the fallback. *)
Definition result_keys : list string :=
  ["answer"; "original_query"; "processed_query"; "agent_type"; "language";
   "language_confidence"; "location"; "sources"; "confidence_score";
   "processing_time"; "suggestions"; "metadata"].


(** The language [process_query] works with after a detection that
    returned [li]. *)
Definition language_of (li : language_info) : string :=
  default "en" (li_language li).

(** Steps 1 to 4 of [process_query] and the lookup of the agent go through
    on [query]: detection returns [li], the query to process is [pq], the
    location [loc], the knowledge-base context [context_data], and the
    classifier selects [agent_type], served by [agent]. *)
Definition reaches_agent (svc : services) (query : string)
    (location : option string) (li : language_info) (pq : string)
    (loc : option string) (agent_type : string)
    (context_data : list string) (a : agent) : Prop :=
  detect_language svc query = Returned li /\
  (if negb (String.eqb (language_of li) "en")
   then translate svc (VStr query) (language_of li) "en"
   else Returned query) = Returned pq /\
  (if negb (location_given location) then extract_location svc pq
   else Returned location) = Returned loc /\
  _classify_query (encode svc) pq = Returned agent_type /\
  search_relevant_content svc pq 5 = Returned context_data /\
  select_agent svc agent_type = Returned a.

(** [AIAgentService.process_query]; on entry no local of the [try] block is
    assigned. *)
Definition process_query (svc : services) (query : string) (user_id : value)
    (location : option string) (context : option dict) : exc dict :=
  fst (st_try_except
         (process_query_body svc query location context)
         (process_query_handler svc query)
         {| original_language := None |}).

(** ** Agent status *)

(** What the loop of [get_agent_status] stores for an agent whose
    [health_check] had the outcome [check]. *)
Definition agent_status (check : exc dict) : dict :=
  match check with
  | Returned agent_status => agent_status
  | Raised e => [ ("status", VStr "error"); ("error", VStr (str_of_exception e)) ]
  end.

(** [for name, agent in self.agents.items()]; [checks] gives, in the order
    of [self.agents], the outcome of [agent.health_check()]. *)
Fixpoint status_loop (checks : odict (exc dict)) (status : odict dict)
    : odict dict :=
  match checks with
  | [] => status
  | (name, check) :: rest =>
      status_loop rest (od_set name (agent_status check) status)
  end.

(** [s.get('status') == 'healthy'] *)
Definition reports_healthy (s : dict) : bool :=
  match od_lookup "status" s with
  | Some v => value_is_str v "healthy"
  | None => false
  end.

(** [AIAgentService.get_agent_status] *)
Definition get_agent_status (checks : odict (exc dict)) (now : string) : dict :=
  let status := status_loop checks [] in
  [ ("overall_status",
      VStr (if forallb reports_healthy (od_values status)
            then "healthy" else "degraded"));
    ("agents", VDict (map (fun entry => (fst entry, VDict (snd entry))) status));
    ("timestamp", VStr now) ].

End Backend.

(* ===================================================================== *)
(** * Backend: [WeatherAgent] *)
(* ===================================================================== *)

Module WeatherAgent.

(** The collaborators of [WeatherAgent]: the weather service and the six
    response generators, which format the weather data into a response. *)
Record services : Type := {
  get_current_weather : option string -> exc dict;
  (* weather_service.get_forecast(location, days) *)
  get_forecast : option string -> nat -> exc dict;
  (* weather_service.get_historical_data over the last 30 days *)
  get_historical_data : option string -> exc dict;
  (* generator(query, weather_data, location, context), by generator name *)
  generate : string -> string -> dict -> option string -> list string -> exc dict
}.

(** [any(word in query_lower for word in words)] *)
Definition any_word_in (words : list string) (query_lower : string) : bool :=
  existsb (fun word => str_contains word query_lower) words.

(** [WeatherAgent._classify_weather_query] *)
Definition _classify_weather_query (query : string) : string :=
  let query_lower := str_lower query in
  if any_word_in ["current"; "now"; "today"; "present"] query_lower
  then "current"
  else if any_word_in ["tomorrow"; "next"; "forecast"; "will"; "going to"]
            query_lower
  then "forecast"
  else if any_word_in ["last"; "previous"; "historical"; "past"] query_lower
  then "historical"
  else if any_word_in ["irrigate"; "water"; "irrigation"; "watering"] query_lower
  then "irrigation"
  else if any_word_in ["plant"; "sow"; "harvest"; "timing"] query_lower
  then "agricultural_timing"
  else if any_word_in ["alert"; "warning"; "extreme"; "dangerous"] query_lower
  then "alerts"
  else "general".

(** [WeatherAgent._get_weather_data]: an exception of the weather service
    leaves the empty dictionary. *)
Definition _get_weather_data (svc : services) (query_type : string)
    (location : option string) : exc dict :=
  try_except
    (if String.eqb query_type "current" then get_current_weather svc location
     else if String.eqb query_type "forecast" then get_forecast svc location 7
     else if String.eqb query_type "historical"
     then get_historical_data svc location
     else
       (current <- get_current_weather svc location ;;
        forecast <- get_forecast svc location 5 ;;
        Returned [ ("current", VDict current); ("forecast", VDict forecast) ])%exc)
    (fun e => Returned []).

(** [f"{location}"] *)
Definition format_location (location : option string) : string :=
  match location with
  | Some l => l
  | None => "None"
  end.

(** The names of [response_generators]. *)
Definition response_generators : list string :=
  ["current"; "forecast"; "irrigation"; "agricultural_timing"; "alerts";
   "general"].

(** [WeatherAgent._generate_weather_response] *)
Definition _generate_weather_response (svc : services) (query query_type : string)
    (weather_data : dict) (location : option string) (context : list string)
    : exc dict :=
  match weather_data with
  | [] =>
      Returned
        [ ("answer",
            VStr ("I couldn't retrieve weather data for "
                  +:+ format_location location
                  +:+ ". Please check the location name or try again later."));
          ("sources", VList []);
          ("confidence", VNum 0.1) ]
  | _ =>
      let generator :=
        if existsb (String.eqb query_type) response_generators
        then query_type else "general" in
      generate svc generator query weather_data location context
  end.

Definition sorry_answer : string :=
  "I'm sorry, I couldn't retrieve weather information at the moment. Please try again later.".

(** The Failure the [except] clause of [process_query] returns. *)
Definition failure_response (e : exception) : dict :=
  [ ("answer", VStr sorry_answer);
    ("sources", VList []);
    ("confidence", VNum 0.1);
    ("error", VStr (str_of_exception e)) ].

(** The [try] block of [process_query]. *)
Definition process_query_body (svc : services) (query : string)
    (location : option string) (context : list string) : exc dict :=
  (let query_type := _classify_weather_query query in
   weather_data <- _get_weather_data svc query_type location ;;
   response <- _generate_weather_response svc query query_type weather_data
                 location context ;;
   answer <- dict_item response "answer" ;;
   sources <- dict_item response "sources" ;;
   confidence <- dict_item response "confidence" ;;
   Returned
     [ ("answer", answer);
       ("sources", sources);
       ("confidence", confidence);
       ("suggestions", dict_get response "suggestions" (VList []));
       ("weather_data", VDict weather_data) ])%exc.

(** [WeatherAgent.process_query], an agent of the backend service. *)
Definition process_query (svc : services) : Backend.agent :=
  fun query location context user_context =>
    try_except (process_query_body svc query location context)
               (fun e => Returned (failure_response e)).

(** ** Weather alerts *)

Definition nl : string := "
".

Definition heat_wave_warning : string :=
  "🔥 HEAT WAVE WARNING: Extremely high temperatures. Protect crops and livestock.".

Definition frost_alert : string :=
  "❄️ FROST ALERT: Very low temperatures may damage crops.".

Definition heavy_rain_alert : string :=
  "⛈️ HEAVY RAIN ALERT: Risk of waterlogging and crop damage.".

Definition high_wind_warning : string :=
  "💨 HIGH WIND WARNING: Strong winds may damage standing crops.".

Definition flood_risk (date : string) : string :=
  "🌊 FLOOD RISK (" +:+ date +:+ "): Very heavy rainfall expected.".

Definition extreme_heat (date : string) : string :=
  "🔥 EXTREME HEAT (" +:+ date +:+ "): Take protective measures.".

(** The alerts of [_generate_alerts_response] on the current conditions. *)
Definition current_alerts (current : value) : exc (list string) :=
  if Dyn.truthy current
  then
    (temp <- Dyn.get current "temperature" (VNum 25) ;;
     rainfall <- Dyn.get current "rainfall" (VNum 0) ;;
     wind_speed <- Dyn.get current "wind_speed" (VNum 0) ;;
     hot <- Dyn.gt temp 40 ;;
     alerts <- (if hot : bool then Returned [heat_wave_warning]
                else (cold <- Dyn.lt temp 5 ;;
                      Returned (if cold : bool then [frost_alert] else []))) ;;
     heavy <- Dyn.gt rainfall 50 ;;
     let alerts := if heavy : bool
                   then (alerts ++ [heavy_rain_alert])%list else alerts in
     windy <- Dyn.gt wind_speed 40 ;;
     Returned (if windy : bool
               then (alerts ++ [high_wind_warning])%list else alerts))%exc
  else Returned [].

(** [for i, day_data in enumerate(forecast['daily'][:3])]; [day_label n] is
    the date [n] days from now, formatted by [strftime]. *)
Fixpoint forecast_alerts (day_label : nat -> string) (i : nat)
    (days : list value) (alerts : list string) : exc (list string) :=
  match days with
  | [] => Returned alerts
  | day_data :: rest =>
      (let date := day_label (i + 1) in
       day_rainfall <- Dyn.get day_data "rainfall" (VNum 0) ;;
       day_temp_max <- Dyn.get day_data "temp_max" (VNum 25) ;;
       flood <- Dyn.gt day_rainfall 75 ;;
       alerts <- (if flood : bool
                  then Returned (alerts ++ [flood_risk date])%list
                  else (heat <- Dyn.gt day_temp_max 42 ;;
                        Returned (if heat : bool
                                  then (alerts ++ [extreme_heat date])%list
                                  else alerts))) ;;
       forecast_alerts day_label (S i) rest alerts)%exc
  end.

(** The answer that lists the alerts. *)
Definition alerts_answer (location : option string) (alerts : list string)
    : string :=
  fold_left (fun answer alert => answer +:+ alert +:+ nl +:+ nl) alerts
    ("⚠️ Weather Alerts for " +:+ format_location location +:+ ":" +:+ nl +:+ nl)
  +:+ "🛡️ Protective Measures:" +:+ nl
  +:+ "• Monitor crops closely" +:+ nl
  +:+ "• Ensure adequate water supply" +:+ nl
  +:+ "• Secure farm equipment" +:+ nl
  +:+ "• Consider crop insurance claims if applicable" +:+ nl.

(** The answer when no alert was raised. *)
Definition no_alerts_answer (location : option string) : string :=
  "✅ No severe weather alerts for " +:+ format_location location
  +:+ " at this time." +:+ nl +:+ nl
  +:+ "Continue regular farming activities while monitoring weather updates.".

(** [WeatherAgent._generate_alerts_response] *)
Definition _generate_alerts_response (day_label : nat -> string)
    (query : string) (weather_data : dict) (location : option string)
    (context : list string) : exc dict :=
  (let current := dict_get weather_data "current" (VDict []) in
   let forecast := dict_get weather_data "forecast" (VDict []) in
   alerts <- current_alerts current ;;
   daily <- Dyn.get forecast "daily" VNone ;;
   alerts <- (if Dyn.truthy daily
              then (days <- Dyn.first_items 3 daily ;;
                    forecast_alerts day_label 0 days alerts)
              else Returned alerts) ;;
   Returned
     [ ("answer",
         VStr (match alerts with
               | [] => no_alerts_answer location
               | _ => alerts_answer location alerts
               end));
       ("sources", VList [VStr "Weather Monitoring System"; VStr "IMD Alerts"]);
       ("confidence", VNum (match alerts with [] => 0.8 | _ => 0.95 end));
       ("suggestions",
         VList [VStr "Set up weather notifications";
                VStr "Get crop protection tips";
                VStr "View insurance information"]) ])%exc.

(** ** Health *)

(** [WeatherAgent.health_check]; [now] is [datetime.now().isoformat()]. *)
Definition health_check (svc : services) (now : string) : exc dict :=
  try_except
    (test_data <- get_current_weather svc (Some "Delhi") ;;
     Returned
       [ ("status", VStr "healthy");
         ("last_check", VStr now);
         ("weather_service",
           VStr (match test_data with
                 | [] => "disconnected"
                 | _ => "connected"
                 end));
         ("capabilities",
           VList [VStr "current_weather"; VStr "weather_forecast";
                  VStr "irrigation_advice"; VStr "agricultural_timing";
                  VStr "weather_alerts"]) ])%exc
    (fun e =>
       Returned [ ("status", VStr "unhealthy");
                  ("error", VStr (str_of_exception e));
                  ("last_check", VStr now) ]).

End WeatherAgent.

(* ===================================================================== *)
(** * Frontend: [AgentCoordinator] *)
(* ===================================================================== *)

Module Coordinator.

(** A call together with the logical time it takes to complete. *)
Record timed (A : Type) : Type := {
  outcome : A;
  duration : nat
}.
Arguments outcome {A} t.
Arguments duration {A} t.

(** The prompts sent to the language model, by the data they are built
    from. *)
Inductive prompt : Type :=
| AnalysisPrompt (query : string) (context : option dict)
| SynthesisPrompt (query : string) (analysis : value) (context : option dict)
    (agent_responses : odict dict).

(** The collaborators of [AgentCoordinator]. *)
Record services : Type := {
  detect_language : string -> exc string;
  translate_to_english : string -> exc string;
  translate_from_english : value -> string -> exc value;
  (* llm_interface.get_completion and json.loads *)
  get_completion : prompt -> exc string;
  json_loads : string -> exc value;
  (* the four specialised agents *)
  crop_advisor_get_advice : string -> option dict -> timed (exc dict);
  weather_agent_get_forecast : string -> option dict -> timed (exc dict);
  finance_agent_get_financial_advice : string -> option dict -> timed (exc dict);
  pest_disease_agent_diagnose_and_treat : string -> option dict -> timed (exc dict);
  (* response_formatter.format_response *)
  format_response : dict -> string -> option dict -> exc dict;
  elapsed_seconds : Q;
  now_isoformat : string
}.

(** ** Conversation memory

    [self.memory] is langchain's [ConversationBufferWindowMemory], an
    external library class: [save_context] appends the human and the AI
    message to [chat_memory.messages], [clear] empties that list, and the
    window [k] only limits what [buffer] returns, the last [2 * k]
    messages. *)
Inductive message : Type :=
| HumanMessage (content : value)
| AIMessage (content : value).

Record memory : Type := {
  k : nat;
  chat_memory : list message
}.

(** [ConversationBufferWindowMemory(k=5, ...)] of [__init__]. *)
Definition new_memory : memory := {| k := 5; chat_memory := [] |}.

Definition save_context (input output : value) (m : memory) : memory :=
  {| k := k m; chat_memory := (chat_memory m ++ [HumanMessage input; AIMessage output])%list |}.

Definition memory_clear (m : memory) : memory :=
  {| k := k m; chat_memory := [] |}.

(** [messages[-k * 2:] if k > 0 else []] *)
Definition buffer (m : memory) : list message :=
  if (0 <? k m)%nat
  then drop (length (chat_memory m) - 2 * k m) (chat_memory m)
  else [].

(** [AgentCoordinator.clear_memory] *)
Definition clear_memory : stexc memory unit := st_modify memory_clear.

(** ** Query analysis *)

(** [v.get(key, default)] on a dynamically typed [v]. *)
Definition value_get (v : value) (key : string) (default : value) : exc value :=
  match v with
  | VDict d => Returned (dict_get d key default)
  | _ => Raised (AttributeError "object has no attribute 'get'")
  end.

(** [v[key]] on a dynamically typed [v]. *)
Definition value_item (v : value) (key : string) : exc value :=
  match v with
  | VDict d => dict_item d key
  | _ => Raised (TypeError "indices must be integers")
  end.

(** [v[key] = x] on a dynamically typed [v]. *)
Definition value_set_item (v : value) (key : string) (x : value) : exc dict :=
  match v with
  | VDict d => Returned (od_set key x d)
  | _ => Raised (TypeError "object does not support item assignment")
  end.

(** The analysis [_analyze_query] returns when the model call fails. *)
Definition default_analysis (query : string) : dict :=
  [ ("type", VStr "general");
    ("complexity", VStr "medium");
    ("urgency", VStr "medium");
    ("required_agents", VList [VStr "crop_advisor"]);
    ("location_required", VBool true);
    ("temporal_aspect", VStr "immediate");
    ("keywords", VList (map VStr (String.words query)));
    ("user_intent", VStr "Agricultural advice request") ].

(** [AgentCoordinator._analyze_query] *)
Definition _analyze_query (svc : services) (query : string)
    (context : option dict) : exc value :=
  try_except
    (response <- get_completion svc (AnalysisPrompt query context) ;;
     json_loads svc response)%exc
    (fun e => Returned (VDict (default_analysis query))).

(** ** Routing *)

(** The dictionary an agent wrapper returns when its agent raises. *)
Definition error_response (e : exception) (agent_name : string) : dict :=
  [ ("error", VStr (str_of_exception e)); ("agent", VStr agent_name) ].

(** [try: return await agent(...)  except Exception as e: return {...}] *)
Definition call_guarded (call : timed (exc dict)) (agent_name : string)
    : timed (exc dict) :=
  {| outcome := try_except (outcome call)
                  (fun e => Returned (error_response e agent_name));
     duration := duration call |}.

Definition _call_crop_advisor (svc : services) (query : string)
    (context : option dict) : timed (exc dict) :=
  call_guarded (crop_advisor_get_advice svc query context) "crop_advisor".

Definition _call_weather_agent (svc : services) (query : string)
    (context : option dict) : timed (exc dict) :=
  call_guarded (weather_agent_get_forecast svc query context) "weather_agent".

Definition _call_finance_agent (svc : services) (query : string)
    (context : option dict) : timed (exc dict) :=
  call_guarded (finance_agent_get_financial_advice svc query context) "finance_agent".

Definition _call_pest_disease_agent (svc : services) (query : string)
    (context : option dict) : timed (exc dict) :=
  call_guarded (pest_disease_agent_diagnose_and_treat svc query context)
    "pest_disease_agent".

(** [a or b] with [b] evaluated only when [a] is false. *)
Definition or_else (a b : exc bool) : exc bool :=
  (x <- a ;; if x : bool then Returned true else b)%exc.

(** [name in required_agents or analysis['type'] in types] *)
Definition is_required (analysis : dict) (name : string) (types : list string)
    : exc bool :=
  let required_agents :=
    dict_get analysis "required_agents" (VList [VStr "crop_advisor"]) in
  or_else (py_in name required_agents)
          (t <- dict_item analysis "type" ;; Returned (value_in_strs t types))%exc.

(** [asyncio.gather] over [tasks] with [return_exceptions=True]: the tasks run
    concurrently, the caller resumes when the last one has completed, and the
    results come in task order, a raised exception standing for the result
    of its task.  No timeout is set on the tasks or on the gathering. *)
Definition gather (tasks : list (timed (exc dict))) : timed (list (dict + exception)) :=
  {| outcome := map (fun t => match outcome t with
                              | Returned d => inl d
                              | Raised e => inr e
                              end) tasks;
     duration := foldr (fun t m => Nat.max (duration t) m) 0 tasks |}.

Definition agent_names : list string :=
  ["crop_advisor"; "weather_agent"; "finance_agent"; "pest_disease_agent"].

(** [for i, result in enumerate(results)]: a result that is not an
    exception is stored under [agent_names[i]]; an exception is logged. *)
Fixpoint collect_results (i : nat) (results : list (dict + exception))
    (agent_responses : odict dict) : odict dict :=
  match results with
  | [] => agent_responses
  | result :: rest =>
      collect_results (S i) rest
        (match result, agent_names !! i with
         | inl d, Some name => od_set name d agent_responses
         | _, _ => agent_responses
         end)
  end.

(** The tasks [_route_to_agents] creates, in creation order. *)
Definition select_tasks (svc : services) (query : string) (analysis : dict)
    (context : option dict) : exc (list (timed (exc dict))) :=
  (let tasks : list (timed (exc dict)) := [] in
   crop <- is_required analysis "crop_advisor" ["crop_selection"; "general"] ;;
   let tasks := if crop : bool
                then (tasks ++ [_call_crop_advisor svc query context])%list else tasks in
   weather <- is_required analysis "weather_agent" ["weather"] ;;
   let tasks := if weather : bool
                then (tasks ++ [_call_weather_agent svc query context])%list else tasks in
   finance <- is_required analysis "finance_agent" ["finance"; "market"] ;;
   let tasks := if finance : bool
                then (tasks ++ [_call_finance_agent svc query context])%list else tasks in
   pest <- is_required analysis "pest_disease_agent" ["pest_disease"] ;;
   let tasks := if pest : bool
                then (tasks ++ [_call_pest_disease_agent svc query context])%list else tasks in
   Returned tasks)%exc.

(** [AgentCoordinator._route_to_agents]: the mapping of agent responses,
    with the time the dispatch took. *)
Definition _route_to_agents (svc : services) (query : string) (analysis : value)
    (context : option dict) : exc (timed (odict dict)) :=
  (a <- match analysis with
        | VDict d => Returned d
        | _ => Raised (AttributeError "object has no attribute 'get'")
        end ;;
   tasks <- select_tasks svc query a context ;;
   match tasks with
   | [] => Returned {| outcome := []; duration := 0 |}
   | _ =>
       let results := gather tasks in
       Returned {| outcome := collect_results 0 (outcome results) [];
                   duration := duration results |}
   end)%exc.

(** The dictionary a guarded call leaves in the results: the agent's own
    when it returns, the error dictionary naming the agent when it raises. *)
Definition guarded_result (call : timed (exc dict)) (agent_name : string) : dict :=
  match outcome call with
  | Returned d => d
  | Raised e => error_response e agent_name
  end.

(** ** Synthesis *)

(** A Failure entry: a response that carries the key [error]. *)
Definition is_failure (response : dict) : bool := od_has "error" response.

(** Every response of the mapping is a Failure. *)
Definition all_failed (agent_responses : odict dict) : Prop :=
  Forall (fun response => is_failure response = true) (od_values agent_responses).

(** [d] is the one response of the mapping that is not a Failure. *)
Definition only_success (d : dict) (agent_responses : odict dict) : Prop :=
  In d (od_values agent_responses) /\ is_failure d = false /\
  forall d', In d' (od_values agent_responses) -> is_failure d' = false -> d' = d.

Definition priority : list string :=
  ["crop_advisor"; "weather_agent"; "finance_agent"; "pest_disease_agent"].

(** [for agent in priority: if agent in agent_responses and 'error' not in
    agent_responses[agent]: return agent_responses[agent]] *)
Fixpoint first_by_priority (names : list string) (agent_responses : odict dict)
    : option dict :=
  match names with
  | [] => None
  | agent :: rest =>
      match od_lookup agent agent_responses with
      | Some response =>
          if negb (od_has "error" response) then Some response
          else first_by_priority rest agent_responses
      | None => first_by_priority rest agent_responses
      end
  end.

(** [for response in agent_responses.values(): if 'error' not in response:
    return response] *)
Fixpoint first_without_error (responses : list dict) : option dict :=
  match responses with
  | [] => None
  | response :: rest =>
      if negb (od_has "error" response) then Some response
      else first_without_error rest
  end.

Definition no_valid_response : dict :=
  [ ("answer", VStr "No valid response available"); ("confidence", VNum 0.0) ].

(** [AgentCoordinator._get_best_agent_response] *)
Definition _get_best_agent_response (agent_responses : odict dict) : dict :=
  match first_by_priority priority agent_responses with
  | Some response => response
  | None =>
      match first_without_error (od_values agent_responses) with
      | Some response => response
      | None => no_valid_response
      end
  end.

Definition difficulty_answer : string :=
  "मुझे इस समय उत्तर देने में कुछ कठिनाई हो रही है।".

(** The [except] clause of [_synthesize_responses]. *)
Definition synthesis_fallback (agent_responses : odict dict) : dict :=
  let best_response := _get_best_agent_response agent_responses in
  [ ("answer", dict_get best_response "answer" (VStr difficulty_answer));
    ("confidence", VNum 0.5);
    ("sources", dict_get best_response "sources" (VList []));
    ("key_recommendations", dict_get best_response "recommendations" (VList []));
    ("caveats", VList [VStr "Fallback response due to synthesis error"]);
    ("follow_up_questions", VList []) ].

(** The [try] block of [_synthesize_responses]: the generation step and
    the parsing of its output. *)
Definition generate_synthesis (svc : services) (query : string)
    (agent_responses : odict dict) (analysis : value) (context : option dict)
    : exc dict :=
  (response <- get_completion svc
                 (SynthesisPrompt query analysis context agent_responses) ;;
   synthesized <- json_loads svc response ;;
   synthesized <- value_set_item synthesized "synthesis_timestamp"
                    (VStr (now_isoformat svc)) ;;
   Returned (od_set "agents_consulted"
               (VList (map VStr (od_keys agent_responses))) synthesized))%exc.

(** [AgentCoordinator._synthesize_responses], from its [try] block on.
    The prompt is built before the [try]: its [json.dumps] calls return on
    the JSON values of the model, so the prompt is given by the data it is
    built from, and what is stated of this function holds from the
    generation step on. *)
Definition _synthesize_responses (svc : services) (query : string)
    (agent_responses : odict dict) (analysis : value) (context : option dict)
    : exc dict :=
  try_except
    (generate_synthesis svc query agent_responses analysis context)
    (fun e => Returned (synthesis_fallback agent_responses)).

(** ** The pipeline *)

Definition technical_problem_answer : string :=
  "मुझे खुशी होगी कि मैं आपकी मदद कर सकूं, लेकिन अभी मुझे कुछ तकनीकी समस्या का सामना करना पड़ रहा है। कृपया थोड़ी देर बाद कोशिश करें।".

(** The dictionary the [except] clause of [process_query] returns. *)
Definition error_result (e : exception) : dict :=
  [ ("answer", VStr technical_problem_answer);
    ("confidence", VNum 0.0);
    ("sources", VList []);
    ("error", VStr (str_of_exception e));
    ("language", VStr "hi") ].

(** The [try] block of [process_query]. *)
Definition process_query_body (svc : services) (query : string)
    (user_context : option dict) : stexc memory dict :=
  (detected_language <- st_lift (detect_language svc query) ;;
   let not_english := negb (String.eqb detected_language "en") in
   english_query <-
     (if not_english then st_lift (translate_to_english svc query)
      else st_ret query) ;;
   query_analysis <- st_lift (_analyze_query svc english_query user_context) ;;
   routed <- st_lift (_route_to_agents svc english_query query_analysis
                        user_context) ;;
   let agent_responses := outcome routed in
   synthesized_response <-
     st_lift (_synthesize_responses svc english_query agent_responses
                query_analysis user_context) ;;
   synthesized_response <-
     (if not_english
      then st_lift (answer <- dict_item synthesized_response "answer" ;;
                    translated <- translate_from_english svc answer
                                    detected_language ;;
                    Returned (od_set "answer" translated synthesized_response))%exc
      else st_ret synthesized_response) ;;
   formatted_response <-
     st_lift (format_response svc synthesized_response detected_language
                user_context) ;;
   output <- st_lift (dict_item formatted_response "answer") ;;
   _ <- st_modify (save_context (VStr query) output) ;;
   answer <- st_lift (dict_item formatted_response "answer") ;;
   confidence <- st_lift (dict_item formatted_response "confidence") ;;
   sources <- st_lift (dict_item formatted_response "sources") ;;
   query_type <- st_lift (value_item query_analysis "type") ;;
   urgency <- st_lift (value_get query_analysis "urgency" (VStr "normal")) ;;
   st_ret
     [ ("answer", answer);
       ("confidence", confidence);
       ("sources", sources);
       ("recommendations", dict_get formatted_response "recommendations" (VList []));
       ("follow_up_questions",
         dict_get formatted_response "follow_up_questions" (VList []));
       ("language", VStr detected_language);
       ("processing_time", VNum (elapsed_seconds svc));
       ("agents_used", VList (map VStr (od_keys agent_responses)));
       ("query_type", query_type);
       ("urgency", urgency) ])%st.

(** The keys of the dictionary [process_query] returns from its [try]
    block and of the one it returns from its [except] clause. *)
Definition result_keys : list string :=
  ["answer"; "confidence"; "sources"; "recommendations"; "follow_up_questions";
   "language"; "processing_time"; "agents_used"; "query_type"; "urgency"].

Definition error_keys : list string :=
  ["answer"; "confidence"; "sources"; "error"; "language"].

(** [AgentCoordinator.process_query]; the state is [self.memory], the one
    memory of the coordinator.  [session_id] is accepted and not used. *)
Definition process_query (svc : services) (query : string)
    (user_context : option dict) (session_id : option string)
    : stexc memory dict :=
  st_try_except (process_query_body svc query user_context)
                (fun e => st_ret (error_result e)).

(** ** Follow-up suggestions *)

(** The two texts the follow-up prompt is built from: what [json.dumps]
    makes of [conversation_history[-3:]] and of the user context. *)
Record follow_up_prompt : Type := {
  history_text : string;
  context_text : string
}.

(** The questions [get_follow_up_suggestions] falls back to. *)
Definition default_suggestions : value :=
  VList [ VStr "What is the best time to plant crops in my region?";
          VStr "How can I improve soil health naturally?";
          VStr "What government schemes are available for farmers?" ].

(** [AgentCoordinator.get_follow_up_suggestions].  The prompt is built
    before the [try] block is entered: [json_dumps] is [json.dumps], which
    raises on an object it cannot serialise, first on the last three
    entries of the history, then on the user context unless that is empty
    or [None].  [complete] is [llm_interface.get_completion] on the
    prompt. *)
Definition get_follow_up_suggestions (svc : services)
    (json_dumps : value -> exc string)
    (complete : follow_up_prompt -> exc string)
    (conversation_history : list dict) (user_context : option dict)
    : exc value :=
  (history_text <-
     json_dumps
       (VList (map VDict (drop (length conversation_history - 3)
                               conversation_history))) ;;
   context_text <-
     match user_context with
     | Some (item :: rest) => json_dumps (VDict (item :: rest))
     | _ => Returned "None"
     end ;;
   try_except
     (response <- complete {| history_text := history_text;
                              context_text := context_text |} ;;
      json_loads svc response)
     (fun e => Returned default_suggestions))%exc.

End Coordinator.

(* ===================================================================== *)
(** * Frontend: the session routes of [query_handler.py] *)
(* ===================================================================== *)

Module QueryHandler.

(** An entry of the module-level dictionary [active_sessions]. *)
Record session : Type := {
  created_at : string;
  queries : list dict;
  context : dict
}.

(** The module-level state: [active_sessions] and the single
    [coordinator = AgentCoordinator()], of which only the memory changes. *)
Record state : Type := {
  active_sessions : gmap string session;
  coordinator : Coordinator.memory
}.

Definition initial_state : state :=
  {| active_sessions := ∅; coordinator := Coordinator.new_memory |}.

Record services : Type := {
  coordinator_services : Coordinator.services;
  (* text_processor.clean_text *)
  clean_text : string -> exc string;
  (* str(uuid.uuid4()) *)
  uuid4 : string;
  (* datetime.now(), as the requests see it *)
  now : string
}.

Record QueryRequest : Type := {
  query : string;
  language : option string;
  location : option dict;
  user_context : option dict;
  session_id : option string
}.

(** Running a method of the coordinator on the module state. *)
Definition on_coordinator {A : Type} (c : stexc Coordinator.memory A)
    : stexc state A :=
  fun st =>
    let (r, m) := c (coordinator st) in
    (r, {| active_sessions := active_sessions st; coordinator := m |}).

(** [session_id in active_sessions] *)
Definition is_active (session_id : string) (st : state) : bool :=
  bool_decide (is_Some (active_sessions st !! session_id)).

(** The second half of [get_session_id]: a new session under a fresh id. *)
Definition open_session (svc : services) : stexc state string :=
  fun st =>
    let new_session_id := uuid4 svc in
    (Returned new_session_id,
     {| active_sessions :=
          <[ new_session_id :=
               {| created_at := now svc; queries := []; context := [] |} ]>
            (active_sessions st);
        coordinator := coordinator st |}).

(** [get_session_id] *)
Definition get_session_id (svc : services) (session_id : option string)
    : stexc state string :=
  fun st =>
    match session_id with
    | Some sid =>
        if negb (String.eqb sid "") && is_active sid st
        then (Returned sid, st)
        else open_session svc st
    | None => open_session svc st
    end.

(** [active_sessions[session_id]["queries"].append(entry)] *)
Definition append_query (session_id : string) (entry : dict) (st : state) : state :=
  {| active_sessions :=
       alter (fun s => {| created_at := created_at s;
                          queries := (queries s ++ [entry])%list;
                          context := context s |})
             session_id (active_sessions st);
     coordinator := coordinator st |}.

(** The entry the route stores for a processed query. *)
Definition query_entry (svc : services) (query : string) (answer : value) : dict :=
  [ ("query", VStr query); ("response", answer); ("timestamp", VStr (now svc)) ].

(** [{**d, **e}] *)
Definition dict_update (d e : dict) : dict :=
  fold_left (fun acc kv => od_set (fst kv) (snd kv) acc) e d.

(** The body of the route [POST /query]. *)
Definition process_query_body (svc : services) (request : QueryRequest)
    : stexc state dict :=
  (query <- st_lift (clean_text svc (query request)) ;;
   _ <- (if str_is_blank query
         then st_lift (Raised (HTTPException 400 "Query cannot be empty"))
         else st_ret tt) ;;
   session_id <- get_session_id svc (session_id request) ;;
   let user_context :=
     od_set "timestamp" (VStr (now svc))
       (od_set "session_id" (VStr session_id)
          (dict_update (default [] (user_context request))
                       (default [] (location request)))) in
   response <- on_coordinator
                 (Coordinator.process_query (coordinator_services svc) query
                    (Some user_context) (Some session_id)) ;;
   st <- st_get ;;
   _ <- (if is_active session_id st
         then (answer <- st_lift (dict_item response "answer") ;;
               st_modify (append_query session_id (query_entry svc query answer)))
         else st_ret tt) ;;
   answer <- st_lift (dict_item response "answer") ;;
   st_ret
     [ ("answer", answer);
       ("confidence", dict_get response "confidence" (VNum 0.5));
       ("language", dict_get response "language"
                      (match language request with
                       | Some l => VStr l
                       | None => VNone
                       end));
       ("sources", dict_get response "sources" (VList []));
       ("recommendations", dict_get response "recommendations" (VList []));
       ("follow_up_questions", dict_get response "follow_up_questions" (VList []));
       ("processing_time", dict_get response "processing_time" (VNum 0.0));
       ("agents_used", dict_get response "agents_used" (VList []));
       ("query_type", dict_get response "query_type" (VStr "general"));
       ("urgency", dict_get response "urgency" (VStr "normal"));
       ("session_id", VStr session_id) ])%st.

(** The route [POST /query]: an [HTTPException] is re-raised, any other
    exception becomes a 500.  (The field validation of the [QueryResponse]
    model is not part of the model.) *)
Definition process_query (svc : services) (request : QueryRequest)
    : stexc state dict :=
  st_try_except (process_query_body svc request)
    (fun e =>
       match e with
       | HTTPException _ _ => st_lift (Raised e)
       | _ => st_lift (Raised (HTTPException 500
                         ("Internal server error: " +:+ str_of_exception e)))
       end).

(** The route [DELETE /session/{session_id}]. *)
Definition clear_session (session_id : string) : stexc state dict :=
  st_try_except
    (_ <- st_modify (fun st =>
            if is_active session_id st
            then {| active_sessions := delete session_id (active_sessions st);
                    coordinator := coordinator st |}
            else st) ;;
     (* Clear agent memory for this session *)
     _ <- on_coordinator Coordinator.clear_memory ;;
     st_ret [ ("message", VStr "Session cleared successfully") ])%st
    (fun e => st_lift (Raised (HTTPException 500 (str_of_exception e)))).

(** What a session holds: the [queries] of [GET /session/{id}/history]. *)
Definition session_queries (session_id : string) (st : state) : option (list dict) :=
  queries <$> active_sessions st !! session_id.

(** The route [GET /session/{session_id}/history].  The 404 is raised
    inside the [try] block, whose [except Exception] clause has no
    re-raise for an [HTTPException]. *)
Definition get_session_history (session_id : string) : stexc state dict :=
  st_try_except
    (st <- st_get ;;
     match active_sessions st !! session_id with
     | None => st_lift (Raised (HTTPException 404 "Session not found"))
     | Some session_data =>
         st_ret [ ("session_id", VStr session_id);
                  ("created_at", VStr (created_at session_data));
                  ("queries", VList (map VDict (queries session_data)));
                  ("context", VDict (context session_data)) ]
     end)%st
    (fun e => st_lift (Raised (HTTPException 500 (str_of_exception e)))).

(** An uploaded file: its content type and the outcome of reading it. *)
Record UploadFile : Type := {
  content_type : option string;
  read : exc string
}.

(** The placeholder the voice route uses for the transcription. *)
Definition transcribed_text : string := "आज मौसम कैसा है?".

(** The route [POST /query/voice]; its parameter [location] is not used. *)
Definition process_voice_query (svc : services) (audio_file : UploadFile)
    (language : string) (location : option string) (session_id : option string)
    : stexc state dict :=
  st_try_except
    (_ <- match content_type audio_file with
          | Some t =>
              if String.prefix "audio/" t then st_ret tt
              else st_lift (Raised (HTTPException 400 "Invalid audio file"))
          | None =>
              st_lift (Raised (AttributeError
                         "'NoneType' object has no attribute 'startswith'"))
          end ;;
     audio_data <- st_lift (read audio_file) ;;
     let query_request :=
       {| query := transcribed_text;
          language := Some language;
          location := None;
          user_context := None;
          session_id := session_id |} in
     response <- process_query svc query_request ;;
     st_ret (dict_update [ ("transcribed_text", VStr transcribed_text) ]
                         response))%st
    (fun e => st_lift (Raised (HTTPException 500 (str_of_exception e)))).

(** The route [GET /suggestions]; its parameter [context] is not used. *)
Definition get_follow_up_suggestions (svc : services)
    (json_dumps : value -> exc string)
    (complete : Coordinator.follow_up_prompt -> exc string)
    (session_id : option string) : stexc state dict :=
  st_try_except
    (st <- st_get ;;
     let session_data :=
       match session_id with
       | Some sid =>
           if negb (String.eqb sid "") then active_sessions st !! sid else None
       | None => None
       end in
     let conversation_history :=
       match session_data with Some s => queries s | None => [] end in
     let user_context :=
       match session_data with Some s => context s | None => [] end in
     suggestions <-
       st_lift (Coordinator.get_follow_up_suggestions (coordinator_services svc)
                  json_dumps complete conversation_history
                  (Some user_context)) ;;
     st_ret [ ("suggestions", suggestions) ])%st
    (fun e => st_lift (Raised (HTTPException 500 (str_of_exception e)))).

End QueryHandler.

(* ===================================================================== *)
(** * Frontend: [CropAdvisorAgent] *)
(* ===================================================================== *)

Module CropAdvisor.

Definition sorry_answer : string :=
  "क्षमा करें, मुझे फसल संबंधी सलाह देने में कुछ समस्या हो रही है।".

(** The Failure the [except] clause of [get_advice] returns. *)
Definition failure_response (e : exception) : dict :=
  [ ("answer", VStr sorry_answer);
    ("confidence", VNum 0.0);
    ("error", VStr (str_of_exception e));
    ("agent", VStr "crop_advisor") ].

(** [CropAdvisorAgent.get_advice]; [advice] is the outcome of the steps of
    its [try] block up to [_generate_crop_advice]. *)
Definition get_advice (advice : exc dict) : exc dict :=
  try_except
    (advice <- advice ;;
     answer <- dict_item advice "response" ;;
     confidence <- dict_item advice "confidence" ;;
     recommendations <- dict_item advice "recommendations" ;;
     sources <- dict_item advice "sources" ;;
     Returned
       [ ("answer", answer);
         ("confidence", confidence);
         ("recommendations", recommendations);
         ("sources", sources);
         ("crop_suggestions", dict_get advice "crop_suggestions" (VList []));
         ("timing_advice", dict_get advice "timing_advice" (VDict []));
         ("practices", dict_get advice "practices" (VDict []));
         ("agent", VStr "crop_advisor") ])%exc
    (fun e => Returned (failure_response e)).

(** ** Advice generation *)

(** [CropAdvisorAgent._get_current_season]; [current_month] is
    [datetime.now().month]. *)
Definition _get_current_season (current_month : nat) : string :=
  if existsb (Nat.eqb current_month) [6; 7; 8; 9; 10] then "kharif"
  else if existsb (Nat.eqb current_month) [11; 12; 1; 2; 3] then "rabi"
  else "zaid".

(** What the advice prompt is built from. *)
Record advice_prompt : Type := {
  prompt_query : string;
  prompt_intent : value;
  prompt_location : dict;
  prompt_season : string;
  prompt_crops : list dict
}.

(** The collaborators of [_generate_crop_advice]. *)
Record services : Type := {
  current_month : nat;
  (* llm_interface.get_completion and json.loads *)
  get_completion : advice_prompt -> exc string;
  json_loads : string -> exc value;
  now_isoformat : string
}.

(** The advice [_generate_crop_advice] returns when the generation
    fails. *)
Definition advice_fallback (current_season : string) (e : exception) : dict :=
  [ ("response",
      VStr ("आपके क्षेत्र में " +:+ current_season
            +:+ " सीजन के लिए उपयुक्त फसलों की सिफारिश करने के लिए मुझे और जानकारी चाहिए।"));
    ("confidence", VNum 0.3);
    ("recommendations", VList [VStr "अपने स्थानीय कृषि विशेषज्ञ से सलाह लें"]);
    ("sources", VList [VStr "स्थानीय कृषि विभाग"]);
    ("error", VStr (str_of_exception e)) ].

(** [CropAdvisorAgent._generate_crop_advice] *)
Definition _generate_crop_advice (svc : services) (query : string)
    (query_intent : value) (relevant_crops : list dict) (location_info : dict)
    : exc dict :=
  let current_season := _get_current_season (current_month svc) in
  let advice_prompt :=
    {| prompt_query := query;
       prompt_intent := query_intent;
       prompt_location := location_info;
       prompt_season := current_season;
       prompt_crops := relevant_crops |} in
  try_except
    (response <- get_completion svc advice_prompt ;;
     advice <- json_loads svc response ;;
     advice <- Coordinator.value_set_item advice "generated_at"
                 (VStr (now_isoformat svc)) ;;
     let advice := od_set "location_context" (VDict location_info) advice in
     Returned (od_set "season_context" (VStr current_season) advice))%exc
    (fun e => Returned (advice_fallback current_season e)).

(** ** The crop database and the relevant crops *)

(** An entry of the crop database.  Every entry of [_load_crop_database]
    has these ten fields, so the reads [crop_data.get(field, default)] of
    the code always find the field. *)
Record crop_info : Type := {
  hindi_name : string;
  seasons : list string;
  duration : string;
  water_requirement : string;
  soil_type : list string;
  temperature : string;
  rainfall : string;
  states : list string;
  varieties : odict dict;
  cultivation_practices : dict
}.

Definition rice : crop_info :=
  {| hindi_name := "चावल";
     seasons := ["kharif"];
     duration := "120-150 days";
     water_requirement := "high";
     soil_type := ["clay"; "loam"];
     temperature := "20-35°C";
     rainfall := "150-300cm";
     states := ["WB"; "UP"; "AP"; "TN"; "OR"; "PB"; "HR"];
     varieties :=
       [ ("basmati", [ ("duration", VStr "140-150 days");
                     ("yield", VStr "3-4 tonnes/hectare") ]);
         ("IR64", [ ("duration", VStr "120-125 days");
                     ("yield", VStr "5-6 tonnes/hectare") ]);
         ("swarna", [ ("duration", VStr "145-150 days");
                     ("yield", VStr "4-5 tonnes/hectare") ]) ];
     cultivation_practices :=
       [ ("land_preparation", VStr "Puddle the field thoroughly");
         ("sowing", VStr "Transplant 25-30 day old seedlings");
         ("spacing", VStr "20cm x 15cm");
         ("fertilizer", VStr "120:60:40 kg NPK per hectare");
         ("irrigation", VStr "Maintain 2-5cm water level");
         ("pest_management", VStr "Monitor for stem borer, brown plant hopper") ] |}.

Definition wheat : crop_info :=
  {| hindi_name := "गेहूं";
     seasons := ["rabi"];
     duration := "120-150 days";
     water_requirement := "medium";
     soil_type := ["loam"; "sandy loam"];
     temperature := "15-25°C";
     rainfall := "75-100cm";
     states := ["UP"; "PB"; "HR"; "MP"; "RJ"; "BR"];
     varieties :=
       [ ("HD2967", [ ("duration", VStr "135-140 days");
                     ("yield", VStr "4-5 tonnes/hectare") ]);
         ("PBW343", [ ("duration", VStr "145-150 days");
                     ("yield", VStr "5-6 tonnes/hectare") ]);
         ("WH147", [ ("duration", VStr "125-130 days");
                     ("yield", VStr "3-4 tonnes/hectare") ]) ];
     cultivation_practices :=
       [ ("land_preparation", VStr "Deep plowing and leveling");
         ("sowing", VStr "Line sowing with seed drill");
         ("spacing", VStr "22.5cm row spacing");
         ("fertilizer", VStr "120:60:40 kg NPK per hectare");
         ("irrigation", VStr "6-8 irrigations required");
         ("pest_management", VStr "Monitor for aphids, termites") ] |}.

Definition sugarcane : crop_info :=
  {| hindi_name := "गन्ना";
     seasons := ["kharif"; "rabi"];
     duration := "12-18 months";
     water_requirement := "very high";
     soil_type := ["loam"; "clay loam"];
     temperature := "20-30°C";
     rainfall := "100-150cm";
     states := ["UP"; "MH"; "KA"; "TN"; "AP"; "GJ"];
     varieties :=
       [ ("Co86032", [ ("duration", VStr "12 months");
                     ("yield", VStr "80-100 tonnes/hectare") ]);
         ("Co238", [ ("duration", VStr "14 months");
                     ("yield", VStr "90-110 tonnes/hectare") ]) ];
     cultivation_practices :=
       [ ("land_preparation", VStr "Deep furrows at 90cm spacing");
         ("sowing", VStr "Plant 2-3 budded sets per furrow");
         ("spacing", VStr "90cm between rows");
         ("fertilizer", VStr "280:92:92 kg NPK per hectare");
         ("irrigation", VStr "15-20 irrigations required");
         ("pest_management", VStr "Monitor for red rot, smut") ] |}.

(** [self.crop_database], as [_load_crop_database] returns it. *)
Definition crop_database : odict crop_info :=
  [ ("rice", rice); ("wheat", wheat); ("sugarcane", sugarcane) ].

(** A relevant crop: the copy of its database entry, with the [name] and
    the [suitability_score] that [_get_relevant_crops] adds to it. *)
Record relevant_crop : Type := {
  crop_name : string;
  crop_data : crop_info;
  suitability_score : Q
}.

(** [v.lower()] on a dynamically typed [v]. *)
Definition lower_of (v : value) : exc string :=
  match v with
  | VStr s => Returned (str_lower s)
  | _ => Raised (AttributeError "object has no attribute 'lower'")
  end.

(** The items a [for] loop draws from a dynamically typed [v]: those of a
    list, the keys of a dictionary, the characters of a string. *)
Definition items_of (v : value) : exc (list value) :=
  match v with
  | VList l => Returned l
  | VDict d => Returned (map VStr (od_keys d))
  | VStr s =>
      Returned (map (fun c => VStr (String c EmptyString)) (String.list_ascii_of_string s))
  | _ => Raised (TypeError "object is not iterable")
  end.

Section Suitability.

(** The addition of two floats, which rounds: the scores are sums of
    decimal literals, and nothing below depends on how they round. *)
Variable fadd : Q -> Q -> Q.

(** [CropAdvisorAgent._calculate_suitability] *)
Definition _calculate_suitability (current_month : nat) (crop_data : crop_info)
    (location_info : dict) : exc Q :=
  (let score := 0.0%Q in
   (* State compatibility (40% weight) *)
   let score :=
     if value_in_strs (dict_get location_info "state" VNone) (states crop_data)
     then fadd score 0.4 else score in
   (* Season compatibility (30% weight) *)
   let current_season := _get_current_season current_month in
   let score :=
     if existsb (String.eqb current_season) (seasons crop_data)
     then fadd score 0.3 else score in
   (* Soil type compatibility (20% weight) *)
   location_soil <- lower_of (dict_get location_info "soil_type" (VStr "")) ;;
   let crop_soils := map str_lower (soil_type crop_data) in
   let score :=
     if existsb (fun soil => str_contains soil location_soil) crop_soils
     then fadd score 0.2 else score in
   (* Climate zone compatibility (10% weight) *)
   Returned (fadd score 0.1))%exc.

(** The loop over the crops the query names. *)
Fixpoint named_crops (current_month : nat) (location_info : dict)
    (crop_names : list value) (relevant_crops : list relevant_crop)
    : exc (list relevant_crop) :=
  match crop_names with
  | [] => Returned relevant_crops
  | crop_name :: rest =>
      (crop_name_lower <- lower_of crop_name ;;
       relevant_crops <-
         match od_lookup crop_name_lower crop_database with
         | Some crop_data =>
             (score <- _calculate_suitability current_month crop_data
                         location_info ;;
              Returned (relevant_crops
                          ++ [ {| crop_name := crop_name_lower;
                                  crop_data := crop_data;
                                  suitability_score := score |} ])%list)
         | None => Returned relevant_crops
         end ;;
       named_crops current_month location_info rest relevant_crops)%exc
  end.

(** The loop over the database, for the crops of the state and of the
    season. *)
Fixpoint local_crops (current_month : nat) (location_info : dict)
    (state : value) (database : odict crop_info)
    (relevant_crops : list relevant_crop) : exc (list relevant_crop) :=
  match database with
  | [] => Returned relevant_crops
  | (crop_name, crop_data) :: rest =>
      (relevant_crops <-
         (if value_in_strs state (states crop_data)
             && existsb (String.eqb (_get_current_season current_month))
                        (seasons crop_data)
          then (score <- _calculate_suitability current_month crop_data
                           location_info ;;
                Returned (relevant_crops
                            ++ [ {| crop_name := crop_name;
                                    crop_data := crop_data;
                                    suitability_score := score |} ])%list)
          else Returned relevant_crops) ;;
       local_crops current_month location_info state rest relevant_crops)%exc
  end.

(** [relevant_crops.sort(key=..., reverse=True)]: by decreasing score,
    crops of equal score keeping their order. *)
Fixpoint insert_by_score (c : relevant_crop) (sorted : list relevant_crop)
    : list relevant_crop :=
  match sorted with
  | [] => [c]
  | c' :: rest =>
      if Qltb (suitability_score c) (suitability_score c')
      then c' :: insert_by_score c rest
      else c :: c' :: rest
  end.

Definition sort_by_score (crops : list relevant_crop) : list relevant_crop :=
  foldr insert_by_score [] crops.

(** [CropAdvisorAgent._get_relevant_crops] *)
Definition _get_relevant_crops (current_month : nat) (query_intent : value)
    (location_info : dict) : exc (list relevant_crop) :=
  (let state := dict_get location_info "state" (VStr "KA") in
   specific_crops <- Dyn.get query_intent "specific_crops" VNone ;;
   relevant_crops <-
     (if Dyn.truthy specific_crops
      then (crop_names <- items_of specific_crops ;;
            named_crops current_month location_info crop_names [])
      else local_crops current_month location_info state crop_database []) ;;
   Returned (take 5 (sort_by_score relevant_crops)))%exc.

End Suitability.

(** ** Vocabulary of the statements about the relevant crops *)

(** The crop is the entry of the database under its name. *)
Definition from_database (c : relevant_crop) : Prop :=
  od_lookup (crop_name c) crop_database = Some (crop_data c).

(** No crop of the list has a higher score than one listed before it. *)
Fixpoint best_first (crops : list relevant_crop) : Prop :=
  match crops with
  | [] => True
  | c :: rest =>
      Forall (fun c' => (suitability_score c' <= suitability_score c)%Q) rest
      /\ best_first rest
  end.

(** ** The location and the varieties *)

(** The location [_extract_location_info] starts from. *)
Definition default_location : dict :=
  [ ("state", VStr "KA");
    ("district", VStr "");
    ("latitude", VNum 12.9716);
    ("longitude", VNum 77.5946);
    ("climate_zone", VStr "tropical");
    ("soil_type", VStr "red loam") ].

(** [CropAdvisorAgent._extract_location_info]; [get_location_details] is
    the call of the location utilities, whose failure is only logged. *)
Definition _extract_location_info
    (get_location_details : value -> value -> exc dict)
    (context : option dict) : dict :=
  let location_info :=
    match context with
    | Some (item :: rest) =>
        let context := item :: rest in
        QueryHandler.dict_update default_location
          [ ("state", dict_get context "state" (VStr "KA"));
            ("district", dict_get context "district" (VStr ""));
            ("latitude", dict_get context "latitude" (VNum 12.9716));
            ("longitude", dict_get context "longitude" (VNum 77.5946)) ]
    | _ => default_location
    end in
  match get_location_details (dict_get location_info "latitude" VNone)
                             (dict_get location_info "longitude" VNone) with
  | Returned enhanced_info => QueryHandler.dict_update location_info enhanced_info
  | Raised e => location_info
  end.

(** [CropAdvisorAgent.get_variety_comparison] *)
Definition get_variety_comparison (crop_name : string) (location : dict) : dict :=
  let crop_name_lower := str_lower crop_name in
  match od_lookup crop_name_lower crop_database with
  | None =>
      [ ("error", VStr ("Crop '" +:+ crop_name +:+ "' not found in database")) ]
  | Some crop_data =>
      [ ("crop", VStr crop_name);
        ("location", VDict location);
        ("varieties",
          VList (map (fun entry =>
                        let variety_data := snd entry in
                        VDict
                          [ ("name", VStr (fst entry));
                            ("duration", dict_get variety_data "duration" (VStr ""));
                            ("yield", dict_get variety_data "yield" (VStr ""));
                            ("characteristics",
                              dict_get variety_data "characteristics" (VStr ""));
                            ("suitability",
                              dict_get variety_data "suitability" (VStr "")) ])
                     (varieties crop_data)));
        ("recommendation",
          VStr "Best variety based on location and current conditions") ]
  end.

End CropAdvisor.

(* ===================================================================== *)
(** * Backend: the API routes *)
(* ===================================================================== *)

Module Api.

(** The request model of [POST /query]. *)
Record QueryRequest : Type := {
  query : string;
  user_id : option string;
  session_id : option string;
  location : option string;
  language : option string;
  context : option dict
}.

Definition value_of_option (o : option string) : value :=
  match o with
  | Some s => VStr s
  | None => VNone
  end.

(** The route [POST /query]; [uuid4] is [str(uuid.uuid4())].  The task
    [log_query] that the route registers runs after the response, and
    the response model's validation sits inside the [try] block. *)
Definition process_query (svc : Backend.services) (uuid4 : string)
    (request : QueryRequest) : exc dict :=
  try_except
    (let session_id :=
       match session_id request with
       | Some s => if String.eqb s "" then uuid4 else s
       | None => uuid4
       end in
     result <- Backend.process_query svc (query request)
                 (value_of_option (user_id request)) (location request)
                 (context request) ;;
     answer <- dict_item result "answer" ;;
     agent_type <- dict_item result "agent_type" ;;
     Returned
       [ ("session_id", VStr session_id);
         ("answer", answer);
         ("agent_type", agent_type);
         ("language", dict_get result "language" (VStr "en"));
         ("location", dict_get result "location" VNone);
         ("sources", dict_get result "sources" (VList []));
         ("confidence_score", dict_get result "confidence_score" (VNum 0.8));
         ("suggestions", dict_get result "suggestions" (VList []));
         ("processing_time", dict_get result "processing_time" (VNum 0.0));
         ("metadata", dict_get result "metadata" (VDict [])) ])%exc
    (fun e => Raised (HTTPException 500 "Error processing query")).

(** [f"{days}"] for the optional integer of the weather route. *)
Definition format_days (days : option Z) : string :=
  match days with
  | Some d => pretty d
  | None => "None"
  end.

(** The query the weather route hands to the weather agent. *)
Definition weather_query (location : string) (days : option Z) : string :=
  "weather forecast for " +:+ location +:+ " for next "
  +:+ format_days days +:+ " days".

(** The route [GET /weather/{location}]. *)
Definition get_weather (svc : Backend.services) (location : string)
    (days : option Z) : exc dict :=
  try_except
    (weather_agent <- dict_item (Backend.agents svc) "weather" ;;
     let query := weather_query location days in
     result <- weather_agent query (Some location) []
                 [ ("forecast_days",
                     match days with
                     | Some d => VNum (inject_Z d)
                     | None => VNone
                     end) ] ;;
     weather_info <- dict_item result "answer" ;;
     Returned
       [ ("location", VStr location);
         ("forecast_days",
           match days with
           | Some d => VNum (inject_Z d)
           | None => VNone
           end);
         ("weather_info", weather_info);
         ("confidence", dict_get result "confidence" (VNum 0.8));
         ("sources", dict_get result "sources" (VList [])) ])%exc
    (fun e => Raised (HTTPException 500 "Error retrieving weather data")).

End Api.

(* ===================================================================== *)
(** * Concrete collaborators, for running the pipeline on examples *)
(* ===================================================================== *)

Module Scenario.

(** A backend agent that answers [text] with confidence [c]. *)
Definition answering (text : string) (c : Q) : Backend.agent :=
  fun _ _ _ _ =>
    Returned [ ("answer", VStr text); ("confidence", VNum c);
               ("sources", VList [VStr "IMD"]) ].

(** A backend agent that is down. *)
Definition failing : Backend.agent :=
  fun _ _ _ _ => Raised (Error "agent down").

(** A weather service that answers, with a generator that reports its
    data with confidence 0.9. *)
Definition weather_service : WeatherAgent.services :=
  {| WeatherAgent.get_current_weather :=
       fun _ => Returned [ ("temperature", VNum 28); ("condition", VStr "Clear") ];
     WeatherAgent.get_forecast :=
       fun _ _ => Returned [ ("daily", VList [VStr "Clear"; VStr "Clear"]) ];
     WeatherAgent.get_historical_data :=
       fun _ => Returned [ ("rainfall", VNum 12) ];
     WeatherAgent.generate :=
       fun _ _ _ _ _ =>
         Returned [ ("answer", VStr "Sunny");
                    ("sources", VList [VStr "India Meteorological Department"]);
                    ("confidence", VNum 0.9);
                    ("suggestions", VList [VStr "Check 7-day weather forecast"]) ] |}.

(** What the weather agent answers on [weather_service] to a question
    about tomorrow. *)
Definition sunny_response : dict :=
  [ ("answer", VStr "Sunny");
    ("sources", VList [VStr "India Meteorological Department"]);
    ("confidence", VNum 0.9);
    ("suggestions", VList [VStr "Check 7-day weather forecast"]);
    ("weather_data", VDict [ ("daily", VList [VStr "Clear"; VStr "Clear"]) ]) ].

(** A weather service whose data the generators cannot read. *)
Definition broken_weather_service : WeatherAgent.services :=
  {| WeatherAgent.get_current_weather := WeatherAgent.get_current_weather weather_service;
     WeatherAgent.get_forecast := WeatherAgent.get_forecast weather_service;
     WeatherAgent.get_historical_data :=
       WeatherAgent.get_historical_data weather_service;
     WeatherAgent.generate := fun _ _ _ _ _ => Raised (KeyError "daily") |}.

Definition four_agents : odict Backend.agent :=
  [ ("weather", WeatherAgent.process_query weather_service);
    ("crop", answering "Sow wheat" 0.7);
    ("financial", answering "KCC loan" 0.6);
    ("policy", answering "PM-KISAN" 0.5) ].

(** The same agents, the weather agent on the broken service. *)
Definition four_agents_broken_weather : odict Backend.agent :=
  [ ("weather", WeatherAgent.process_query broken_weather_service);
    ("crop", answering "Sow wheat" 0.7);
    ("financial", answering "KCC loan" 0.6);
    ("policy", answering "PM-KISAN" 0.5) ].

Definition detects (lang : string) : string -> exc Backend.language_info :=
  fun _ => Returned {| Backend.li_language := Some lang;
                       Backend.li_confidence := Some 0.99%Q |}.

Definition backend (detect : string -> exc Backend.language_info)
    (translate : value -> string -> string -> exc string)
    (agents : odict Backend.agent) : Backend.services :=
  {| Backend.detect_language := detect;
     Backend.translate := translate;
     Backend.extract_location := fun _ => Returned None;
     Backend.encode := fun _ => Returned [0%Q];
     Backend.search_relevant_content := fun _ _ => Returned [];
     Backend.agents := agents;
     Backend.elapsed_seconds := 0.01%Q;
     Backend.now_isoformat := "2025-06-01T10:00:00" |}.

Definition translation_down : value -> string -> string -> exc string :=
  fun _ _ _ => Raised (Error "translation provider timeout").

(** A translation bridge whose provider fails and which, as its contract
    has it, returns the text it was given. *)
Definition translation_degraded : value -> string -> string -> exc string :=
  fun text _ _ =>
    Returned match text with VStr s => s | _ => "" end.


(** A backend that detects Hindi while its translation provider is down. *)
Definition hindi_backend : Backend.services :=
  backend (detects "hi") translation_down four_agents.

(** A frontend agent call that answers [text] with confidence [c] after
    [ticks] units of time. *)
Definition answers_after (ticks : nat) (text : string) (c : Q)
    : string -> option dict -> Coordinator.timed (exc dict) :=
  fun _ _ =>
    {| Coordinator.outcome :=
         Returned [ ("answer", VStr text); ("confidence", VNum c);
                    ("sources", VList [VStr "IMD"]);
                    ("recommendations", VList [VStr "Irrigate in the evening"]) ];
       Coordinator.duration := ticks |}.

(** A frontend agent call that raises after [ticks] units of time. *)
Definition raises_after (ticks : nat) (msg : string)
    : string -> option dict -> Coordinator.timed (exc dict) :=
  fun _ _ => {| Coordinator.outcome := Raised (Error msg);
                Coordinator.duration := ticks |}.

(** Coordinator services with a language model that is down: analysis and
    synthesis both take their fallbacks. *)
Definition frontend (detect : string -> exc string)
    (crop weather finance pest : string -> option dict -> Coordinator.timed (exc dict))
    : Coordinator.services :=
  {| Coordinator.detect_language := detect;
     Coordinator.translate_to_english :=
       fun _ => Raised (Error "translation provider timeout");
     Coordinator.translate_from_english := fun v _ => Returned v;
     Coordinator.get_completion := fun _ => Raised (Error "model unavailable");
     Coordinator.json_loads := fun _ => Raised (Error "JSONDecodeError");
     Coordinator.crop_advisor_get_advice := crop;
     Coordinator.weather_agent_get_forecast := weather;
     Coordinator.finance_agent_get_financial_advice := finance;
     Coordinator.pest_disease_agent_diagnose_and_treat := pest;
     Coordinator.format_response := fun d _ _ => Returned d;
     Coordinator.elapsed_seconds := 0.01%Q;
     Coordinator.now_isoformat := "2025-06-01T10:00:00" |}.

Definition all_answer : Coordinator.services :=
  frontend (fun _ => Returned "en")
    (answers_after 1 "Sow wheat" 0.9) (answers_after 1 "Sunny" 0.9)
    (answers_after 1 "KCC loan" 0.6) (answers_after 1 "Neem oil" 0.5).

(** The time allowed to one agent call, in the examples. *)
Definition allowed_time : nat := 5.

(** The weather agent needs 60 units of time, the crop advisor 1. *)
Definition slow_weather : Coordinator.services :=
  frontend (fun _ => Returned "en")
    (answers_after 1 "Sow wheat" 0.7) (answers_after 60 "Sunny" 0.9)
    (answers_after 1 "KCC loan" 0.6) (answers_after 1 "Neem oil" 0.5).

(** The weather agent raises. *)
Definition weather_down : Coordinator.services :=
  frontend (fun _ => Returned "en")
    (answers_after 1 "Sow wheat" 0.7) (raises_after 3 "weather API timeout")
    (answers_after 1 "KCC loan" 0.6) (answers_after 1 "Neem oil" 0.5).

(** The crop advisor, whose advice generation fails after [ticks] units of
    time. *)
Definition crop_advisor_failing (ticks : nat)
    : string -> option dict -> Coordinator.timed (exc dict) :=
  fun _ _ =>
    {| Coordinator.outcome :=
         CropAdvisor.get_advice (Raised (Error "crop model down"));
       Coordinator.duration := ticks |}.

(** Every agent fails. *)
Definition all_down : Coordinator.services :=
  frontend (fun _ => Returned "en")
    (crop_advisor_failing 1) (raises_after 3 "weather API timeout")
    (raises_after 1 "market API down") (raises_after 1 "pest model down").


(** The Success dictionary of an agent. *)
Definition success (text : string) (c : Q) : dict :=
  [ ("answer", VStr text); ("confidence", VNum c);
    ("sources", VList [VStr "IMD"]);
    ("recommendations", VList [VStr "Irrigate in the evening"]) ].

(** Crop advisor and weather agent both answered. *)
Definition crop_and_weather_answers : odict dict :=
  [ ("crop_advisor", success "Sow wheat" 0.7);
    ("weather_agent", success "Sunny" 0.9) ].

(** Crop advisor and weather agent both failed. *)
Definition crop_and_weather_failures : odict dict :=
  [ ("crop_advisor", CropAdvisor.failure_response (Error "crop model down"));
    ("weather_agent",
      Coordinator.error_response (Error "weather API timeout") "weather_agent") ].

(** An analysis that asks for the weather agent only. *)
Definition weather_only : value :=
  VDict [ ("type", VStr "weather");
          ("required_agents", VList [VStr "weather_agent"]) ].

(** An analysis that asks for the crop advisor and the weather agent. *)
Definition crop_and_weather : value :=
  VDict [ ("type", VStr "weather");
          ("required_agents", VList [VStr "crop_advisor"; VStr "weather_agent"]) ].

Definition handler (id : string) : QueryHandler.services :=
  {| QueryHandler.coordinator_services := all_answer;
     QueryHandler.clean_text := fun q => Returned q;
     QueryHandler.uuid4 := id;
     QueryHandler.now := "2025-06-01T10:00:00" |}.

Definition request (q : string) (sid : option string) : QueryHandler.QueryRequest :=
  {| QueryHandler.query := q;
     QueryHandler.language := Some "en";
     QueryHandler.location := None;
     QueryHandler.user_context := None;
     QueryHandler.session_id := sid |}.

(** The state after serving the requests [reqs], one after the other. *)
Fixpoint serve (svc : QueryHandler.services)
    (reqs : list QueryHandler.QueryRequest) (st : QueryHandler.state)
    : QueryHandler.state :=
  match reqs with
  | [] => st
  | r :: reqs' => serve svc reqs' (snd (QueryHandler.process_query svc r st))
  end.

(** Six questions asked in the session [s1], which the first one opens. *)
Definition six_questions : list QueryHandler.QueryRequest :=
  [ request "q1" None; request "q2" (Some "s1"); request "q3" (Some "s1");
    request "q4" (Some "s1"); request "q5" (Some "s1"); request "q6" (Some "s1") ].

Definition after_six_questions : QueryHandler.state :=
  serve (handler "s1") six_questions QueryHandler.initial_state.

(** Two sessions, [s1] and [s2], with one question each. *)
Definition two_sessions : QueryHandler.state :=
  snd (QueryHandler.process_query (handler "s2") (request "rain in Pune?" None)
         (snd (QueryHandler.process_query (handler "s1")
                 (request "loan for seeds?" None) QueryHandler.initial_state))).

(** A handler whose coordinator parses every completion, to the list
    that holds the completion as its one question. *)
Definition suggesting : QueryHandler.services :=
  {| QueryHandler.coordinator_services :=
       {| Coordinator.detect_language := fun _ => Returned "en";
          Coordinator.translate_to_english := fun q => Returned q;
          Coordinator.translate_from_english := fun v _ => Returned v;
          Coordinator.get_completion := fun _ => Raised (Error "model unavailable");
          Coordinator.json_loads := fun response => Returned (VList [VStr response]);
          Coordinator.crop_advisor_get_advice := answers_after 1 "Sow wheat" 0.9;
          Coordinator.weather_agent_get_forecast := answers_after 1 "Sunny" 0.9;
          Coordinator.finance_agent_get_financial_advice :=
            answers_after 1 "KCC loan" 0.6;
          Coordinator.pest_disease_agent_diagnose_and_treat :=
            answers_after 1 "Neem oil" 0.5;
          Coordinator.format_response := fun d _ _ => Returned d;
          Coordinator.elapsed_seconds := 0.01%Q;
          Coordinator.now_isoformat := "2025-06-01T10:00:00" |};
     QueryHandler.clean_text := fun q => Returned q;
     QueryHandler.uuid4 := "s1";
     QueryHandler.now := "2025-06-01T10:00:00" |}.

(** A serialiser that keeps, of a list of session entries, the queries. *)
Definition dumps_queries (v : value) : exc string :=
  match v with
  | VList entries =>
      Returned
        (String.concat ","
           (map (fun entry =>
                   match entry with
                   | VDict d =>
                       match od_lookup "query" d with
                       | Some (VStr q) => q
                       | _ => "?"
                       end
                   | _ => "?"
                   end) entries))
  | _ => Returned "{}"
  end.

(** A language model that answers with the history it was shown. *)
Definition echo_history (p : Coordinator.follow_up_prompt) : exc string :=
  Returned (Coordinator.history_text p).

(** ** Collaborators of the status, weather and advice examples *)

(** The outcomes of the four health checks: the financial agent's check
    raises. *)
Definition health_reports : odict (exc dict) :=
  [ ("weather", WeatherAgent.health_check weather_service "2025-06-01T10:00:00");
    ("crop", Returned [ ("status", VStr "healthy") ]);
    ("financial", Raised (Error "market API down"));
    ("policy", Returned [ ("status", VStr "healthy") ]) ].

(** The checks of two agents that report healthy. *)
Definition healthy_reports : odict (exc dict) :=
  [ ("crop", Returned [ ("status", VStr "healthy") ]);
    ("policy", Returned [ ("status", VStr "healthy") ]) ].

(** A weather service that is down. *)
Definition weather_outage : WeatherAgent.services :=
  {| WeatherAgent.get_current_weather :=
       fun _ => Raised (Error "weather API timeout");
     WeatherAgent.get_forecast :=
       fun _ _ => Raised (Error "weather API timeout");
     WeatherAgent.get_historical_data :=
       fun _ => Raised (Error "weather API timeout");
     WeatherAgent.generate := WeatherAgent.generate weather_service |}.

(** A weather service whose forecast is down while its current weather
    answers. *)
Definition forecast_down : WeatherAgent.services :=
  {| WeatherAgent.get_current_weather :=
       WeatherAgent.get_current_weather weather_service;
     WeatherAgent.get_forecast :=
       fun _ _ => Raised (Error "forecast API timeout");
     WeatherAgent.get_historical_data :=
       WeatherAgent.get_historical_data weather_service;
     WeatherAgent.generate := WeatherAgent.generate weather_service |}.

(** The date [n] days from now, as the alerts print it. *)
Definition day_label (n : nat) : string := "Jun " +:+ pretty n.

(** A weather service that has no data for the location, with the alerts
    generator of the agent. *)
Definition no_data_weather_service : WeatherAgent.services :=
  {| WeatherAgent.get_current_weather := fun _ => Returned [];
     WeatherAgent.get_forecast := fun _ _ => Returned [];
     WeatherAgent.get_historical_data := fun _ => Returned [];
     WeatherAgent.generate :=
       fun name =>
         if String.eqb name "alerts"
         then WeatherAgent._generate_alerts_response day_label
         else WeatherAgent.generate weather_service name |}.

(** A day of the forecast without rain and one with a cloudburst. *)
Definition dry_day : value :=
  VDict [ ("rainfall", VNum 0); ("temp_max", VNum 30) ].

Definition cloudburst_day : value :=
  VDict [ ("rainfall", VNum 200); ("temp_max", VNum 30) ].

(** A backend whose language detection raises. *)
Definition detection_down : Backend.services :=
  backend (fun _ => Raised (Error "langdetect: no features in text"))
    translation_down four_agents.

(** A backend that detects English. *)
Definition english_backend : Backend.services :=
  backend (detects "en") translation_down four_agents.

Definition api_request (q : string) (loc : option string) : Api.QueryRequest :=
  {| Api.query := q;
     Api.user_id := None;
     Api.session_id := None;
     Api.location := loc;
     Api.language := Some "auto";
     Api.context := None |}.

(** The crop advisor's collaborators in May, with the language model down. *)
Definition crop_model_down : CropAdvisor.services :=
  {| CropAdvisor.current_month := 5;
     CropAdvisor.get_completion := fun _ => Raised (Error "model unavailable");
     CropAdvisor.json_loads := fun _ => Raised (Error "JSONDecodeError");
     CropAdvisor.now_isoformat := "2025-05-01T10:00:00" |}.

(** An upload that is not audio. *)
Definition text_upload : QueryHandler.UploadFile :=
  {| QueryHandler.content_type := Some "text/plain";
     QueryHandler.read := Returned "hello" |}.

(** A language model that answers, with an analysis that names the four
    agents and gives no type, and a formatter that returns a complete
    response. *)
Definition untyped_analysis : Coordinator.services :=
  {| Coordinator.detect_language := fun _ => Returned "en";
     Coordinator.translate_to_english := fun q => Returned q;
     Coordinator.translate_from_english := fun v _ => Returned v;
     Coordinator.get_completion := fun _ => Returned "completion";
     Coordinator.json_loads :=
       fun _ =>
         Returned
           (VDict [ ("required_agents",
                      VList [ VStr "crop_advisor"; VStr "weather_agent";
                              VStr "finance_agent"; VStr "pest_disease_agent" ]) ]);
     Coordinator.crop_advisor_get_advice := answers_after 1 "Sow wheat" 0.9;
     Coordinator.weather_agent_get_forecast := answers_after 1 "Sunny" 0.9;
     Coordinator.finance_agent_get_financial_advice :=
       answers_after 1 "KCC loan" 0.6;
     Coordinator.pest_disease_agent_diagnose_and_treat :=
       answers_after 1 "Neem oil" 0.5;
     Coordinator.format_response :=
       fun _ _ _ =>
         Returned [ ("answer", VStr "Sow wheat"); ("confidence", VNum 0.9);
                    ("sources", VList []) ];
     Coordinator.elapsed_seconds := 0.01%Q;
     Coordinator.now_isoformat := "2025-06-01T10:00:00" |}.

(** A query intent that names no crop, and one that names three. *)
Definition general_intent : value :=
  VDict [ ("primary_intent", VStr "general"); ("specific_crops", VList []) ].

Definition named_intent : value :=
  VDict [ ("primary_intent", VStr "crop_selection");
          ("specific_crops", VList [VStr "Wheat"; VStr "maize"; VStr "Rice"]) ].

(** Location utilities that are down. *)
Definition geocoder_down : value -> value -> exc dict :=
  fun _ _ => Raised (Error "geocoder down").

End Scenario.

(* ===================================================================== *)
(** * Properties of the backend service *)
(* ===================================================================== *)

(** One step through code in [exc]: case analysis on the next call or
    test of the hypothesis [H]. *)
Ltac step_exc H :=
  match type of H with
  | context [match ?c with Returned _ => _ | Raised _ => _ end] =>
      destruct c; cbn in H
  | context [if ?b then _ else _] => destruct b; cbn in H
  end.

Module BackendFacts.
Import Backend.

(** ** The classifier *)

(** On a table of the four categories, [max] picks a category of highest
    positive score and, among equals, the one listed first. *)
Lemma max_scores_four (k1 k2 k3 k4 : list string) (ql : string) :
  let s1 := keyword_score k1 ql in
  let s2 := keyword_score k2 ql in
  let s3 := keyword_score k3 ql in
  let s4 := keyword_score k4 ql in
  let table := [("weather", k1); ("crop", k2); ("financial", k3); ("policy", k4)] in
  let score c :=
    default 0 (od_lookup c [("weather", s1); ("crop", s2);
                            ("financial", s3); ("policy", s4)]) in
  0 < s1 \/ 0 < s2 \/ 0 < s3 \/ 0 < s4 ->
  exists best,
    max_scores (score_agents table ql []) = Some best /\
    In best priority_order /\ 0 < score best /\
    forall c, In c priority_order ->
      score c <= score best /\ (score c = score best -> rank best <= rank c).
Proof.
  intros s1 s2 s3 s4 table score Hpos. subst table score.
  cbn [score_agents]. fold s1 s2 s3 s4. clearbody s1 s2 s3 s4.
  unfold max_scores, scores_get.
  destruct (Nat.ltb_spec 0 s1), (Nat.ltb_spec 0 s2),
           (Nat.ltb_spec 0 s3), (Nat.ltb_spec 0 s4);
    try lia; simpl;
    repeat (match goal with
            | |- context [ (?a <? ?b)%nat ] =>
                is_var a; is_var b; destruct (Nat.ltb_spec a b); simpl
            end).
  all: eexists; split; [reflexivity|].
  all: split; [ simpl; tauto |].
  all: split; [ simpl; lia |].
  all: intros c Hc; simpl in Hc; unfold rank, priority_order.
  all: repeat (destruct Hc as [<- | Hc]; [ simpl; lia |]); contradiction.
Qed.

(** With no positive score, [scores] stays empty. *)
Lemma max_scores_none (k1 k2 k3 k4 : list string) (ql : string) :
  keyword_score k1 ql = 0 -> keyword_score k2 ql = 0 ->
  keyword_score k3 ql = 0 -> keyword_score k4 ql = 0 ->
  max_scores (score_agents [("weather", k1); ("crop", k2);
                            ("financial", k3); ("policy", k4)] ql []) = None.
Proof.
  intros H1 H2 H3 H4. cbn [score_agents]. rewrite H1, H2, H3, H4. reflexivity.
Qed.

(** *** The score of the code is the score of the specification *)

(** [String.prefix] tests the occurrence at position 0. *)
Lemma prefix_occurs_at (keyword text : string) :
  String.prefix keyword text = occurs_at keyword text 0.
Proof.
  unfold occurs_at.
  destruct (String.prefix keyword text) eqn:Hp.
  - apply String.prefix_correct in Hp. rewrite Hp. symmetry. apply String.eqb_refl.
  - symmetry. apply String.eqb_neq. intros Heq.
    apply String.prefix_correct in Heq. congruence.
Qed.

Lemma occurs_at_tail (keyword text : string) (c : Ascii.ascii) (position : nat) :
  occurs_at keyword (String c text) (S position) = occurs_at keyword text position.
Proof. reflexivity. Qed.





(** A text starts with a keyword when it is the keyword followed by
    another text. *)
Lemma prefix_iff (keyword text : string) :
  String.prefix keyword text = true <-> exists after, text = keyword +:+ after.
Proof.
  revert text. induction keyword as [| a keyword IH]; intros text.
  - split; [intros _; now exists text | now destruct text].
  - destruct text as [| b text]; cbn [String.prefix].
    + split; [discriminate | intros (after & H); discriminate].
    + destruct (Ascii.ascii_dec a b) as [<- | Hne].
      * rewrite IH. split; intros (after & H); exists after.
        -- cbn. now rewrite H.
        -- cbn in H. now injection H.
      * split; [discriminate |]. intros (after & H). cbn in H.
        injection H as H _. congruence.
Qed.

(** [len(s + t)] *)
Lemma str_length_app (s t : string) :
  String.length (s +:+ t) = String.length s + String.length t.
Proof.
  induction s as [| c s IH]; [reflexivity |].
  change (String c s +:+ t) with (String c (s +:+ t)).
  cbn [String.length]. now rewrite IH.
Qed.

(** A keyword occurs at a position of a text when the text is the
    keyword between a text of that length and another one. *)
Lemma occurs_at_iff (keyword text : string) (position : nat) :
  position <= String.length text ->
  occurs_at keyword text position = true
  <-> exists before after,
        String.length before = position /\
        text = before +:+ keyword +:+ after.
Proof.
  revert text. induction position as [| position IH]; intros text Hle.
  - rewrite <- prefix_occurs_at, prefix_iff. split.
    + intros (after & H). now exists "", after.
    + intros (before & after & Hlen & H). exists after.
      destruct before; [exact H | discriminate].
  - destruct text as [| c text]; [cbn in Hle; lia |].
    rewrite occurs_at_tail, IH by (cbn in Hle; lia). split.
    + intros (before & after & Hlen & ->).
      exists (String c before), after. split; [cbn; now rewrite Hlen | reflexivity].
    + intros (before & after & Hlen & H).
      destruct before as [| c' before]; [discriminate |].
      cbn in H, Hlen. injection H as -> H. exists before, after.
      split; [lia | exact H].
Qed.

(** A keyword occurs in a text when the text is the keyword between two
    other texts. *)
Lemma occurs_in_iff (keyword text : string) :
  occurs_in keyword text = true
  <-> exists before after, text = before +:+ keyword +:+ after.
Proof.
  unfold occurs_in. rewrite existsb_exists. split.
  - intros (position & Hin & H). apply in_seq in Hin.
    apply occurs_at_iff in H; [| lia].
    destruct H as (before & after & _ & H). now exists before, after.
  - intros (before & after & H). exists (String.length before). split.
    + apply in_seq. rewrite H, str_length_app. lia.
    + apply occurs_at_iff.
      * rewrite H, str_length_app. lia.
      * now exists before, after.
Qed.

(** *** The classifier, whatever the lowering and the arithmetic *)

Section ClassifierFacts.

Variable lower : string -> string.
Variables embedding float : Type.
Variable embed : string -> embedding.
Variable dot : embedding -> embedding -> float.
Variable zero : float.
Variable gt : float -> float -> bool.





End ClassifierFacts.

(** [_classify_query] is the classifier at the byte-wise lowering, the
    exact dot product and the order of the rationals. *)
Lemma semantic_loop_is_instance enc query_embedding descriptions best :
  semantic_loop enc query_embedding descriptions best
  = semantic_loop_over enc np_dot (fun a b => Qltb b a)
      query_embedding descriptions best.
Proof.
  revert best.
  induction descriptions as [| [agent_type description] rest IH]; intros best;
    [reflexivity |].
  cbn [semantic_loop semantic_loop_over].
  destruct (enc description); cbn [bind]; [apply IH | reflexivity].
Qed.

Lemma classify_query_is_instance enc query :
  _classify_query enc query
  = _classify_query_over str_lower enc np_dot 0%Q (fun a b => Qltb b a) query.
Proof.
  unfold _classify_query, _classify_query_over.
  destruct (max_scores _); [reflexivity |].
  destruct (enc query); cbn [bind]; [apply semantic_loop_is_instance | reflexivity].
Qed.


Example classify_weather_in_pune :
  _classify_query (fun _ => Raised (Error "no model"))
    "What is the weather in Pune tomorrow?" = Returned "weather".
Proof. vm_compute. reflexivity. Qed.

Example classify_hindi_insurance :
  _classify_query (fun _ => Raised (Error "no model")) "फसल बीमा और ऋण"
    = Returned "financial".
Proof. vm_compute. reflexivity. Qed.

(** ** The pipeline *)

Ltac run_backend :=
  unfold process_query, st_try_except, process_query_body,
    process_query_handler, read_original_language, assign_original_language,
    st_bind, st_lift, st_ret, st_modify, language_of in *;
  cbn [fst snd original_language].

(** A detection that raises leaves [original_language] unassigned, and
    the handler's read of it raises in turn. *)
Lemma detection_failure_escapes svc query user_id location context e :
  detect_language svc query = Raised e ->
  process_query svc query user_id location context
    = Raised (UnboundLocalError "original_language").
Proof. intros Hdetect. run_backend. rewrite Hdetect. reflexivity. Qed.

(** C10. When the language-detection step raises, the [except] clause of
    [process_query] reads the local [original_language] before it was ever
    assigned: the call raises [UnboundLocalError] (a [NameError]) and no
    response, fallback or other, is returned. *)
Theorem process_query_raises_when_detection_raises
    (svc : services) (query : string) (user_id : value)
    (location : option string) (context : option dict) (e : exception) :
  detect_language svc query = Raised e ->
  process_query svc query user_id location context
    = Raised (UnboundLocalError "original_language")
  /\ forall r, process_query svc query user_id location context <> Returned r.
Proof.
  intros Hdetect.
  rewrite (detection_failure_escapes _ _ _ _ _ _ Hdetect).
  split; [reflexivity | discriminate].
Qed.

Lemma process_query_detection_witness :
  Backend.process_query
    (Scenario.backend (fun _ => Raised (Error "langdetect: no features in text"))
       Scenario.translation_down Scenario.four_agents)
    "12345" VNone None None
  = Raised (UnboundLocalError "original_language").
Proof.
  apply (process_query_raises_when_detection_raises _ _ _ _ _
           (Error "langdetect: no features in text")).
  reflexivity.
Defined.

(** Whatever [process_query] returns, it returns after a detection that
    succeeded: the fallback response exists only for exceptions raised
    later. *)
Lemma process_query_returns_after_detection svc query user_id location context r :
  process_query svc query user_id location context = Returned r ->
  exists li, detect_language svc query = Returned li.
Proof.
  intros Hr. destruct (detect_language svc query) as [li | e] eqn:Hd.
  - now exists li.
  - rewrite (detection_failure_escapes _ _ _ _ _ _ Hd) in Hr. discriminate.
Qed.


(** Once the language is detected, an exception raised by the translation
    of the query ends the request with the fallback response. *)
Lemma backend_translation_failure svc query user_id location context li e :
  detect_language svc query = Returned li ->
  String.eqb (language_of li) "en" = false ->
  translate svc (VStr query) (language_of li) "en" = Raised e ->
  process_query svc query user_id location context
    = Returned (fallback_result svc query (language_of li) e).
Proof.
  intros Hd Hlang Ht. run_backend. rewrite Hd. cbn.
  rewrite Hlang. cbn. rewrite Ht. reflexivity.
Qed.

(** The selected agent raises: the fallback response. *)
Lemma process_query_agent_failure svc query user_id location context
    li pq loc agent_type context_data a e :
  reaches_agent svc query location li pq loc agent_type context_data a ->
  a pq loc context_data (default [] context) = Raised e ->
  process_query svc query user_id location context
    = Returned (fallback_result svc query (language_of li) e).
Proof.
  intros (Hd & Ht & Hl & Hc & Hk & Ha) He. run_backend. rewrite Hd. cbn.
  revert Ht. destruct (negb (String.eqb (default "en" (li_language li)) "en"));
    intros Ht; [rewrite Ht | injection Ht as <-]; cbn.
  all: revert Hl; destruct (negb (location_given location));
    intros Hl; [rewrite Hl | injection Hl as <-]; cbn.
  all: rewrite Hc; cbn; rewrite Hk; cbn; rewrite Ha; cbn; rewrite He;
    reflexivity.
Qed.

(** The selected agent returns [response]: its sources, suggestions and
    confidence go into the result as they are, and so does its answer,
    which only a non-English request has translated back. *)
Lemma process_query_agent_success svc query user_id location context
    li pq loc agent_type context_data a response answer final :
  reaches_agent svc query location li pq loc agent_type context_data a ->
  a pq loc context_data (default [] context) = Returned response ->
  od_lookup "answer" response = Some answer ->
  (if negb (String.eqb (language_of li) "en")
   then bind (translate svc answer "en" (language_of li))
             (fun s => Returned (VStr s))
   else Returned answer) = Returned final ->
  exists r,
    process_query svc query user_id location context = Returned r /\
    od_lookup "answer" r = Some final /\
    od_lookup "confidence_score" r = Some (dict_get response "confidence" (VNum 0.8)) /\
    od_lookup "sources" r = Some (dict_get response "sources" (VList [])) /\
    od_lookup "suggestions" r = Some (dict_get response "suggestions" (VList [])) /\
    od_lookup "agent_type" r = Some (VStr agent_type).
Proof.
  intros (Hd & Ht & Hl & Hc & Hk & Ha) Hr Hanswer Hfinal. run_backend.
  rewrite Hd. cbn.
  revert Ht Hfinal.
  destruct (negb (String.eqb (default "en" (li_language li)) "en"));
    intros Ht Hfinal; [rewrite Ht | injection Ht as <-]; cbn.
  all: revert Hl; destruct (negb (location_given location));
    intros Hl; [rewrite Hl | injection Hl as <-]; cbn.
  all: rewrite Hc; cbn; rewrite Hk; cbn; rewrite Ha; cbn; rewrite Hr; cbn;
    unfold dict_item; rewrite Hanswer; cbn.
  all: try (rewrite Hfinal; cbn).
  all: try (injection Hfinal as <-).
  all: eexists; split; [reflexivity | repeat split].
Qed.

(** The selected agent returns, and the translation of its answer back to
    the language of the request raises: the fallback response. *)
Lemma process_query_back_translation_failure svc query user_id location context
    li pq loc agent_type context_data a response answer e :
  reaches_agent svc query location li pq loc agent_type context_data a ->
  a pq loc context_data (default [] context) = Returned response ->
  od_lookup "answer" response = Some answer ->
  String.eqb (language_of li) "en" = false ->
  translate svc answer "en" (language_of li) = Raised e ->
  process_query svc query user_id location context
    = Returned (fallback_result svc query (language_of li) e).
Proof.
  intros (Hd & Ht & Hl & Hc & Hk & Ha) Hr Hanswer Hlang Hback. run_backend.
  rewrite Hd. cbn.
  revert Ht. rewrite Hlang. cbn [negb]. intros Ht. rewrite Ht. cbn.
  revert Hl; destruct (negb (location_given location));
    intros Hl; [rewrite Hl | injection Hl as <-]; cbn.
  all: rewrite Hc; cbn; rewrite Hk; cbn; rewrite Ha; cbn; rewrite Hr; cbn;
    unfold dict_item; rewrite Hanswer; cbn; rewrite Hback; reflexivity.
Qed.


(** The apology of [_get_fallback_response] is the Hindi one for "hi" and
    the English one for every other language. *)
Lemma fallback_response_text (language : string) :
  _get_fallback_response language
  = if String.eqb language "hi" then fallback_hi else fallback_en.
Proof.
  unfold _get_fallback_response, dict_get. cbn [od_lookup].
  destruct (String.eqb_spec "en" language) as [<- | _]; [reflexivity |].
  destruct (String.eqb_spec "hi" language) as [<- | Hne]; [reflexivity |].
  destruct (String.eqb_spec language "hi") as [-> | _];
    [now contradiction Hne | reflexivity].
Qed.

(** ** The range of the classifier *)

(** The semantic loop returns the match it started from or one of the
    described categories. *)
Lemma semantic_loop_range enc qe descriptions best c :
  semantic_loop enc qe descriptions best = Returned c ->
  c = fst best \/ In c (od_keys descriptions).
Proof.
  revert best. induction descriptions as [| [agent_type description] rest IH];
    intros best H; cbn in H.
  - injection H as <-. now left.
  - destruct (enc description) as [de | e]; cbn in H; [| discriminate].
    apply IH in H. destruct H as [-> | H]; [| right; now right].
    destruct (Qltb (snd best) (np_dot qe de)); cbn; auto.
Qed.

(** X1. Whenever [_classify_query] returns, by its keyword scores or by
    its semantic fallback, the result is one of the four categories
    weather, crop, financial, policy: with the four agents registered
    under these names, [self.agents.get(agent_type)] always finds the
    agent and the default to the crop agent is never taken. *)
Theorem classify_query_returns_a_category enc query c :
  _classify_query enc query = Returned c ->
  In c priority_order /\
  forall svc,
    (forall n, In n priority_order -> od_has n (agents svc) = true) ->
    exists a, od_lookup c (agents svc) = Some a /\
              select_agent svc c = Returned a.
Proof.
  intros H.
  assert (In c priority_order) as Hin; [| split; [exact Hin |]].
  2: { intros svc Hregistered. specialize (Hregistered c Hin).
       unfold od_has in Hregistered. unfold select_agent.
       destruct (od_lookup c (agents svc)) as [a |]; [| discriminate].
       now exists a. }
  unfold _classify_query in H.
  set (ql := str_lower query) in *.
  change agent_keywords with
    [ ("weather", dict_get agent_keywords "weather" []);
      ("crop", dict_get agent_keywords "crop" []);
      ("financial", dict_get agent_keywords "financial" []);
      ("policy", dict_get agent_keywords "policy" []) ] in H.
  set (k1 := dict_get agent_keywords "weather" []) in *.
  set (k2 := dict_get agent_keywords "crop" []) in *.
  set (k3 := dict_get agent_keywords "financial" []) in *.
  set (k4 := dict_get agent_keywords "policy" []) in *.
  destruct (Nat.eq_dec (keyword_score k1 ql) 0) as [H1 | H1];
  [destruct (Nat.eq_dec (keyword_score k2 ql) 0) as [H2 | H2];
   [destruct (Nat.eq_dec (keyword_score k3 ql) 0) as [H3 | H3];
    [destruct (Nat.eq_dec (keyword_score k4 ql) 0) as [H4 | H4] | ] | ] | ].
  1: { rewrite (max_scores_none k1 k2 k3 k4 ql H1 H2 H3 H4) in H.
       destruct (enc query) as [qe | e]; cbn [bind] in H; [| discriminate].
       apply semantic_loop_range in H. cbn in H. unfold priority_order.
       cbn. intuition auto. }
  all: destruct (max_scores_four k1 k2 k3 k4 ql) as (best & Hbest & Hin & _);
    [lia |]; rewrite Hbest in H; injection H as <-; exact Hin.
Qed.

Lemma classify_query_returns_a_category_witness :
  select_agent Scenario.english_backend "weather"
    = Returned (WeatherAgent.process_query Scenario.weather_service).
Proof.
  destruct (classify_query_returns_a_category (fun _ => Returned [0%Q])
              "Will it rain in Pune tomorrow?" "weather")
    as [_ Hagent].
  - vm_compute. reflexivity.
  - destruct (Hagent Scenario.english_backend) as (a & Ha & Hselect).
    + intros n Hn. cbn in Hn.
      destruct Hn as [<- | [<- | [<- | [<- | []]]]]; reflexivity.
    + cbn in Ha. injection Ha as <-. exact Hselect.
Defined.

(** ** A keyword that cannot match *)

(** Lowering never yields the capital letter P. *)
Lemma ascii_lower_not_upper_p (c : Ascii.ascii) :
  ascii_lower c <> Ascii.ascii_of_nat 80.
Proof.
  destruct c as [[] [] [] [] [] [] [] []]; vm_compute; discriminate.
Qed.

Lemma pm_kisan_no_prefix (s : string) :
  String.prefix "PM-KISAN" (str_lower s) = false.
Proof.
  destruct s as [| c s]; [reflexivity |]. cbn [str_lower].
  pose proof (ascii_lower_not_upper_p c) as Hc.
  cbn [String.prefix].
  destruct (Ascii.ascii_dec _ (ascii_lower c)) as [E | E]; [| reflexivity].
  exfalso. apply Hc. symmetry. exact E.
Qed.

Lemma pm_kisan_not_contained (s : string) :
  str_contains "PM-KISAN" (str_lower s) = false.
Proof.
  induction s as [| c s IH].
  - reflexivity.
  - cbn [str_lower].
    change (str_contains "PM-KISAN" (String (ascii_lower c) (str_lower s)))
      with (if String.prefix "PM-KISAN" (String (ascii_lower c) (str_lower s))
            then true
            else str_contains "PM-KISAN" (str_lower s)).
    change (String (ascii_lower c) (str_lower s)) with (str_lower (String c s)).
    now rewrite pm_kisan_no_prefix.
Qed.

(** X2. The policy keyword [PM-KISAN] is written in capitals and is
    searched in the lowered query, so it matches no query at all: the
    policy score of every query is the score of the nine other policy
    keywords. *)
Theorem pm_kisan_keyword_never_matches (query : string) :
  str_contains "PM-KISAN" (str_lower query) = false /\
  score_of "policy" query
    = keyword_score
        ["scheme"; "policy"; "government"; "yojana"; "registration";
         "application"; "योजना"; "सरकार"; "आवेदन"] (str_lower query).
Proof.
  split; [apply pm_kisan_not_contained |].
  unfold score_of.
  change (dict_get agent_keywords "policy" []) with
    ["scheme"; "policy"; "government"; "yojana"; "PM-KISAN"; "registration";
     "application"; "योजना"; "सरकार"; "आवेदन"].
  cbn [keyword_score]. rewrite pm_kisan_not_contained. reflexivity.
Qed.

(** ** Agent status *)

Lemma od_set_fresh {V : Type} (key : string) (v : V) (d : odict V) :
  ~ In key (od_keys d) -> od_set key v d = (d ++ [(key, v)])%list.
Proof.
  induction d as [| [k w] d IH]; cbn; intros Hk; [reflexivity |].
  destruct (String.eqb_spec k key) as [-> | _]; [tauto |].
  rewrite IH; [reflexivity | tauto].
Qed.

(** Over agents of distinct names the loop stores one status per agent,
    in the order of the agents. *)
Lemma status_loop_distinct (checks : odict (exc dict)) (status : odict dict) :
  NoDup (od_keys status ++ od_keys checks) ->
  status_loop checks status
    = (status ++ map (fun entry => (fst entry, agent_status (snd entry))) checks)%list.
Proof.
  revert status. induction checks as [| [name check] rest IH]; intros status Hnd.
  - cbn. now rewrite app_nil_r.
  - cbn [status_loop map fst snd].
    rewrite od_set_fresh.
    + rewrite IH.
      * now rewrite <- app_assoc.
      * unfold od_keys in *. rewrite map_app, <- app_assoc. exact Hnd.
    + intros Hin. apply NoDup_app in Hnd as (_ & Hdisj & _).
      apply (Hdisj name); [now apply list_elem_of_In | cbn; left].
Qed.

Lemma all_report_healthy (checks : odict (exc dict)) :
  forallb reports_healthy
    (od_values (map (fun entry => (fst entry, agent_status (snd entry))) checks))
    = true
  <-> Forall (fun check => exists s, check = Returned s /\ reports_healthy s = true)
             (od_values checks).
Proof.
  induction checks as [| [name check] rest IH]; cbn.
  - split; [constructor | reflexivity].
  - rewrite andb_true_iff, IH. split.
    + intros [Hc Hrest]. constructor; [| exact Hrest].
      destruct check as [s | e]; [now exists s | discriminate].
    + intros H. apply List.Forall_cons_iff in H as [(s & -> & Hs) Hrest]. auto.
Qed.

(** The overall status is healthy exactly when every check returned a
    report whose status is healthy. *)
Lemma overall_status_healthy (checks : odict (exc dict)) (now : string) :
  NoDup (od_keys checks) ->
  od_lookup "overall_status" (get_agent_status checks now) = Some (VStr "healthy")
  <-> Forall (fun check => exists s, check = Returned s /\ reports_healthy s = true)
             (od_values checks).
Proof.
  intros Hnd. unfold get_agent_status. cbn [od_lookup String.eqb].
  rewrite status_loop_distinct by exact Hnd. cbn [app].
  rewrite <- all_report_healthy.
  change (String.eqb "overall_status" "overall_status") with true. cbn iota.
  destruct (forallb _ _); split; intros H; try reflexivity; discriminate.
Qed.

(** X3. [get_agent_status], over agents of distinct names (the keys of a
    dictionary), never raises.  Its overall status is [healthy] exactly
    when every agent's [health_check] returned a report whose [status] is
    [healthy], and [degraded] otherwise: a check that raises is recorded as
    the report [{'status': 'error', 'error': ...}] of its agent and
    degrades the whole.  Every agent has its entry under [agents], in the
    order of the agents. *)
Theorem agent_status_healthy_iff_all_healthy
    (checks : odict (exc dict)) (now : string) :
  NoDup (od_keys checks) ->
  (od_lookup "overall_status" (get_agent_status checks now)
     = Some (VStr "healthy")
   <-> Forall (fun check => exists s, check = Returned s /\
                                      reports_healthy s = true)
              (od_values checks))
  /\ (od_lookup "overall_status" (get_agent_status checks now)
        = Some (VStr "healthy")
      \/ od_lookup "overall_status" (get_agent_status checks now)
        = Some (VStr "degraded"))
  /\ od_lookup "agents" (get_agent_status checks now)
       = Some (VDict (map (fun entry =>
                             (fst entry, VDict (agent_status (snd entry))))
                          checks)).
Proof.
  intros Hnd. split; [now apply overall_status_healthy |]. split.
  - unfold get_agent_status. cbn. destruct (forallb _ _); auto.
  - unfold get_agent_status. cbn.
    rewrite status_loop_distinct by exact Hnd. cbn [app].
    now rewrite map_map.
Qed.

Lemma agent_status_healthy_iff_all_healthy_witness :
  od_lookup "overall_status"
    (get_agent_status Scenario.health_reports "2025-06-01T10:00:00")
    = Some (VStr "degraded").
Proof.
  destruct (agent_status_healthy_iff_all_healthy Scenario.health_reports
              "2025-06-01T10:00:00")
    as (Hiff & [Hhealthy | Hdegraded] & _).
  - apply (bool_decide_unpack _). vm_compute. reflexivity.
  - apply Hiff in Hhealthy. cbn in Hhealthy.
    apply List.Forall_cons_iff in Hhealthy as [_ Hhealthy].
    apply List.Forall_cons_iff in Hhealthy as [_ Hhealthy].
    apply List.Forall_cons_iff in Hhealthy as [(s & Hs & _) _].
    discriminate.
  - exact Hdegraded.
Defined.

End BackendFacts.

(* ===================================================================== *)
(** * Properties of the coordinator *)
(* ===================================================================== *)

Module CoordinatorFacts.
Import Coordinator.

(** ** Routing *)

(** A guarded call never raises. *)
Lemma call_guarded_returns (call : timed (exc dict)) (agent_name : string) :
  outcome (call_guarded call agent_name)
    = Returned (guarded_result call agent_name).
Proof.
  unfold call_guarded, guarded_result. cbn.
  now destruct (outcome call).
Qed.

Lemma call_guarded_duration (call : timed (exc dict)) (agent_name : string) :
  duration (call_guarded call agent_name) = duration call.
Proof. reflexivity. Qed.

(** The results of tasks that all return are their dictionaries, in task
    order. *)
Lemma gather_returned (tasks : list (timed (exc dict))) (ds : list dict) :
  Forall2 (fun t d => outcome t = Returned d) tasks ds ->
  outcome (gather tasks) = map inl ds.
Proof.
  induction 1 as [| t d tasks ds Ht _ IH]; cbn in *.
  - reflexivity.
  - rewrite Ht. now f_equal.
Qed.

(** The gathering lasts at least as long as each of its tasks ... *)
Lemma gather_duration_ge (tasks : list (timed (exc dict))) (t : timed (exc dict)) :
  In t tasks -> duration t <= duration (gather tasks).
Proof.
  induction tasks as [| t' tasks IH]; cbn; intros Hin.
  - contradiction.
  - destruct Hin as [-> | Hin]; [lia |].
    specialize (IH Hin). cbn in IH. lia.
Qed.

(** ... and exactly as long as the slowest one. *)
Lemma gather_duration_attained (tasks : list (timed (exc dict))) :
  tasks <> [] ->
  exists t, In t tasks /\ duration (gather tasks) = duration t.
Proof.
  induction tasks as [| t tasks IH]; intros Hne; [congruence |].
  destruct tasks as [| t' tasks'].
  - exists t. cbn. split; [now left | lia].
  - destruct IH as (u & Hu & Hdur); [congruence |].
    cbn in Hdur |- *.
    destruct (Nat.max_spec (duration t)
                (Nat.max (duration t')
                   (foldr (fun t m => Nat.max (duration t) m) 0 tasks')))
      as [[_ ->] | [_ ->]].
    + exists u. split; [right; exact Hu | exact Hdur].
    + exists t. split; [now left | reflexivity].
Qed.

(** Up to four dictionaries are all stored, in order. *)
Lemma collect_results_keeps_all (ds : list dict) :
  length ds <= 4 ->
  od_values (collect_results 0 (map inl ds) []) = ds.
Proof.
  intros Hlen.
  destruct ds as [| d1 [| d2 [| d3 [| d4 [| d5 ds]]]]]; cbn in *;
    try reflexivity; lia.
Qed.

(** The tasks created are guarded calls of the four agents, at most one
    each and in the fixed order. *)
Lemma select_tasks_shape svc query a context tasks :
  select_tasks svc query a context = Returned tasks ->
  length tasks <= 4 /\
  forall t, In t tasks ->
    t = _call_crop_advisor svc query context \/
    t = _call_weather_agent svc query context \/
    t = _call_finance_agent svc query context \/
    t = _call_pest_disease_agent svc query context.
Proof.
  unfold select_tasks. intros H.
  destruct (is_required a "crop_advisor" _) as [[|] |]; cbn in H;
    try discriminate;
    (destruct (is_required a "weather_agent" _) as [[|] |]; cbn in H;
       try discriminate;
     (destruct (is_required a "finance_agent" _) as [[|] |]; cbn in H;
        try discriminate;
      (destruct (is_required a "pest_disease_agent" _) as [[|] |]; cbn in H;
         try discriminate))).
  all: injection H as <-; cbn; split; [lia |].
  all: intros t Ht; repeat (destruct Ht as [<- | Ht]; [tauto |]); contradiction.
Qed.

Lemma tasks_return svc query a context tasks :
  select_tasks svc query a context = Returned tasks ->
  exists ds, Forall2 (fun t d => outcome t = Returned d) tasks ds.
Proof.
  intros H. destruct (select_tasks_shape _ _ _ _ _ H) as [_ Hshape].
  clear H. induction tasks as [| t tasks IH].
  - exists []. constructor.
  - destruct IH as (ds & Hds); [intros u Hu; apply Hshape; now right |].
    destruct (Hshape t) as [-> | [-> | [-> | ->]]]; [now left | | | |].
    all: eexists (_ :: ds); constructor; [apply call_guarded_returns | exact Hds].
Qed.

(** C2 (as the code has it). The dispatcher sets no timeout: once the
    tasks, guarded calls of the selected agents, are created, it returns a
    mapping, having awaited every task, so the dispatch lasts as long as its
    slowest call, however long that call runs.  The dictionary of every
    selected call is among the values of the mapping: the agent's own when
    the call returns, the error dictionary naming the agent when it raises
    (whatever the cause, a timeout inside the agent included); no call
    aborts or removes another. *)
Theorem route_awaits_every_call svc query a context tasks :
  select_tasks svc query a context = Returned tasks ->
  exists r,
    _route_to_agents svc query (VDict a) context = Returned r /\
    (forall t, In t tasks ->
       exists call name, t = call_guarded call name /\ In name agent_names) /\
    (forall t, In t tasks -> duration t <= duration r) /\
    (tasks <> [] -> exists t, In t tasks /\ duration r = duration t) /\
    (forall call name, In (call_guarded call name) tasks ->
       duration call <= duration r /\
       In (guarded_result call name) (od_values (outcome r))).
Proof.
  intros Hsel.
  destruct (tasks_return _ _ _ _ _ Hsel) as (ds & Hds).
  destruct (select_tasks_shape _ _ _ _ _ Hsel) as [Hlen Hshape].
  assert (Hlen' : length ds <= 4).
  { rewrite <- (Forall2_length _ _ _ Hds). exact Hlen. }
  exists {| outcome := collect_results 0 (outcome (gather tasks)) [];
            duration := duration (gather tasks) |}.
  split.
  { unfold _route_to_agents. cbn [bind]. rewrite Hsel. cbn [bind].
    now destruct tasks. }
  cbn [outcome duration].
  split.
  { intros t Ht.
    destruct (Hshape t Ht) as [-> | [-> | [-> | ->]]];
      eexists _, _; (split; [reflexivity | cbn; tauto]). }
  split; [intros t Ht; now apply gather_duration_ge |].
  split; [apply gather_duration_attained |].
  intros call name Hin. split.
  - rewrite <- (call_guarded_duration call name). now apply gather_duration_ge.
  - rewrite (gather_returned _ _ Hds), (collect_results_keeps_all _ Hlen').
    clear Hsel Hlen Hlen' Hshape.
    induction Hds as [| t d tasks ds Ht _ IH]; [contradiction |].
    destruct Hin as [-> | Hin].
    + rewrite call_guarded_returns in Ht. injection Ht as <-. now left.
    + right. now apply IH.
Qed.

Lemma route_awaits_every_call_witness :
  exists r,
    _route_to_agents Scenario.weather_down "Will it rain tomorrow?"
      Scenario.crop_and_weather None = Returned r /\
    3 <= duration r /\
    In (error_response (Error "weather API timeout") "weather_agent")
       (od_values (outcome r)).
Proof.
  destruct (route_awaits_every_call Scenario.weather_down
              "Will it rain tomorrow?"
              [ ("type", VStr "weather");
                ("required_agents",
                  VList [VStr "crop_advisor"; VStr "weather_agent"]) ]
              None
              [ _call_crop_advisor Scenario.weather_down
                  "Will it rain tomorrow?" None;
                _call_weather_agent Scenario.weather_down
                  "Will it rain tomorrow?" None ]
              eq_refl)
    as (r & Hr & _ & _ & _ & Hcalls).
  exists r. split; [exact Hr |].
  apply (Hcalls (Scenario.raises_after 3 "weather API timeout"
                   "Will it rain tomorrow?" None) "weather_agent").
  right. left. reflexivity.
Defined.

(** C2, the claim at a concrete dispatch.  With an allowed time of 5 per
    call, the weather agent needs 60 and the crop advisor 1: the dispatch
    lasts 60, and the entry of the slow agent is its late Success, not a
    Failure. *)
Lemma route_slow_agent_not_timed_out :
  Scenario.allowed_time
    < duration (weather_agent_get_forecast Scenario.slow_weather
                  "Will it rain tomorrow?" None) /\
  exists r,
    _route_to_agents Scenario.slow_weather "Will it rain tomorrow?"
      Scenario.crop_and_weather None = Returned r /\
    ~ duration r <= Scenario.allowed_time /\
    ~ (exists d, od_lookup "weather_agent" (outcome r) = Some d /\
                 is_failure d = true).
Proof.
  unfold Scenario.allowed_time. split; [cbn; lia |].
  eexists. split; [vm_compute; reflexivity |]. cbn [duration outcome]. split.
  - lia.
  - intros (d & Hd & Hfail). cbn in Hd. injection Hd as <-. discriminate.
Qed.

(** The results are filed by position: the keys of the mapping are the
    first names of [agent_names], as many as there are tasks, whichever
    agents the tasks call. *)
Lemma route_keys_by_position svc query a context tasks :
  select_tasks svc query a context = Returned tasks ->
  exists r,
    _route_to_agents svc query (VDict a) context = Returned r /\
    od_keys (outcome r) = take (length tasks) agent_names.
Proof.
  intros Hsel.
  destruct (tasks_return _ _ _ _ _ Hsel) as (ds & Hds).
  destruct (select_tasks_shape _ _ _ _ _ Hsel) as [Hlen _].
  exists {| outcome := collect_results 0 (outcome (gather tasks)) [];
            duration := duration (gather tasks) |}.
  split.
  { unfold _route_to_agents. cbn [bind]. rewrite Hsel. cbn [bind].
    now destruct tasks. }
  cbn [outcome]. rewrite (gather_returned _ _ Hds).
  rewrite (Forall2_length _ _ _ Hds) in *. clear Hds Hsel.
  destruct ds as [| d1 [| d2 [| d3 [| d4 [| d5 ds]]]]]; cbn in *;
    try reflexivity; lia.
Qed.

(** C1, at the dispatch that selects the weather agent alone.  The agent
    raises; its Failure is stored, but under the first name of
    [agent_names], [crop_advisor], an agent that was not selected, and the
    mapping has no entry for [weather_agent]. *)
Theorem route_weather_only_files_under_crop_advisor :
  exists r,
    _route_to_agents Scenario.weather_down "Will it rain tomorrow?"
      Scenario.weather_only None = Returned r /\
    outcome r = [ ("crop_advisor",
                   error_response (Error "weather API timeout") "weather_agent") ] /\
    od_lookup "weather_agent" (outcome r) = None /\
    od_keys (outcome r) = ["crop_advisor"].
Proof.
  eexists. split; [vm_compute; reflexivity |]. repeat split.
Qed.

(** ** Synthesis *)

Lemma od_lookup_values {V : Type} (key : string) (d : odict V) (v : V) :
  od_lookup key d = Some v -> In v (od_values d).
Proof.
  induction d as [| [k w] d IH]; cbn; [discriminate |].
  destruct (String.eqb k key).
  - intros [= ->]. now left.
  - intros H. right. now apply IH.
Qed.

(** The first loop of [_get_best_agent_response] returns the response of
    the first name, in the order of [names], whose response is not a
    Failure. *)
Lemma first_by_priority_spec (names : list string) (agent_responses : odict dict) :
  match first_by_priority names agent_responses with
  | Some r =>
      exists n, In n names /\ od_lookup n agent_responses = Some r /\
                is_failure r = false /\
                forall n' r', In n' names ->
                  od_lookup n' agent_responses = Some r' ->
                  is_failure r' = false ->
                  index_of n names <= index_of n' names
  | None =>
      forall n r, In n names -> od_lookup n agent_responses = Some r ->
                  is_failure r = true
  end.
Proof.
  unfold is_failure.
  induction names as [| agent rest IH]; cbn [first_by_priority].
  - intros n r [].
  - destruct (od_lookup agent agent_responses) as [response |] eqn:Hl.
    + destruct (od_has "error" response) eqn:He; cbn [negb].
      * destruct (first_by_priority rest agent_responses) as [r |].
        -- destruct IH as (n & Hn & Hln & Hr & Hmin).
           assert (Hne : String.eqb agent n = false).
           { apply String.eqb_neq. intros ->. congruence. }
           exists n. split; [now right |]. split; [exact Hln |].
           split; [exact Hr |]. intros n' r' [<- | Hn'] Hl' Hr'.
           ++ congruence.
           ++ cbn [index_of]. rewrite Hne.
              destruct (String.eqb agent n') eqn:E.
              ** apply String.eqb_eq in E. subst. congruence.
              ** specialize (Hmin n' r' Hn' Hl' Hr'). lia.
        -- intros n r [<- | Hn] Hln; [congruence | now apply (IH n r)].
      * exists agent. split; [now left |]. split; [exact Hl |].
        split; [exact He |]. intros n' r' _ _ _. cbn [index_of].
        rewrite String.eqb_refl. lia.
    + destruct (first_by_priority rest agent_responses) as [r |].
      * destruct IH as (n & Hn & Hln & Hr & Hmin).
        assert (Hne : String.eqb agent n = false).
        { apply String.eqb_neq. intros ->. congruence. }
        exists n. split; [now right |]. split; [exact Hln |].
        split; [exact Hr |]. intros n' r' [<- | Hn'] Hl' Hr'.
        -- congruence.
        -- cbn [index_of]. rewrite Hne.
           destruct (String.eqb agent n') eqn:E.
           ++ apply String.eqb_eq in E. subst. congruence.
           ++ specialize (Hmin n' r' Hn' Hl' Hr'). lia.
      * intros n r [<- | Hn] Hln; [congruence | now apply (IH n r)].
Qed.

Lemma first_without_error_spec (responses : list dict) :
  match first_without_error responses with
  | Some r => In r responses /\ is_failure r = false
  | None => Forall (fun r => is_failure r = true) responses
  end.
Proof.
  unfold is_failure.
  induction responses as [| r rest IH]; cbn [first_without_error].
  - constructor.
  - destruct (od_has "error" r) eqn:He; cbn [negb].
    + destruct (first_without_error rest).
      * destruct IH. split; [now right | assumption].
      * now constructor.
    + split; [now left | exact He].
Qed.

(** Whatever [_get_best_agent_response] returns is a Success of the
    mapping or, when there is none, the fixed dictionary. *)
Lemma best_agent_response_cases (agent_responses : odict dict) :
  (In (_get_best_agent_response agent_responses) (od_values agent_responses) /\
   is_failure (_get_best_agent_response agent_responses) = false)
  \/
  (all_failed agent_responses /\
   _get_best_agent_response agent_responses = no_valid_response).
Proof.
  unfold _get_best_agent_response.
  pose proof (first_by_priority_spec priority agent_responses) as Hp.
  destruct (first_by_priority priority agent_responses) as [r |].
  - left. destruct Hp as (n & _ & Hl & Hr & _).
    split; [now apply (od_lookup_values n) | exact Hr].
  - pose proof (first_without_error_spec (od_values agent_responses)) as Hw.
    destruct (first_without_error (od_values agent_responses)) as [r |].
    + left. exact Hw.
    + right. split; [exact Hw | reflexivity].
Qed.

Lemma best_of_all_failed (agent_responses : odict dict) :
  all_failed agent_responses ->
  _get_best_agent_response agent_responses = no_valid_response.
Proof.
  intros Hall. destruct (best_agent_response_cases agent_responses)
    as [[Hin Hok] | [_ H]]; [| exact H].
  unfold all_failed in Hall. rewrite List.Forall_forall in Hall.
  specialize (Hall _ Hin). congruence.
Qed.

Lemma best_of_only_success (d : dict) (agent_responses : odict dict) :
  only_success d agent_responses ->
  _get_best_agent_response agent_responses = d.
Proof.
  intros (Hin & Hok & Huniq).
  destruct (best_agent_response_cases agent_responses)
    as [[Hin' Hok'] | [Hall _]].
  - now apply Huniq.
  - unfold all_failed in Hall. rewrite List.Forall_forall in Hall.
    specialize (Hall _ Hin). congruence.
Qed.

(** C5 (as the code has it).  When the generation step raises or its
    output does not parse, [_synthesize_responses] does not raise that
    exception to its caller: its result is the fallback built on the best
    response, and the best response is that of the first agent, in the
    order crop_advisor, weather_agent, finance_agent, pest_disease_agent,
    whose response is not a Failure.  The statement starts where the
    generation step is reached, inside the [try] block; the prompt is
    built before it. *)
Theorem synthesis_falls_back_by_priority
    svc query agent_responses analysis context e :
  generate_synthesis svc query agent_responses analysis context = Raised e ->
  exists r best,
    _synthesize_responses svc query agent_responses analysis context
      = Returned r /\
    r = synthesis_fallback agent_responses /\
    best = _get_best_agent_response agent_responses /\
    od_lookup "answer" r = Some (dict_get best "answer" (VStr difficulty_answer)) /\
    forall n d,
      In n ["crop_advisor"; "weather_agent"; "finance_agent";
            "pest_disease_agent"] ->
      od_lookup n agent_responses = Some d -> is_failure d = false ->
      exists first,
        In first ["crop_advisor"; "weather_agent"; "finance_agent";
                  "pest_disease_agent"] /\
        od_lookup first agent_responses = Some best /\
        is_failure best = false /\
        index_of first ["crop_advisor"; "weather_agent"; "finance_agent";
                        "pest_disease_agent"]
          <= index_of n ["crop_advisor"; "weather_agent"; "finance_agent";
                         "pest_disease_agent"].
Proof.
  intros He.
  exists (synthesis_fallback agent_responses),
         (_get_best_agent_response agent_responses).
  split; [| split; [| split; [| split]]].
  - unfold _synthesize_responses. now rewrite He.
  - reflexivity.
  - reflexivity.
  - reflexivity.
  - intros n d Hn Hl Hd. unfold _get_best_agent_response.
    pose proof (first_by_priority_spec priority agent_responses) as Hp.
    destruct (first_by_priority priority agent_responses) as [b |].
    + destruct Hp as (first & Hf & Hlf & Hb & Hmin).
      exists first. repeat split; try assumption.
      now apply (Hmin n d).
    + specialize (Hp n d Hn Hl). congruence.
Qed.

Lemma synthesis_falls_back_by_priority_witness :
  exists r,
    _synthesize_responses Scenario.all_answer "Will it rain tomorrow?"
      Scenario.crop_and_weather_answers Scenario.crop_and_weather None
      = Returned r /\
    od_lookup "answer" r = Some (VStr "Sow wheat").
Proof.
  destruct (synthesis_falls_back_by_priority Scenario.all_answer
              "Will it rain tomorrow?" Scenario.crop_and_weather_answers
              Scenario.crop_and_weather None
              (Error "model unavailable") eq_refl)
    as (r & best & Hr & _ & -> & Hanswer & _).
  exists r. split; [exact Hr | exact Hanswer].
Defined.

(** C5, the claim at a concrete mapping.  Crop advisor and weather agent
    both answered and the generation step fails: the fallback takes the
    answer of the crop advisor, not that of the weather agent. *)
Lemma synthesis_fallback_prefers_crop_advisor :
  od_lookup "weather_agent" Scenario.crop_and_weather_answers
    = Some (Scenario.success "Sunny" 0.9) /\
  od_lookup "answer" (Scenario.success "Sunny" 0.9) = Some (VStr "Sunny") /\
  generate_synthesis Scenario.all_answer "Will it rain tomorrow?"
    Scenario.crop_and_weather_answers Scenario.crop_and_weather None
    = Raised (Error "model unavailable") /\
  exists r,
    _synthesize_responses Scenario.all_answer "Will it rain tomorrow?"
      Scenario.crop_and_weather_answers Scenario.crop_and_weather None
      = Returned r /\
    od_lookup "answer" r = Some (VStr "Sow wheat") /\
    od_lookup "answer" r <> Some (VStr "Sunny").
Proof.
  split; [reflexivity |]. split; [reflexivity |]. split; [reflexivity |].
  eexists. split; [vm_compute; reflexivity |]. split; [reflexivity |].
  cbn. discriminate.
Qed.

(** ** The pipeline *)

Ltac run_coordinator :=
  unfold process_query, st_try_except, process_query_body,
    st_bind, st_lift, st_ret, st_modify in *.



(** An exception raised by the translation of the query ends the request
    with the fixed error response; the memory is left as it was. *)
Lemma coordinator_translation_failure svc query user_context session_id m lang e :
  detect_language svc query = Returned lang ->
  String.eqb lang "en" = false ->
  translate_to_english svc query = Raised e ->
  process_query svc query user_context session_id m
    = (Returned (error_result e), m).
Proof.
  intros Hd Hlang Ht. run_coordinator. rewrite Hd. cbn.
  rewrite Hlang. cbn. rewrite Ht. reflexivity.
Qed.


(** ** More on routing, selection and memory *)

(** X4. [_route_to_agents] files the results by position.  Whatever the
    analysis selects, the dispatch returns a mapping whose keys are the
    first names of crop_advisor, weather_agent, finance_agent,
    pest_disease_agent, as many as tasks were created, and whose values are
    the dictionaries of the tasks in creation order: a result stands under
    the name of its own agent only when the selected agents are the first
    ones of that list. *)
Theorem route_files_results_by_position svc query a context tasks :
  select_tasks svc query a context = Returned tasks ->
  exists r,
    _route_to_agents svc query (VDict a) context = Returned r /\
    od_keys (outcome r) = take (length tasks) agent_names /\
    Forall2 (fun t d => outcome t = Returned d) tasks (od_values (outcome r)).
Proof.
  intros Hsel.
  destruct (tasks_return _ _ _ _ _ Hsel) as (ds & Hds).
  destruct (select_tasks_shape _ _ _ _ _ Hsel) as [Hlen _].
  exists {| outcome := collect_results 0 (outcome (gather tasks)) [];
            duration := duration (gather tasks) |}.
  split.
  { unfold _route_to_agents. cbn [bind]. rewrite Hsel. cbn [bind].
    now destruct tasks. }
  cbn [outcome]. rewrite (gather_returned _ _ Hds).
  rewrite (Forall2_length _ _ _ Hds) in Hlen.
  split.
  - rewrite (Forall2_length _ _ _ Hds). clear Hds Hsel.
    destruct ds as [| d1 [| d2 [| d3 [| d4 [| d5 ds]]]]]; cbn in *;
      try reflexivity; lia.
  - now rewrite collect_results_keeps_all.
Qed.

Lemma route_files_results_by_position_witness :
  exists r,
    _route_to_agents Scenario.all_answer "Is there a loan for seeds?"
      (VDict [ ("type", VStr "finance");
               ("required_agents", VList [VStr "finance_agent"]) ])
      None = Returned r /\
    od_keys (outcome r) = ["crop_advisor"].
Proof.
  destruct (route_files_results_by_position Scenario.all_answer
              "Is there a loan for seeds?"
              [ ("type", VStr "finance");
                ("required_agents", VList [VStr "finance_agent"]) ]
              None
              [ _call_finance_agent Scenario.all_answer
                  "Is there a loan for seeds?" None ]
              eq_refl)
    as (r & Hr & Hkeys & _).
  exists r. split; [exact Hr | exact Hkeys].
Defined.

(** X5. [_get_best_agent_response] never returns a Failure: its result
    carries no [error] key.  It is a response of the mapping whenever the
    mapping holds one that is not a Failure, under whatever key, and the
    fixed dictionary "No valid response available" only when every
    response is a Failure (or there is none). *)
Theorem best_response_is_never_a_failure (agent_responses : odict dict) :
  is_failure (_get_best_agent_response agent_responses) = false /\
  (In (_get_best_agent_response agent_responses) (od_values agent_responses)
   \/ (all_failed agent_responses /\
       _get_best_agent_response agent_responses = no_valid_response)).
Proof.
  destruct (best_agent_response_cases agent_responses)
    as [[Hin Hok] | [Hall Hnone]].
  - split; [exact Hok | now left].
  - split; [now rewrite Hnone | right; now split].
Qed.

(** X6. When the analysis of the query fails, the model call raising or
    its output not parsing, [_analyze_query] does not raise: it returns
    its default analysis, and on that analysis the dispatch consults the
    crop advisor alone and lasts as long as that one call. *)
Theorem failed_analysis_consults_the_crop_advisor_alone
    svc query context e :
  bind (get_completion svc (AnalysisPrompt query context)) (json_loads svc)
    = Raised e ->
  _analyze_query svc query context = Returned (VDict (default_analysis query)) /\
  forall q c,
    _route_to_agents svc q (VDict (default_analysis query)) c
    = Returned
        {| outcome :=
             [ ("crop_advisor",
                guarded_result (crop_advisor_get_advice svc q c) "crop_advisor") ];
           duration := duration (crop_advisor_get_advice svc q c) |}.
Proof.
  intros Hfail. split.
  - unfold _analyze_query. unfold bind in Hfail.
    destruct (get_completion svc (AnalysisPrompt query context)) as [resp | e1];
      cbn [bind try_except].
    + now rewrite Hfail.
    + reflexivity.
  - intros q c. unfold _route_to_agents, select_tasks, is_required, or_else.
    cbn [bind dict_get od_lookup default_analysis String.eqb Ascii.eqb Bool.eqb
         py_in existsb value_is_str value_in_strs dict_item orb app].
    unfold gather, _call_crop_advisor. cbn [map foldr outcome duration call_guarded].
    rewrite Nat.max_0_r. unfold guarded_result.
    destruct (outcome (crop_advisor_get_advice svc q c)); reflexivity.
Qed.

Lemma failed_analysis_consults_the_crop_advisor_alone_witness :
  _analyze_query Scenario.all_answer "Which crop should I sow?" None
    = Returned (VDict (default_analysis "Which crop should I sow?")).
Proof.
  destruct (failed_analysis_consults_the_crop_advisor_alone Scenario.all_answer
              "Which crop should I sow?" None (Error "model unavailable")
              eq_refl)
    as [Hanalysis _].
  exact Hanalysis.
Defined.

(** X7. [process_query] never raises, and one call saves at most one
    exchange.  A regular result comes with the memory extended by exactly
    the query and the answer returned; an error result comes with the
    memory as it was or, when the exception was raised after
    [save_context], extended by the exchange all the same.  Nothing is
    ever removed from the memory. *)
Theorem process_query_saves_at_most_one_exchange
    svc query user_context session_id m :
  exists r m',
    process_query svc query user_context session_id m = (Returned r, m') /\
    ((od_keys r = result_keys /\
      exists answer, od_lookup "answer" r = Some answer /\
                     m' = save_context (VStr query) answer m)
     \/
     (od_keys r = error_keys /\
      (m' = m \/ exists output, m' = save_context (VStr query) output m))).
Proof.
  destruct (process_query svc query user_context session_id m) as [out m'] eqn:H.
  unfold process_query, st_try_except, process_query_body,
    st_bind, st_lift, st_ret, st_modify in H. cbn in H.
  repeat step_exc H; injection H as <- <-; eexists _, _;
    (split; [reflexivity |]); cbn;
    first [ left; split; [reflexivity |]; eexists; split; reflexivity
          | right; split; [reflexivity |];
            first [left; reflexivity | right; eexists; reflexivity] ].
Qed.

(** The last case occurs.  The analysis names the four agents and gives
    no type: the routing never reads the type, the exchange is saved, and
    [query_analysis['type']] raises while the result is built. *)
Example error_after_saving_keeps_the_exchange :
  process_query Scenario.untyped_analysis "Which crop should I sow?" None None
    new_memory
  = (Returned (error_result (KeyError "type")),
     save_context (VStr "Which crop should I sow?") (VStr "Sow wheat")
       new_memory).
Proof. vm_compute. reflexivity. Qed.

End CoordinatorFacts.

(* ===================================================================== *)
(** * Properties of the two pipelines *)
(* ===================================================================== *)

Module PipelineFacts.

Lemma tenth_in_range : num_between 0.1 0.2 (VNum 0.1).
Proof. cbn. unfold Qle. cbn. lia. Qed.

Lemma half_out_of_range : ~ num_between 0.1 0.2 (VNum 0.5).
Proof. cbn. unfold Qle. cbn. lia. Qed.

(** ** All agents failed *)

(** C3 (as the code has it).  In the backend service a failing agent
    ends in a low-confidence apology without sources, with
    [confidence_score] 0.1, a number of [[0.1, 0.2]].  When the agent call
    raises, [process_query] returns its own fixed apology, the Hindi one
    for a request detected as "hi" and the English one otherwise, which
    has no [sources] entry.  When the weather agent fails inside, it
    returns its own fixed apology with an empty [sources] list, which
    [process_query] passes on, translated back for a request that is not
    in English; should that translation raise, [process_query] returns
    its own apology as before.  In the coordinator, when every response is
    a Failure and the synthesis generation fails, the response is the
    fixed text "No valid response available" with an empty [sources] list
    and confidence 0.5.  Each is returned at once, without a retry. *)
Theorem all_agents_failed_response :
  (forall svc query user_id location context li pq loc agent_type
          context_data a e,
     Backend.reaches_agent svc query location li pq loc agent_type
       context_data a ->
     a pq loc context_data (default [] context) = Raised e ->
     exists r,
       Backend.process_query svc query user_id location context = Returned r /\
       od_lookup "answer" r
         = Some (VStr (if String.eqb (Backend.language_of li) "hi"
                       then "मुझे खेद है, मुझे अभी आपका प्रश्न समझने में कठिनाई हो रही है। कृपया अपना कृषि संबंधी प्रश्न दोबारा पूछें, और मैं आपकी सहायता करने की पूरी कोशिश करूंगा।"
                       else "I apologize, but I'm having trouble understanding your question right now. Please try rephrasing your agricultural query, and I'll do my best to help you.")) /\
       od_lookup "confidence_score" r = Some (VNum 0.1) /\
       num_between 0.1 0.2 (VNum 0.1) /\
       od_lookup "sources" r = None /\
       od_lookup "agent_type" r = Some (VStr "fallback"))
  /\
  (forall wsvc svc query user_id location context li pq loc agent_type
          context_data e,
     Backend.reaches_agent svc query location li pq loc agent_type
       context_data (WeatherAgent.process_query wsvc) ->
     WeatherAgent.process_query_body wsvc pq loc context_data = Raised e ->
     exists r,
       Backend.process_query svc query user_id location context = Returned r /\
       od_lookup "confidence_score" r = Some (VNum 0.1) /\
       match (if String.eqb (Backend.language_of li) "en"
              then Returned "I'm sorry, I couldn't retrieve weather information at the moment. Please try again later."
              else Backend.translate svc
                     (VStr "I'm sorry, I couldn't retrieve weather information at the moment. Please try again later.")
                     "en" (Backend.language_of li)) with
       | Returned text =>
           od_lookup "answer" r = Some (VStr text) /\
           od_lookup "sources" r = Some (VList []) /\
           od_lookup "agent_type" r = Some (VStr agent_type)
       | Raised e' =>
           r = Backend.fallback_result svc query (Backend.language_of li) e' /\
           od_lookup "sources" r = None /\
           od_lookup "agent_type" r = Some (VStr "fallback")
       end)
  /\
  (forall svc query agent_responses analysis context e,
     Coordinator.all_failed agent_responses ->
     Coordinator.generate_synthesis svc query agent_responses analysis context
       = Raised e ->
     exists r,
       Coordinator._synthesize_responses svc query agent_responses analysis
         context = Returned r /\
       od_lookup "answer" r = Some (VStr "No valid response available") /\
       od_lookup "confidence" r = Some (VNum 0.5) /\
       od_lookup "sources" r = Some (VList [])).
Proof.
  split; [| split].
  - intros svc query user_id location context li pq loc agent_type
      context_data a e Hreach Hfail.
    exists (Backend.fallback_result svc query (Backend.language_of li) e).
    split; [now apply (BackendFacts.process_query_agent_failure
                         svc query user_id location context li pq loc
                         agent_type context_data a e) |].
    split.
    { cbn [Backend.fallback_result od_lookup String.eqb Ascii.eqb Bool.eqb].
      rewrite BackendFacts.fallback_response_text.
      destruct (String.eqb (Backend.language_of li) "hi"); reflexivity. }
    repeat split; try reflexivity; apply tenth_in_range.
  - intros wsvc svc query user_id location context li pq loc agent_type
      context_data e Hreach Hfail.
    assert (Hresponse :
              WeatherAgent.process_query wsvc pq loc context_data
                (default [] context)
              = Returned (WeatherAgent.failure_response e)).
    { unfold WeatherAgent.process_query. now rewrite Hfail. }
    destruct (String.eqb (Backend.language_of li) "en") eqn:Hlang.
    + destruct (BackendFacts.process_query_agent_success
                  svc query user_id location context li pq loc agent_type
                  context_data (WeatherAgent.process_query wsvc)
                  (WeatherAgent.failure_response e)
                  (VStr WeatherAgent.sorry_answer)
                  (VStr WeatherAgent.sorry_answer) Hreach Hresponse)
        as (r & Hr & Ha & Hc & Hs & _ & Ht).
      * reflexivity.
      * now rewrite Hlang.
      * exists r. repeat split; assumption.
    + destruct (Backend.translate svc (VStr WeatherAgent.sorry_answer) "en"
                  (Backend.language_of li)) as [text | e'] eqn:Hback.
      * destruct (BackendFacts.process_query_agent_success
                    svc query user_id location context li pq loc agent_type
                    context_data (WeatherAgent.process_query wsvc)
                    (WeatherAgent.failure_response e)
                    (VStr WeatherAgent.sorry_answer)
                    (VStr text) Hreach Hresponse)
          as (r & Hr & Ha & Hc & Hs & _ & Ht).
        -- reflexivity.
        -- rewrite Hlang. cbn [negb]. rewrite Hback. reflexivity.
        -- exists r. split; [exact Hr |]. split; [exact Hc |].
           change (Backend.translate svc
                     (VStr "I'm sorry, I couldn't retrieve weather information at the moment. Please try again later.")
                     "en" (Backend.language_of li))
             with (Backend.translate svc (VStr WeatherAgent.sorry_answer) "en"
                     (Backend.language_of li)).
           rewrite Hback. repeat split; assumption.
      * exists (Backend.fallback_result svc query (Backend.language_of li) e').
        split.
        { apply (BackendFacts.process_query_back_translation_failure
                   svc query user_id location context li pq loc agent_type
                   context_data (WeatherAgent.process_query wsvc)
                   (WeatherAgent.failure_response e)
                   (VStr WeatherAgent.sorry_answer) e' Hreach Hresponse);
            [reflexivity | exact Hlang | exact Hback]. }
        split; [reflexivity |].
        change (Backend.translate svc
                  (VStr "I'm sorry, I couldn't retrieve weather information at the moment. Please try again later.")
                  "en" (Backend.language_of li))
          with (Backend.translate svc (VStr WeatherAgent.sorry_answer) "en"
                  (Backend.language_of li)).
        rewrite Hback. repeat split.
  - intros svc query agent_responses analysis context e Hall Hgen.
    exists (Coordinator.synthesis_fallback agent_responses). split.
    + unfold Coordinator._synthesize_responses. now rewrite Hgen.
    + unfold Coordinator.synthesis_fallback.
      rewrite (CoordinatorFacts.best_of_all_failed _ Hall).
      repeat split.
Qed.

Lemma all_agents_failed_response_witness :
  (exists r,
     Backend.process_query
       (Scenario.backend (Scenario.detects "en") Scenario.translation_down
          [("weather", Scenario.failing)])
       "Will it rain tomorrow?" VNone None None = Returned r /\
     od_lookup "confidence_score" r = Some (VNum 0.1))
  /\
  (exists r,
     Backend.process_query
       (Scenario.backend (Scenario.detects "en") Scenario.translation_down
          Scenario.four_agents_broken_weather)
       "Will it rain tomorrow?" VNone None None = Returned r /\
     od_lookup "confidence_score" r = Some (VNum 0.1) /\
     od_lookup "sources" r = Some (VList []))
  /\
  (exists r,
     Coordinator._synthesize_responses Scenario.all_down
       "Will it rain tomorrow?" Scenario.crop_and_weather_failures
       Scenario.crop_and_weather None = Returned r /\
     od_lookup "confidence" r = Some (VNum 0.5)).
Proof.
  split; [| split].
  - destruct (proj1 all_agents_failed_response
                (Scenario.backend (Scenario.detects "en")
                   Scenario.translation_down [("weather", Scenario.failing)])
                "Will it rain tomorrow?" VNone None None
                {| Backend.li_language := Some "en";
                   Backend.li_confidence := Some 0.99%Q |}
                "Will it rain tomorrow?" None "weather" [] Scenario.failing
                (Error "agent down"))
      as (r & Hr & _ & Hc & _).
    + repeat split; reflexivity.
    + reflexivity.
    + exists r. split; [exact Hr | exact Hc].
  - destruct (proj1 (proj2 all_agents_failed_response)
                Scenario.broken_weather_service
                (Scenario.backend (Scenario.detects "en")
                   Scenario.translation_down Scenario.four_agents_broken_weather)
                "Will it rain tomorrow?" VNone None None
                {| Backend.li_language := Some "en";
                   Backend.li_confidence := Some 0.99%Q |}
                "Will it rain tomorrow?" None "weather" []
                (KeyError "daily"))
      as (r & Hr & Hc & _ & Hs & _).
    + repeat split; reflexivity.
    + reflexivity.
    + exists r. split; [exact Hr |]. split; [exact Hc | exact Hs].
  - destruct (proj2 (proj2 all_agents_failed_response) Scenario.all_down
                "Will it rain tomorrow?" Scenario.crop_and_weather_failures
                Scenario.crop_and_weather None (Error "model unavailable"))
      as (r & Hr & _ & Hc & _).
    + repeat constructor.
    + reflexivity.
    + exists r. split; [exact Hr | exact Hc].
Defined.

(** The weather agent fails inside on a request in Hindi, over a bridge
    that returns the text it is given and over one that raises. *)
Example weather_failure_on_a_hindi_request :
  (exists r,
     Backend.process_query
       (Scenario.backend (Scenario.detects "hi") Scenario.translation_degraded
          Scenario.four_agents_broken_weather)
       "आज मौसम कैसा है?" VNone None None = Returned r /\
     od_lookup "answer" r = Some (VStr WeatherAgent.sorry_answer) /\
     od_lookup "confidence_score" r = Some (VNum 0.1) /\
     od_lookup "sources" r = Some (VList []))
  /\
  (exists r,
     Backend.process_query
       (Scenario.backend (Scenario.detects "hi")
          (fun text source target =>
             if String.eqb target "en" then Scenario.translation_degraded text source target
             else Scenario.translation_down text source target)
          Scenario.four_agents_broken_weather)
       "आज मौसम कैसा है?" VNone None None = Returned r /\
     od_lookup "answer" r = Some (VStr Backend.fallback_hi) /\
     od_lookup "confidence_score" r = Some (VNum 0.1) /\
     od_lookup "sources" r = None).
Proof.
  split; eexists; (split; [vm_compute; reflexivity | repeat split]).
Qed.

(** C3, the claim on a concrete request to the coordinator.  Every agent
    is down and so is the language model: the one selected agent returns a
    Failure, and the synthesized response, like the response of the whole
    pipeline, carries confidence 0.5, outside [[0.1, 0.2]]. *)
Lemma all_failed_confidence_outside_range :
  exists routed synthesized r,
    Coordinator._route_to_agents Scenario.all_down "Will it rain tomorrow?"
      (VDict (Coordinator.default_analysis "Will it rain tomorrow?")) None
      = Returned routed /\
    Coordinator.outcome routed <> [] /\
    Coordinator.all_failed (Coordinator.outcome routed) /\
    Coordinator._synthesize_responses Scenario.all_down "Will it rain tomorrow?"
      (Coordinator.outcome routed)
      (VDict (Coordinator.default_analysis "Will it rain tomorrow?")) None
      = Returned synthesized /\
    od_lookup "confidence" synthesized = Some (VNum 0.5) /\
    fst (Coordinator.process_query Scenario.all_down "Will it rain tomorrow?"
           None None Coordinator.new_memory) = Returned r /\
    od_lookup "confidence" r = Some (VNum 0.5) /\
    ~ num_between 0.1 0.2 (VNum 0.5).
Proof.
  eexists. eexists. eexists.
  split; [vm_compute; reflexivity |]. cbn [Coordinator.outcome].
  split; [discriminate |].
  split; [repeat constructor |].
  split; [vm_compute; reflexivity |].
  split; [reflexivity |].
  split; [vm_compute; reflexivity |].
  split; [reflexivity | apply half_out_of_range].
Qed.

(** ** Exactly one agent succeeded *)

(** C4 (as the code has it).  In the backend service the response of the
    selected agent is passed through: its confidence (0.8 when it gives
    none), sources and suggestions are copied as they are and so is its
    answer, translated back only for a non-English request.  In the
    coordinator the answer comes from the generation step; when that step
    fails and exactly one response is a Success, the answer, sources and
    recommendations of that Success are passed through and the confidence
    is the fixed 0.5, whatever the agent's own. *)
Theorem single_success_response :
  (forall svc query user_id location context li pq loc agent_type
          context_data a response answer final,
     Backend.reaches_agent svc query location li pq loc agent_type
       context_data a ->
     a pq loc context_data (default [] context) = Returned response ->
     od_lookup "answer" response = Some answer ->
     (if negb (String.eqb (Backend.language_of li) "en")
      then bind (Backend.translate svc answer "en" (Backend.language_of li))
                (fun s => Returned (VStr s))
      else Returned answer) = Returned final ->
     exists r,
       Backend.process_query svc query user_id location context = Returned r /\
       od_lookup "answer" r = Some final /\
       od_lookup "confidence_score" r
         = Some (dict_get response "confidence" (VNum 0.8)) /\
       od_lookup "sources" r = Some (dict_get response "sources" (VList [])) /\
       od_lookup "suggestions" r
         = Some (dict_get response "suggestions" (VList [])))
  /\
  (forall svc query agent_responses analysis context e d,
     Coordinator.only_success d agent_responses ->
     Coordinator.generate_synthesis svc query agent_responses analysis context
       = Raised e ->
     exists r,
       Coordinator._synthesize_responses svc query agent_responses analysis
         context = Returned r /\
       od_lookup "answer" r
         = Some (dict_get d "answer" (VStr Coordinator.difficulty_answer)) /\
       od_lookup "sources" r = Some (dict_get d "sources" (VList [])) /\
       od_lookup "key_recommendations" r
         = Some (dict_get d "recommendations" (VList [])) /\
       od_lookup "confidence" r = Some (VNum 0.5)).
Proof.
  split.
  - intros svc query user_id location context li pq loc agent_type
      context_data a response answer final Hreach Hret Hanswer Hfinal.
    destruct (BackendFacts.process_query_agent_success
                svc query user_id location context li pq loc agent_type
                context_data a response answer final Hreach Hret Hanswer Hfinal)
      as (r & Hr & Ha & Hc & Hs & Hg & _).
    exists r. repeat split; assumption.
  - intros svc query agent_responses analysis context e d Hone Hgen.
    exists (Coordinator.synthesis_fallback agent_responses). split.
    + unfold Coordinator._synthesize_responses. now rewrite Hgen.
    + unfold Coordinator.synthesis_fallback.
      rewrite (CoordinatorFacts.best_of_only_success _ _ Hone).
      repeat split.
Qed.

Lemma single_success_response_witness :
  (exists r,
     Backend.process_query
       (Scenario.backend (Scenario.detects "en") Scenario.translation_down
          Scenario.four_agents)
       "What is the weather in Pune tomorrow?" VNone None None = Returned r /\
     od_lookup "confidence_score" r = Some (VNum 0.9))
  /\
  (exists r,
     Coordinator._synthesize_responses Scenario.all_answer
       "Will it rain tomorrow?" [("weather_agent", Scenario.success "Sunny" 0.9)]
       Scenario.weather_only None = Returned r /\
     od_lookup "answer" r = Some (VStr "Sunny") /\
     od_lookup "confidence" r = Some (VNum 0.5)).
Proof.
  split.
  - destruct (proj1 single_success_response
                (Scenario.backend (Scenario.detects "en")
                   Scenario.translation_down Scenario.four_agents)
                "What is the weather in Pune tomorrow?" VNone None None
                {| Backend.li_language := Some "en";
                   Backend.li_confidence := Some 0.99%Q |}
                "What is the weather in Pune tomorrow?" None "weather" []
                (WeatherAgent.process_query Scenario.weather_service)
                Scenario.sunny_response
                (VStr "Sunny") (VStr "Sunny"))
      as (r & Hr & _ & Hc & _).
    + repeat split; reflexivity.
    + reflexivity.
    + reflexivity.
    + reflexivity.
    + exists r. split; [exact Hr | exact Hc].
  - destruct (proj2 single_success_response Scenario.all_answer
                "Will it rain tomorrow?"
                [("weather_agent", Scenario.success "Sunny" 0.9)]
                Scenario.weather_only None (Error "model unavailable")
                (Scenario.success "Sunny" 0.9))
      as (r & Hr & Ha & _ & _ & Hc).
    + split; [now left |]. split; [reflexivity |].
      intros d' [<- | []] _. reflexivity.
    + reflexivity.
    + exists r. repeat split; assumption.
Defined.

(** C4, the claim on a concrete request to the coordinator.  One agent is
    selected and succeeds with confidence 0.9; the language model is down;
    the synthesized response, like the response of the whole pipeline,
    carries confidence 0.5. *)
Lemma single_success_confidence_replaced :
  exists routed synthesized r,
    Coordinator._route_to_agents Scenario.all_answer "Which crop should I sow?"
      (VDict (Coordinator.default_analysis "Which crop should I sow?")) None
      = Returned routed /\
    Coordinator.only_success (Scenario.success "Sow wheat" 0.9)
      (Coordinator.outcome routed) /\
    od_lookup "confidence" (Scenario.success "Sow wheat" 0.9) = Some (VNum 0.9) /\
    Coordinator._synthesize_responses Scenario.all_answer
      "Which crop should I sow?" (Coordinator.outcome routed)
      (VDict (Coordinator.default_analysis "Which crop should I sow?")) None
      = Returned synthesized /\
    od_lookup "confidence" synthesized = Some (VNum 0.5) /\
    fst (Coordinator.process_query Scenario.all_answer "Which crop should I sow?"
           None None Coordinator.new_memory) = Returned r /\
    od_lookup "confidence" r = Some (VNum 0.5) /\
    ~ (0.5 == 0.9)%Q.
Proof.
  eexists. eexists. eexists.
  split; [vm_compute; reflexivity |]. cbn [Coordinator.outcome].
  split.
  { split; [now left |]. split; [reflexivity |].
    intros d' [<- | []] _. reflexivity. }
  split; [reflexivity |].
  split; [vm_compute; reflexivity |].
  split; [reflexivity |].
  split; [vm_compute; reflexivity |].
  split; [reflexivity |].
  unfold Qeq. cbn. lia.
Qed.

(** ** Translation failure *)




End PipelineFacts.

(* ===================================================================== *)
(** * Properties of the session routes *)
(* ===================================================================== *)

Module QueryHandlerFacts.
Import QueryHandler.

Ltac run_clear :=
  unfold clear_session, st_try_except, st_bind, st_modify, on_coordinator,
    Coordinator.clear_memory, st_ret; cbn.

(** [get_session_id] returns the id of an active session: the one it was
    given, or a new one it has just opened with no queries. *)
Lemma get_session_id_spec svc sid_opt st :
  exists sid st1,
    get_session_id svc sid_opt st = (Returned sid, st1) /\
    is_active sid st1 = true /\
    coordinator st1 = coordinator st /\
    (st1 = st \/
     (sid = uuid4 svc /\
      active_sessions st1 =
        <[ sid := {| created_at := now svc; queries := []; context := [] |} ]>
          (active_sessions st))).
Proof.
  unfold get_session_id, open_session.
  destruct sid_opt as [sid |]; cbn.
  - destruct (negb (String.eqb sid "") && is_active sid st) eqn:Hk.
    + exists sid, st. apply andb_true_iff in Hk as [_ Hk]. auto.
    + eexists _, _. split; [reflexivity |]. cbn. split.
      * unfold is_active. cbn. apply bool_decide_eq_true.
        rewrite lookup_insert_eq. eauto.
      * auto.
  - eexists _, _. split; [reflexivity |]. cbn. split.
    + unfold is_active. cbn. apply bool_decide_eq_true.
      rewrite lookup_insert_eq. eauto.
    + auto.
Qed.

Lemma session_queries_append sid entry st prior :
  session_queries sid st = Some prior ->
  session_queries sid (append_query sid entry st) = Some (prior ++ [entry])%list.
Proof.
  unfold session_queries, append_query. cbn. intros H.
  rewrite lookup_alter_eq.
  destruct (active_sessions st !! sid) as [s |]; cbn in *; [| discriminate].
  now injection H as <-.
Qed.

Lemma session_queries_append_other sid other entry st :
  other <> sid ->
  session_queries other (append_query sid entry st) = session_queries other st.
Proof.
  unfold session_queries, append_query. cbn. intros H.
  now rewrite lookup_alter_ne.
Qed.

(** A served query is appended to its session; nothing is removed from
    that session or from any other. *)
Lemma served_query_is_appended svc request st response st' :
  process_query svc request st = (Returned response, st') ->
  exists sid st1 prior entry,
    get_session_id svc (session_id request) st = (Returned sid, st1) /\
    session_queries sid st1 = Some prior /\
    session_queries sid st' = Some (prior ++ [entry])%list /\
    forall other, other <> sid ->
      session_queries other st' = session_queries other st1.
Proof.
  intros H. unfold process_query, st_try_except in H.
  destruct (process_query_body svc request st) as [[r | e] s'] eqn:Hbody;
    [| destruct e; discriminate].
  injection H as -> ->.
  unfold process_query_body, st_bind, st_lift, st_ret, st_get, st_modify in Hbody.
  destruct (clean_text svc (query request)) as [q | e]; [| discriminate].
  destruct (str_is_blank q); [discriminate |].
  destruct (get_session_id_spec svc (session_id request) st)
    as (sid & st1 & Hsid & Hactive & Hcoord & _).
  rewrite Hsid in Hbody.
  unfold on_coordinator in Hbody.
  destruct (Coordinator.process_query _ _ _ _ _) as [[resp | e] m];
    [| discriminate].
  unfold is_active in *. cbn [active_sessions] in Hbody.
  rewrite Hactive in Hbody.
  destruct (dict_item resp "answer") as [a | e]; [| discriminate].
  injection Hbody as <- <-.
  apply bool_decide_eq_true in Hactive as [s Hs].
  exists sid, st1, (queries s), (query_entry svc q a).
  split; [exact Hsid |].
  split; [unfold session_queries; now rewrite Hs |].
  split.
  - apply session_queries_append. unfold session_queries. cbn. now rewrite Hs.
  - intros other Hne. now rewrite session_queries_append_other.
Qed.

Lemma buffer_length m : length (Coordinator.buffer m) <= 2 * Coordinator.k m.
Proof.
  unfold Coordinator.buffer. destruct (0 <? Coordinator.k m)%nat; cbn; [| lia].
  rewrite length_drop. lia.
Qed.

(** C7 (as the code has it).  Appending never evicts.  A query served in a
    session adds one entry at the end of that session's [queries] and
    removes none, there or in another session, so the list has no bound.
    The coordinator keeps one memory for all sessions; saving an exchange
    appends its two messages and removes none; its [k], 5, only bounds the
    window that [buffer] returns, at most [2 * k] messages. *)
Theorem stores_grow_without_eviction :
  (forall svc request st response st',
     process_query svc request st = (Returned response, st') ->
     exists sid st1 prior entry,
       get_session_id svc (session_id request) st = (Returned sid, st1) /\
       session_queries sid st1 = Some prior /\
       session_queries sid st' = Some (prior ++ [entry])%list /\
       length (prior ++ [entry])%list = S (length prior) /\
       forall other, other <> sid ->
         session_queries other st' = session_queries other st1)
  /\
  (forall input output m,
     Coordinator.chat_memory (Coordinator.save_context input output m)
       = (Coordinator.chat_memory m
          ++ [Coordinator.HumanMessage input; Coordinator.AIMessage output])%list /\
     Coordinator.k (Coordinator.save_context input output m) = Coordinator.k m)
  /\
  Coordinator.k Coordinator.new_memory = 5 /\
  (forall m, length (Coordinator.buffer m) <= 2 * Coordinator.k m).
Proof.
  split; [| split; [| split]].
  - intros svc request st response st' H.
    destruct (served_query_is_appended _ _ _ _ _ H)
      as (sid & st1 & prior & entry & Hsid & Hprior & Hafter & Hother).
    exists sid, st1, prior, entry.
    split; [exact Hsid |]. split; [exact Hprior |]. split; [exact Hafter |].
    split; [rewrite length_app; cbn; lia | exact Hother].
  - intros input output m. split; reflexivity.
  - reflexivity.
  - apply buffer_length.
Qed.

Lemma stores_grow_without_eviction_witness :
  exists entry,
    session_queries "s1"
      (snd (process_query (Scenario.handler "s1") (Scenario.request "q1" None)
              initial_state))
    = Some [entry].
Proof.
  destruct (process_query (Scenario.handler "s1") (Scenario.request "q1" None)
              initial_state) as [[response | e] st'] eqn:H.
  - destruct (proj1 stores_grow_without_eviction _ _ _ _ _ H)
      as (sid & st1 & prior & entry & Hsid & Hprior & Hafter & _).
    vm_compute in Hsid. injection Hsid as <- <-.
    vm_compute in Hprior. injection Hprior as <-.
    exists entry. exact Hafter.
  - vm_compute in H. discriminate.
Defined.

(** C7, the claim on a concrete session.  Six questions are asked in one
    session: the session holds six entries, the first question still among
    them, and the coordinator's memory holds all twelve messages. *)
Lemma sixth_exchange_evicts_nothing :
  exists qs oldest,
    session_queries "s1" Scenario.after_six_questions = Some qs /\
    length qs = 6 /\ ~ length qs <= 5 /\
    head qs = Some oldest /\ od_lookup "query" oldest = Some (VStr "q1") /\
    length (Coordinator.chat_memory (coordinator Scenario.after_six_questions))
      = 12.
Proof.
  eexists. eexists.
  split; [vm_compute; reflexivity |].
  split; [reflexivity |]. split; [cbn; lia |].
  split; [reflexivity |]. split; [reflexivity |].
  vm_compute. reflexivity.
Qed.

(** ** Clearing a session *)

Lemma clear_session_returns sid st :
  fst (clear_session sid st)
    = Returned [ ("message", VStr "Session cleared successfully") ].
Proof. run_clear. reflexivity. Qed.

(** The cleared session is gone from [active_sessions] ... *)
Lemma clear_session_removes sid st :
  session_queries sid (snd (clear_session sid st)) = None.
Proof.
  run_clear. unfold session_queries.
  destruct (is_active sid st) eqn:Ha; cbn.
  - now rewrite lookup_delete_eq.
  - unfold is_active in Ha. apply bool_decide_eq_false in Ha.
    destruct (active_sessions st !! sid) eqn:E; [| reflexivity].
    exfalso. apply Ha. eauto.
Qed.

(** ... the entries of the other sessions are left as they were ... *)
Lemma clear_session_frame sid other st :
  other <> sid ->
  active_sessions (snd (clear_session sid st)) !! other
    = active_sessions st !! other.
Proof.
  intros Hne. run_clear.
  destruct (is_active sid st); cbn; [| reflexivity].
  now rewrite lookup_delete_ne.
Qed.

(** ... and the coordinator's memory, which all sessions share, is
    emptied. *)
Lemma clear_session_clears_memory sid st :
  Coordinator.chat_memory (coordinator (snd (clear_session sid st))) = [].
Proof. run_clear. now destruct (is_active sid st). Qed.

(** C9, on two sessions with one exchange each.  Clearing session [s1]
    removes [s1] from [active_sessions] and leaves the entry of [s2] as it
    was, but it also empties the coordinator's memory, and with it the
    exchange of [s2] that the memory held. *)
Theorem clear_session_empties_shared_memory :
  In (Coordinator.HumanMessage (VStr "rain in Pune?"))
     (Coordinator.chat_memory (coordinator Scenario.two_sessions)) /\
  session_queries "s1" (snd (clear_session "s1" Scenario.two_sessions)) = None /\
  session_queries "s2" (snd (clear_session "s1" Scenario.two_sessions))
    = session_queries "s2" Scenario.two_sessions /\
  Coordinator.chat_memory
    (coordinator (snd (clear_session "s1" Scenario.two_sessions))) = [] /\
  ~ In (Coordinator.HumanMessage (VStr "rain in Pune?"))
       (Coordinator.chat_memory
          (coordinator (snd (clear_session "s1" Scenario.two_sessions)))).
Proof.
  split; [vm_compute; tauto |].
  split; [apply clear_session_removes |].
  split; [unfold session_queries; now rewrite clear_session_frame |].
  rewrite clear_session_clears_memory. split; [reflexivity | intros []].
Qed.

(** ** The other session routes *)

(** X8. [get_session_id] always returns the id of a session that is
    active afterwards, and touches no other session nor the coordinator.
    It reuses the id it was given only when that id is already active, and
    then changes nothing; in every other case, an unknown id from the
    client included, the id is the fresh [uuid4] and its session starts
    with no queries. *)
Theorem get_session_id_opens_or_reuses svc sid_opt st :
  exists sid st1,
    get_session_id svc sid_opt st = (Returned sid, st1) /\
    is_active sid st1 = true /\
    coordinator st1 = coordinator st /\
    (forall other, other <> sid ->
       active_sessions st1 !! other = active_sessions st !! other) /\
    ((sid_opt = Some sid /\ is_active sid st = true /\ st1 = st)
     \/ (sid = uuid4 svc /\ session_queries sid st1 = Some [])).
Proof.
  unfold get_session_id, open_session.
  destruct sid_opt as [sid |]; cbn.
  - destruct (negb (String.eqb sid "") && is_active sid st) eqn:Hk.
    + exists sid, st. apply andb_true_iff in Hk as [_ Hk].
      repeat split; auto.
    + eexists _, _. split; [reflexivity |]. cbn. split.
      { unfold is_active. cbn. apply bool_decide_eq_true.
        rewrite lookup_insert_eq. eauto. }
      split; [reflexivity |]. split.
      { intros other Hne. now rewrite lookup_insert_ne. }
      right. split; [reflexivity |]. unfold session_queries. cbn.
      now rewrite lookup_insert_eq.
  - eexists _, _. split; [reflexivity |]. cbn. split.
    { unfold is_active. cbn. apply bool_decide_eq_true.
      rewrite lookup_insert_eq. eauto. }
    split; [reflexivity |]. split.
    { intros other Hne. now rewrite lookup_insert_ne. }
    right. split; [reflexivity |]. unfold session_queries. cbn.
    now rewrite lookup_insert_eq.
Qed.

(** X9. The history route never answers 404.  For an active session it
    returns the session's queries, oldest first; for an unknown session the
    404 it raises inside its [try] block is caught by its own
    [except Exception] clause and leaves as a 500.  Either way the state is
    left as it was. *)
Theorem session_history_is_served_or_500 sid st :
  (exists s r,
     active_sessions st !! sid = Some s /\
     get_session_history sid st = (Returned r, st) /\
     od_lookup "session_id" r = Some (VStr sid) /\
     od_lookup "queries" r = Some (VList (map VDict (queries s))))
  \/
  (active_sessions st !! sid = None /\
   exists detail,
     get_session_history sid st = (Raised (HTTPException 500 detail), st)).
Proof.
  unfold get_session_history, st_try_except, st_bind, st_get.
  destruct (active_sessions st !! sid) as [s |] eqn:Hs; cbn.
  - left. exists s. eexists. split; [reflexivity |].
    split; [reflexivity |]. split; reflexivity.
  - right. split; [reflexivity |]. eauto.
Qed.

(** X10. A query whose cleaned text is blank, that is, made of white space
    only ([not query.strip()], for the white space of Python: the ASCII
    one, U+001C to U+001F, U+0085, U+00A0 and the Unicode spaces), is
    rejected with status 400 before anything else happens: no session is
    opened and the coordinator is not called, so the state is left as it
    was. *)
Theorem blank_query_is_rejected_before_any_session svc request st q :
  clean_text svc (query request) = Returned q ->
  str_is_blank q = true ->
  process_query svc request st
    = (Raised (HTTPException 400 "Query cannot be empty"), st).
Proof.
  intros Hclean Hblank.
  unfold process_query, st_try_except, process_query_body, st_bind, st_lift.
  rewrite Hclean, Hblank. reflexivity.
Qed.

(** The query of the witness is a space, a no-break space (U+00A0) and an
    ideographic space (U+3000). *)
Lemma blank_query_is_rejected_before_any_session_witness :
  process_query (Scenario.handler "s1") (Scenario.request "  　" None)
    initial_state
  = (Raised (HTTPException 400 "Query cannot be empty"), initial_state).
Proof.
  apply (blank_query_is_rejected_before_any_session (Scenario.handler "s1")
           (Scenario.request "  　" None) initial_state "  　");
    reflexivity.
Defined.

(** X11. The voice route answers an upload that is not audio with status
    500, not 400: the 400 it raises inside its [try] block is caught by its
    own [except Exception] clause.  The state is left as it was. *)
Theorem invalid_audio_is_answered_with_500
    svc audio_file language location session_id st t :
  content_type audio_file = Some t ->
  String.prefix "audio/" t = false ->
  exists detail,
    process_voice_query svc audio_file language location session_id st
      = (Raised (HTTPException 500 detail), st).
Proof.
  intros Ht Hprefix. unfold process_voice_query, st_try_except, st_bind, st_lift.
  rewrite Ht, Hprefix. cbn. eauto.
Qed.

Lemma invalid_audio_is_answered_with_500_witness :
  exists detail,
    process_voice_query (Scenario.handler "s1") Scenario.text_upload "hi"
      None None initial_state
    = (Raised (HTTPException 500 detail), initial_state).
Proof.
  apply (invalid_audio_is_answered_with_500 (Scenario.handler "s1")
           Scenario.text_upload "hi" None None initial_state "text/plain");
    reflexivity.
Defined.

(** [clear_session] in closed form. *)
Lemma clear_session_result sid st :
  clear_session sid st
    = (Returned [ ("message", VStr "Session cleared successfully") ],
       {| active_sessions :=
            if is_active sid st then delete sid (active_sessions st)
            else active_sessions st;
          coordinator := Coordinator.memory_clear (coordinator st) |}).
Proof.
  unfold clear_session, st_try_except, st_bind, st_modify, on_coordinator,
    Coordinator.clear_memory, st_ret.
  destruct (is_active sid st); reflexivity.
Qed.

(** X12. [clear_session] reports success for every session id, one that
    was never active included, and clearing twice is clearing once: the
    second call returns the same message and leaves the state of the
    first. *)
Theorem clear_session_is_idempotent sid st :
  fst (clear_session sid st)
    = Returned [ ("message", VStr "Session cleared successfully") ] /\
  clear_session sid (snd (clear_session sid st)) = clear_session sid st.
Proof.
  rewrite !clear_session_result. cbn [fst snd]. split; [reflexivity |].
  cbn [coordinator active_sessions].
  assert (is_active sid
            {| active_sessions :=
                 if is_active sid st then delete sid (active_sessions st)
                 else active_sessions st;
               coordinator := Coordinator.memory_clear (coordinator st) |}
          = false) as ->.
  { destruct (is_active sid st) eqn:Ha; unfold is_active in *; cbn.
    - apply bool_decide_eq_false. rewrite lookup_delete_eq.
      intros [x Hx]. discriminate.
    - exact Ha. }
  reflexivity.
Qed.

(** X13. The suggestions route shows the model the last three exchanges
    of the session and changes no state.  With [history] the queries of
    the session the request names (none for an unknown or absent session),
    the text of the prompt is what [json.dumps] makes of [recent], the
    last [min 3 (length history)] entries of [history], and of the
    session's context ("None" for an empty one).  The route answers with
    what the completion on that prompt parses to or else, the completion
    or its parsing failing, with the three fixed questions of the
    coordinator; an object that [json.dumps] cannot serialise is answered
    with status 500, the prompt being built outside the [try] block of the
    coordinator. *)
Theorem follow_up_suggestions_show_the_last_three
    svc json_dumps complete session_id st :
  let session_data :=
    match session_id with
    | Some sid =>
        if negb (String.eqb sid "") then active_sessions st !! sid else None
    | None => None
    end in
  let history := match session_data with Some s => queries s | None => [] end in
  let user_context := match session_data with Some s => context s | None => [] end in
  exists older recent,
    history = (older ++ recent)%list /\
    length recent = Nat.min 3 (length history) /\
    get_follow_up_suggestions svc json_dumps complete session_id st
    = (match json_dumps (VList (map VDict recent)) with
       | Raised e => Raised (HTTPException 500 (str_of_exception e))
       | Returned history_text =>
           match (match user_context with
                  | [] => Returned "None"
                  | _ :: _ => json_dumps (VDict user_context)
                  end) with
           | Raised e => Raised (HTTPException 500 (str_of_exception e))
           | Returned context_text =>
               Returned
                 [ ("suggestions",
                     match bind (complete
                                   {| Coordinator.history_text := history_text;
                                      Coordinator.context_text := context_text |})
                                (Coordinator.json_loads (coordinator_services svc))
                     with
                     | Returned suggestions => suggestions
                     | Raised _ => Coordinator.default_suggestions
                     end) ]
           end
       end, st).
Proof.
  intros session_data history user_context.
  exists (take (length history - 3) history),
         (drop (length history - 3) history).
  split; [symmetry; apply take_drop |].
  split; [rewrite length_drop; lia |].
  unfold get_follow_up_suggestions, st_try_except, st_bind, st_get, st_lift,
    st_ret, Coordinator.get_follow_up_suggestions.
  fold session_data. fold history. fold user_context.
  destruct (json_dumps (VList (map VDict (drop (length history - 3) history))))
    as [history_text | e]; cbn [bind]; [| reflexivity].
  destruct user_context as [| item rest]; cbn [bind].
  - destruct (complete _) as [response | e]; cbn [bind try_except];
      [| reflexivity].
    destruct (Coordinator.json_loads (coordinator_services svc) response);
      reflexivity.
  - destruct (json_dumps (VDict (item :: rest))) as [context_text | e];
      cbn [bind]; [| reflexivity].
    destruct (complete _) as [response | e]; cbn [bind try_except];
      [| reflexivity].
    destruct (Coordinator.json_loads (coordinator_services svc) response);
      reflexivity.
Qed.

(** After six questions in the session [s1], the model is shown the
    fourth, the fifth and the sixth. *)
Example suggestions_after_six_questions :
  get_follow_up_suggestions Scenario.suggesting Scenario.dumps_queries
    Scenario.echo_history (Some "s1") Scenario.after_six_questions
  = (Returned [ ("suggestions", VList [VStr "q4,q5,q6"]) ],
     Scenario.after_six_questions).
Proof. vm_compute. reflexivity. Qed.

End QueryHandlerFacts.

(* ===================================================================== *)
(** * Properties of the weather agent *)
(* ===================================================================== *)

Module WeatherAgentFacts.
Import WeatherAgent.

(** [process_query] returns: the regular response, built on what the
    generator returned, or the Failure of the [except] clause. *)
Lemma weather_process_query_cases
    (svc : services) (query : string) (location : option string)
    (context : list string) (user_context : dict) :
  (exists answer sources confidence suggestions weather_data,
     process_query svc query location context user_context
       = Returned [ ("answer", answer); ("sources", sources);
                    ("confidence", confidence); ("suggestions", suggestions);
                    ("weather_data", weather_data) ])
  \/
  (exists e,
     process_query svc query location context user_context
       = Returned (failure_response e)).
Proof.
  unfold process_query, try_except.
  destruct (process_query_body svc query location context) as [r | e] eqn:Hbody;
    [left | right; now exists e].
  unfold process_query_body in Hbody.
  destruct (_get_weather_data svc _ location) as [wd | e]; cbn [bind] in Hbody;
    [| discriminate].
  destruct (_generate_weather_response svc query _ wd location context)
    as [resp | e]; cbn [bind] in Hbody; [| discriminate].
  destruct (dict_item resp "answer") as [a | e]; cbn [bind] in Hbody;
    [| discriminate].
  destruct (dict_item resp "sources") as [s | e]; cbn [bind] in Hbody;
    [| discriminate].
  destruct (dict_item resp "confidence") as [c | e]; cbn [bind] in Hbody;
    [| discriminate].
  injection Hbody as <-. now eexists a, s, c, _, _.
Qed.

(** X14. [WeatherAgent.process_query] never raises, whatever the weather
    service and the generators do, and every response it returns holds the
    keys [answer], [sources] and [confidence]: step 6 of the backend
    pipeline, which reads [response['answer']], cannot fail on the
    weather agent.  The response has one of two shapes, the regular one
    and the one of the [except] clause, which alone carries [error]. *)
Theorem weather_agent_always_answers
    (svc : services) (query : string) (location : option string)
    (context : list string) (user_context : dict) :
  exists r answer sources confidence,
    process_query svc query location context user_context = Returned r /\
    od_lookup "answer" r = Some answer /\
    od_lookup "sources" r = Some sources /\
    od_lookup "confidence" r = Some confidence /\
    ((od_keys r = ["answer"; "sources"; "confidence"; "suggestions";
                   "weather_data"]
      /\ Coordinator.is_failure r = false)
     \/ (od_keys r = ["answer"; "sources"; "confidence"; "error"]
         /\ Coordinator.is_failure r = true)).
Proof.
  destruct (weather_process_query_cases svc query location context user_context)
    as [(a & s & c & g & w & Hr) | (e & Hr)]; rewrite Hr.
  - eexists _, a, s, c. repeat split. left. split; reflexivity.
  - eexists _, _, _, _. repeat split. right. split; reflexivity.
Qed.

(** With the weather service down, no weather data is obtained, and no
    exception either. *)
Lemma weather_data_of_outage (svc : services) (query_type : string)
    (location : option string) :
  (forall l, exists e, get_current_weather svc l = Raised e) ->
  (forall l days, exists e, get_forecast svc l days = Raised e) ->
  (forall l, exists e, get_historical_data svc l = Raised e) ->
  _get_weather_data svc query_type location = Returned [].
Proof.
  intros Hc Hf Hh. unfold _get_weather_data.
  destruct (Hc location) as (e1 & ->).
  destruct (Hf location 7) as (e2 & ->).
  destruct (Hh location) as (e3 & ->).
  repeat (destruct (String.eqb query_type _)); reflexivity.
Qed.

(** X15. An outage of the weather service is not reported as an error.
    When every call of the service raises, [_get_weather_data] swallows
    the exception, and [process_query] returns, for every query, the
    regular response "I couldn't retrieve weather data for ..." with
    confidence 0.1, no sources and no [error] key; no generator is
    consulted. *)
Theorem weather_outage_is_answered_without_error
    (svc : services) (query : string) (location : option string)
    (context : list string) (user_context : dict) :
  (forall l, exists e, get_current_weather svc l = Raised e) ->
  (forall l days, exists e, get_forecast svc l days = Raised e) ->
  (forall l, exists e, get_historical_data svc l = Raised e) ->
  process_query svc query location context user_context
    = Returned
        [ ("answer",
            VStr ("I couldn't retrieve weather data for "
                  +:+ format_location location
                  +:+ ". Please check the location name or try again later."));
          ("sources", VList []);
          ("confidence", VNum 0.1);
          ("suggestions", VList []);
          ("weather_data", VDict []) ].
Proof.
  intros Hc Hf Hh. unfold process_query, process_query_body.
  rewrite (weather_data_of_outage svc _ location Hc Hf Hh). reflexivity.
Qed.

Lemma weather_outage_is_answered_without_error_witness :
  process_query Scenario.weather_outage "Will it rain tomorrow?" (Some "Pune")
    [] []
  = Returned
      [ ("answer",
          VStr ("I couldn't retrieve weather data for "
                +:+ format_location (Some "Pune")
                +:+ ". Please check the location name or try again later."));
        ("sources", VList []);
        ("confidence", VNum 0.1);
        ("suggestions", VList []);
        ("weather_data", VDict []) ].
Proof.
  apply (weather_outage_is_answered_without_error Scenario.weather_outage
           "Will it rain tomorrow?" (Some "Pune") [] []).
  - intros l. eexists. reflexivity.
  - intros l days. eexists. reflexivity.
  - intros l. eexists. reflexivity.
Defined.

(** X16. For a query about irrigation, timing or alerts and for a general
    one, the agent asks for the current weather and for the forecast, and
    keeps all or nothing: when the forecast call raises, the current
    weather already obtained is discarded with it, and the query is
    answered like an outage, with confidence 0.1 and no weather data. *)
Theorem forecast_failure_discards_current_weather
    (svc : services) (query : string) (location : option string)
    (context : list string) (user_context : dict) (current : dict)
    (e : exception) :
  In (_classify_weather_query query)
     ["irrigation"; "agricultural_timing"; "alerts"; "general"] ->
  get_current_weather svc location = Returned current ->
  get_forecast svc location 5 = Raised e ->
  _get_weather_data svc (_classify_weather_query query) location = Returned [] /\
  exists r,
    process_query svc query location context user_context = Returned r /\
    od_lookup "confidence" r = Some (VNum 0.1) /\
    od_lookup "weather_data" r = Some (VDict []).
Proof.
  intros Hin Hcur Hfc.
  assert (_get_weather_data svc (_classify_weather_query query) location
            = Returned []) as Hdata.
  { unfold _get_weather_data. rewrite Hcur, Hfc.
    cbn in Hin. destruct Hin as [<- | [<- | [<- | [<- | []]]]]; reflexivity. }
  split; [exact Hdata |].
  unfold process_query, process_query_body. rewrite Hdata.
  eexists. split; [reflexivity |]. split; reflexivity.
Qed.

Lemma forecast_failure_discards_current_weather_witness :
  _get_weather_data Scenario.forecast_down
    (_classify_weather_query "When should I irrigate my field?") (Some "Pune")
  = Returned [].
Proof.
  destruct (forecast_failure_discards_current_weather Scenario.forecast_down
              "When should I irrigate my field?" (Some "Pune") [] []
              [ ("temperature", VNum 28); ("condition", VStr "Clear") ]
              (Error "forecast API timeout"))
    as [Hdata _].
  - vm_compute. tauto.
  - reflexivity.
  - reflexivity.
  - exact Hdata.
Defined.

(** X17. On weather data that is not empty, the generator that answers is
    the one named after the type of the query, except for a historical
    query: [response_generators] has no entry for it, and the general
    generator answers on the historical data. *)
Theorem generator_follows_query_type_except_historical
    (svc : services) (query : string) (weather_data : dict)
    (location : option string) (context : list string) :
  weather_data <> [] ->
  _generate_weather_response svc query (_classify_weather_query query)
    weather_data location context
  = generate svc
      (if String.eqb (_classify_weather_query query) "historical"
       then "general" else _classify_weather_query query)
      query weather_data location context.
Proof.
  intros Hne. unfold _generate_weather_response.
  destruct weather_data as [| item rest]; [congruence |].
  unfold _classify_weather_query.
  repeat (destruct (any_word_in _ _)); reflexivity.
Qed.

Lemma generator_follows_query_type_except_historical_witness :
  _generate_weather_response Scenario.weather_service
    "How much rain fell last month?"
    (_classify_weather_query "How much rain fell last month?")
    [ ("rainfall", VNum 12) ] (Some "Pune") []
  = generate Scenario.weather_service
      (if String.eqb (_classify_weather_query "How much rain fell last month?")
                     "historical"
       then "general"
       else _classify_weather_query "How much rain fell last month?")
      "How much rain fell last month?" [ ("rainfall", VNum 12) ] (Some "Pune") [].
Proof.
  apply (generator_follows_query_type_except_historical Scenario.weather_service
           "How much rain fell last month?" [ ("rainfall", VNum 12) ]
           (Some "Pune") []).
  discriminate.
Defined.

(** X18. Missing data reads as fair weather.  When the weather service
    returns empty data for the current weather and for the forecast, a
    query about alerts is not answered like an outage: the two empty
    dictionaries make a non-empty [weather_data], the alerts generator
    finds nothing to compare, and the response says that there are no
    severe weather alerts, with confidence 0.8. *)
Theorem no_weather_data_reads_as_no_alerts
    (svc : services) (day_label : nat -> string) (query : string)
    (location : option string) (context : list string) (user_context : dict) :
  _classify_weather_query query = "alerts" ->
  get_current_weather svc location = Returned [] ->
  get_forecast svc location 5 = Returned [] ->
  generate svc "alerts" = _generate_alerts_response day_label ->
  process_query svc query location context user_context
    = Returned
        [ ("answer", VStr (no_alerts_answer location));
          ("sources", VList [VStr "Weather Monitoring System"; VStr "IMD Alerts"]);
          ("confidence", VNum 0.8);
          ("suggestions",
            VList [VStr "Set up weather notifications";
                   VStr "Get crop protection tips";
                   VStr "View insurance information"]);
          ("weather_data",
            VDict [ ("current", VDict []); ("forecast", VDict []) ]) ].
Proof.
  intros Hclass Hcur Hfc Hgen.
  unfold process_query, process_query_body. rewrite Hclass.
  unfold _get_weather_data. cbn [String.eqb Ascii.eqb Bool.eqb].
  rewrite Hcur, Hfc. cbn [bind try_except].
  unfold _generate_weather_response. cbn [existsb response_generators].
  cbn [String.eqb Ascii.eqb Bool.eqb orb]. rewrite Hgen. reflexivity.
Qed.

Lemma no_weather_data_reads_as_no_alerts_witness :
  process_query Scenario.no_data_weather_service
    "Any storm warning for my village?" (Some "Pune") [] []
  = Returned
      [ ("answer", VStr (no_alerts_answer (Some "Pune")));
        ("sources", VList [VStr "Weather Monitoring System"; VStr "IMD Alerts"]);
        ("confidence", VNum 0.8);
        ("suggestions",
          VList [VStr "Set up weather notifications";
                 VStr "Get crop protection tips";
                 VStr "View insurance information"]);
        ("weather_data",
          VDict [ ("current", VDict []); ("forecast", VDict []) ]) ].
Proof.
  apply (no_weather_data_reads_as_no_alerts Scenario.no_data_weather_service
           Scenario.day_label "Any storm warning for my village?"
           (Some "Pune") [] []);
    reflexivity.
Defined.

Lemma dict_get_od_set_same {V : Type} (key : string) (v default : V)
    (d : odict V) :
  dict_get (od_set key v d) key default = v.
Proof.
  unfold dict_get. induction d as [| [k w] d IH]; cbn.
  - now rewrite String.eqb_refl.
  - destruct (String.eqb k key) eqn:E; cbn; rewrite E; [reflexivity | exact IH].
Qed.

Lemma dict_get_od_set_other {V : Type} (key other : string) (v default : V)
    (d : odict V) :
  key <> other ->
  dict_get (od_set key v d) other default = dict_get d other default.
Proof.
  intros Hne. unfold dict_get. induction d as [| [k w] d IH]; cbn.
  - destruct (String.eqb_spec key other); [contradiction | reflexivity].
  - destruct (String.eqb_spec k key) as [-> | Hk]; cbn.
    + destruct (String.eqb_spec key other); [contradiction | reflexivity].
    + destruct (String.eqb k other); [reflexivity | exact IH].
Qed.

(** X19. The alerts look three days ahead and no further: cutting the
    daily forecast after its third day changes nothing in the response,
    whatever the later days announce. *)
Theorem alerts_look_three_days_ahead
    (day_label : nat -> string) (query : string) (weather_data forecast : dict)
    (days later : list value) (location : option string)
    (context : list string) :
  dict_get weather_data "forecast" (VDict []) = VDict forecast ->
  dict_get forecast "daily" VNone = VList (days ++ later)%list ->
  length days = 3 ->
  _generate_alerts_response day_label query weather_data location context
  = _generate_alerts_response day_label query
      (od_set "forecast" (VDict (od_set "daily" (VList days) forecast))
         weather_data)
      location context.
Proof.
  intros Hforecast Hdaily Hlen. unfold _generate_alerts_response.
  rewrite dict_get_od_set_other by discriminate.
  rewrite dict_get_od_set_same, Hforecast.
  destruct (current_alerts _) as [alerts | e]; cbn [bind]; [| reflexivity].
  unfold Dyn.get. rewrite dict_get_od_set_same, Hdaily. cbn [bind].
  destruct days as [| d1 [| d2 [| d3 [| d4 days]]]]; try discriminate.
  reflexivity.
Qed.

Lemma alerts_look_three_days_ahead_witness :
  _generate_alerts_response Scenario.day_label "Any flood warning?"
    [ ("current", VDict []);
      ("forecast",
        VDict [ ("daily",
                  VList [Scenario.dry_day; Scenario.dry_day; Scenario.dry_day;
                         Scenario.cloudburst_day]) ]) ]
    (Some "Pune") []
  = _generate_alerts_response Scenario.day_label "Any flood warning?"
      [ ("current", VDict []);
        ("forecast",
          VDict [ ("daily",
                    VList [Scenario.dry_day; Scenario.dry_day;
                           Scenario.dry_day]) ]) ]
      (Some "Pune") [].
Proof.
  apply (alerts_look_three_days_ahead Scenario.day_label "Any flood warning?"
           [ ("current", VDict []);
             ("forecast",
               VDict [ ("daily",
                         VList [Scenario.dry_day; Scenario.dry_day;
                                Scenario.dry_day; Scenario.cloudburst_day]) ]) ]
           [ ("daily",
               VList [Scenario.dry_day; Scenario.dry_day; Scenario.dry_day;
                      Scenario.cloudburst_day]) ]
           [Scenario.dry_day; Scenario.dry_day; Scenario.dry_day]
           [Scenario.cloudburst_day] (Some "Pune") []);
    reflexivity.
Defined.

(** X20. In the status of the service the weather agent counts as healthy
    exactly when the test call of its health check returned, with data or
    without: a weather service that answers with no data is reported as
    disconnected and healthy all the same, and only a call that raises
    makes the agent unhealthy and the service degraded. *)
Theorem weather_agent_healthy_iff_service_returns
    (svc : services) (now : string) (others : odict (exc dict)) :
  NoDup ("weather" :: od_keys others) ->
  Forall (fun check => exists s, check = Returned s /\
                                 Backend.reports_healthy s = true)
         (od_values others) ->
  od_lookup "overall_status"
    (Backend.get_agent_status (("weather", health_check svc now) :: others) now)
    = Some (VStr "healthy")
  <-> exists data, get_current_weather svc (Some "Delhi") = Returned data.
Proof.
  intros Hnd Hothers.
  rewrite BackendFacts.overall_status_healthy by exact Hnd.
  cbn [od_values map snd]. rewrite List.Forall_cons_iff.
  unfold health_check.
  destruct (get_current_weather svc (Some "Delhi")) as [data | e]; cbn.
  - split; [eauto |]. intros _. split; [| exact Hothers].
    eexists. split; reflexivity.
  - split.
    + intros [(s & Hs & Hh) _]. injection Hs as <-. discriminate.
    + intros (data & Hd). discriminate.
Qed.

Lemma weather_agent_healthy_iff_service_returns_witness :
  od_lookup "overall_status"
    (Backend.get_agent_status
       (("weather",
         health_check Scenario.no_data_weather_service "2025-06-01T10:00:00")
        :: Scenario.healthy_reports)
       "2025-06-01T10:00:00")
  = Some (VStr "healthy").
Proof.
  apply (weather_agent_healthy_iff_service_returns
           Scenario.no_data_weather_service "2025-06-01T10:00:00"
           Scenario.healthy_reports).
  - apply (bool_decide_unpack _). vm_compute. reflexivity.
  - repeat constructor; eexists; split; reflexivity.
  - eexists. reflexivity.
Defined.

End WeatherAgentFacts.

(* ===================================================================== *)
(** * Properties of the crop advisor *)
(* ===================================================================== *)

Module CropAdvisorFacts.
Import CropAdvisor.

(** X21. [CropAdvisorAgent.get_advice] never raises, and its response is
    determined by the advice.  An advice that holds a response, a
    confidence, recommendations and sources yields the regular response:
    these four values under [answer], [confidence], [recommendations] and
    [sources], then the crop suggestions, the timing advice and the
    practices of the advice ([[]], [{}] and [{}] where it has none), then
    the agent's name.  An advice that lacks one of the four yields the
    Failure of the [except] clause for the [KeyError] of the first one
    missing, and a step that raised before the advice was there yields
    the Failure for its exception. *)
Theorem get_advice_never_raises (advice : exc dict) :
  match advice with
  | Raised e => get_advice advice = Returned (failure_response e)
  | Returned a =>
      match od_lookup "response" a, od_lookup "confidence" a,
            od_lookup "recommendations" a, od_lookup "sources" a with
      | Some answer, Some confidence, Some recommendations, Some sources =>
          get_advice advice
          = Returned
              [ ("answer", answer);
                ("confidence", confidence);
                ("recommendations", recommendations);
                ("sources", sources);
                ("crop_suggestions",
                  default (VList []) (od_lookup "crop_suggestions" a));
                ("timing_advice",
                  default (VDict []) (od_lookup "timing_advice" a));
                ("practices", default (VDict []) (od_lookup "practices" a));
                ("agent", VStr "crop_advisor") ]
      | None, _, _, _ =>
          get_advice advice = Returned (failure_response (KeyError "response"))
      | Some _, None, _, _ =>
          get_advice advice = Returned (failure_response (KeyError "confidence"))
      | Some _, Some _, None, _ =>
          get_advice advice
          = Returned (failure_response (KeyError "recommendations"))
      | Some _, Some _, Some _, None =>
          get_advice advice = Returned (failure_response (KeyError "sources"))
      end
  end.
Proof.
  destruct advice as [a | e]; [| reflexivity].
  unfold get_advice, try_except, dict_item, dict_get. cbn [bind].
  destruct (od_lookup "response" a), (od_lookup "confidence" a),
    (od_lookup "recommendations" a), (od_lookup "sources" a);
    reflexivity.
Qed.

(** An advice with the four fields and nothing else, and one without
    sources. *)
Example get_advice_of_complete_advice :
  get_advice (Returned [ ("response", VStr "Sow wheat");
                         ("confidence", VNum 0.8);
                         ("recommendations", VList [VStr "Irrigate"]);
                         ("sources", VList []) ])
  = Returned [ ("answer", VStr "Sow wheat");
               ("confidence", VNum 0.8);
               ("recommendations", VList [VStr "Irrigate"]);
               ("sources", VList []);
               ("crop_suggestions", VList []);
               ("timing_advice", VDict []);
               ("practices", VDict []);
               ("agent", VStr "crop_advisor") ]
  /\ get_advice (Returned [ ("response", VStr "Sow wheat");
                            ("confidence", VNum 0.8);
                            ("recommendations", VList []) ])
     = Returned (failure_response (KeyError "sources")).
Proof. split; reflexivity. Qed.

(** X22. A failure of the advice generation does not reach the
    coordinator as a Failure.  When the model call raises or its output
    does not parse, [_generate_crop_advice] returns its fallback advice,
    which carries [error]; [get_advice] copies the fields it knows and
    drops that key, so its response is a regular one, with confidence 0.3,
    that the coordinator's selection takes for a Success. *)
Theorem failed_advice_generation_is_served_as_success
    svc query query_intent relevant_crops location_info e :
  bind (get_completion svc
          {| prompt_query := query;
             prompt_intent := query_intent;
             prompt_location := location_info;
             prompt_season := _get_current_season (current_month svc);
             prompt_crops := relevant_crops |})
       (json_loads svc) = Raised e ->
  _generate_crop_advice svc query query_intent relevant_crops location_info
    = Returned (advice_fallback (_get_current_season (current_month svc)) e) /\
  Coordinator.is_failure
    (advice_fallback (_get_current_season (current_month svc)) e) = true /\
  exists r,
    get_advice (_generate_crop_advice svc query query_intent relevant_crops
                  location_info) = Returned r /\
    Coordinator.is_failure r = false /\
    od_lookup "confidence" r = Some (VNum 0.3) /\
    od_lookup "agent" r = Some (VStr "crop_advisor").
Proof.
  intros Hfail.
  assert (_generate_crop_advice svc query query_intent relevant_crops location_info
            = Returned (advice_fallback (_get_current_season (current_month svc)) e))
    as Hadvice.
  { unfold _generate_crop_advice. unfold bind in Hfail |- *.
    destruct (get_completion svc _) as [resp | e1]; cbn [try_except].
    - rewrite Hfail. reflexivity.
    - now injection Hfail as ->. }
  split; [exact Hadvice |]. split; [reflexivity |].
  rewrite Hadvice. eexists. split; [reflexivity |]. repeat split.
Qed.

Lemma failed_advice_generation_is_served_as_success_witness :
  _generate_crop_advice Scenario.crop_model_down "Which crop should I sow?"
    VNone [] [ ("state", VStr "KA") ]
  = Returned (advice_fallback "zaid" (Error "model unavailable")).
Proof.
  destruct (failed_advice_generation_is_served_as_success
              Scenario.crop_model_down "Which crop should I sow?" VNone []
              [ ("state", VStr "KA") ] (Error "model unavailable") eq_refl)
    as [Hadvice _].
  exact Hadvice.
Defined.

(** ** The relevant crops *)

(** X23. No crop of the database lists the zaid season.  In the months
    that [_get_current_season] takes for zaid, a query that names no crop
    gets no relevant crop at all, whatever the location. *)
Theorem no_crop_is_offered_in_zaid
    fadd current_month query_intent location_info specific_crops :
  _get_current_season current_month = "zaid" ->
  Dyn.get query_intent "specific_crops" VNone = Returned specific_crops ->
  Dyn.truthy specific_crops = false ->
  _get_relevant_crops fadd current_month query_intent location_info
    = Returned [].
Proof.
  intros Hseason Hget Hfalsy. unfold _get_relevant_crops.
  rewrite Hget. cbn [bind]. rewrite Hfalsy.
  unfold crop_database. cbn [local_crops]. rewrite Hseason.
  cbn [seasons rice wheat sugarcane existsb String.eqb Ascii.eqb Bool.eqb orb].
  rewrite !andb_false_r. reflexivity.
Qed.

Lemma no_crop_is_offered_in_zaid_witness :
  _get_relevant_crops Qplus 5 Scenario.general_intent default_location
    = Returned [].
Proof.
  apply (no_crop_is_offered_in_zaid Qplus 5 Scenario.general_intent
           default_location (VList []));
    reflexivity.
Defined.

Lemma insert_by_score_forall (P : relevant_crop -> Prop) c sorted :
  P c -> Forall P sorted -> Forall P (insert_by_score c sorted).
Proof.
  intros Hc. induction 1 as [| c' rest Hc' Hrest IH]; cbn.
  - now constructor.
  - destruct (Qltb _ _); repeat constructor; auto.
Qed.

Lemma sort_by_score_forall (P : relevant_crop -> Prop) crops :
  Forall P crops -> Forall P (sort_by_score crops).
Proof.
  induction 1 as [| c rest Hc Hrest IH]; [constructor |].
  change (sort_by_score (c :: rest))
    with (insert_by_score c (sort_by_score rest)).
  now apply insert_by_score_forall.
Qed.

Lemma Qltb_false (a b : Q) : Qltb a b = false -> (b <= a)%Q.
Proof.
  unfold Qltb. intros H. apply negb_false_iff in H. now apply Qle_bool_iff.
Qed.

Lemma Qltb_true (a b : Q) : Qltb a b = true -> (a <= b)%Q.
Proof.
  unfold Qltb. intros H. apply negb_true_iff in H.
  destruct (Qlt_le_dec a b) as [Hlt | Hle]; [now apply Qlt_le_weak |].
  apply Qle_bool_iff in Hle. congruence.
Qed.

Lemma insert_by_score_sorted c sorted :
  best_first sorted -> best_first (insert_by_score c sorted).
Proof.
  induction sorted as [| c' rest IH]; cbn [insert_by_score best_first].
  - intros _. split; [constructor | exact I].
  - intros [Hc' Hrest].
    destruct (Qltb (suitability_score c) (suitability_score c')) eqn:Hlt;
      cbn [best_first].
    + split; [| now apply IH].
      apply insert_by_score_forall; [now apply Qltb_true | exact Hc'].
    + apply Qltb_false in Hlt. split; [| now split].
      constructor; [exact Hlt |].
      eapply List.Forall_impl; [| exact Hc']. cbn. intros a Ha.
      now apply Qle_trans with (suitability_score c').
Qed.

Lemma sort_by_score_sorted crops : best_first (sort_by_score crops).
Proof.
  induction crops as [| c rest IH]; [exact I |].
  change (sort_by_score (c :: rest))
    with (insert_by_score c (sort_by_score rest)).
  now apply insert_by_score_sorted.
Qed.

Lemma take_best_first n crops : best_first crops -> best_first (take n crops).
Proof.
  revert n. induction crops as [| c rest IH]; intros [| n]; cbn;
    try (intros; exact I).
  intros [Hc Hrest]. split; [| now apply IH].
  now apply Forall_take.
Qed.

Lemma named_crops_from_database fadd m loc names acc crops :
  Forall from_database acc ->
  named_crops fadd m loc names acc = Returned crops ->
  Forall from_database crops.
Proof.
  revert acc. induction names as [| name rest IH]; intros acc Hacc H;
    cbn [named_crops] in H.
  - now injection H as <-.
  - destruct (lower_of name) as [lname | e]; cbn [bind] in H; [| discriminate].
    destruct (od_lookup lname crop_database) as [data |] eqn:Hdb; cbn [bind] in H.
    + destruct (_calculate_suitability fadd m data loc) as [score | e];
        cbn [bind] in H; [| discriminate].
      eapply IH; [| exact H]. apply Forall_app. split; [exact Hacc |].
      repeat constructor. exact Hdb.
    + eapply IH; [exact Hacc | exact H].
Qed.

Lemma local_crops_from_database fadd m loc state crops :
  local_crops fadd m loc state crop_database [] = Returned crops ->
  Forall from_database crops.
Proof.
  unfold crop_database. cbn [local_crops]. intros H.
  repeat match type of H with
         | context [if ?b then _ else _] => destruct b; cbn [bind app] in H
         | context [_calculate_suitability ?f ?n ?d ?l] =>
             destruct (_calculate_suitability f n d l); cbn [bind app] in H
         end; try discriminate; injection H as <-;
    repeat (constructor; [reflexivity |]); constructor.
Qed.

(** X24. Whatever [_get_relevant_crops] returns, for crops named in the
    query or for the crops of the state and the season, it is a list of at
    most five crops, each one an entry of the database under its own name,
    and no crop of the list scores higher than one listed before it,
    however the float additions of the scores round. *)
Theorem relevant_crops_are_the_best_five
    fadd current_month query_intent location_info crops :
  _get_relevant_crops fadd current_month query_intent location_info
    = Returned crops ->
  length crops <= 5 /\
  Forall from_database crops /\
  best_first crops.
Proof.
  unfold _get_relevant_crops. intros H.
  destruct (Dyn.get query_intent "specific_crops" VNone) as [specific | e];
    cbn [bind] in H; [| discriminate].
  assert (exists found, Forall from_database found /\
                        crops = take 5 (sort_by_score found))
    as (found & Hfound & ->).
  { destruct (Dyn.truthy specific).
    - destruct (items_of specific) as [names | e]; cbn [bind] in H;
        [| discriminate].
      destruct (named_crops fadd current_month location_info names [])
        as [found | e] eqn:Hnamed; cbn [bind] in H; [| discriminate].
      injection H as <-. exists found. split; [| reflexivity].
      eapply named_crops_from_database; [constructor | exact Hnamed].
    - destruct (local_crops fadd current_month location_info _ crop_database [])
        as [found | e] eqn:Hlocal; cbn [bind] in H; [| discriminate].
      injection H as <-. exists found. split; [| reflexivity].
      eapply local_crops_from_database. exact Hlocal. }
  split; [rewrite length_take; lia |]. split.
  - apply Forall_take. now apply sort_by_score_forall.
  - apply take_best_first, sort_by_score_sorted.
Qed.

Lemma relevant_crops_are_the_best_five_witness :
  best_first
    [ {| crop_name := "rice"; crop_data := rice;
         suitability_score := (0.0 + 0.3 + 0.2 + 0.1)%Q |};
      {| crop_name := "wheat"; crop_data := wheat;
         suitability_score := (0.0 + 0.2 + 0.1)%Q |} ].
Proof.
  apply (relevant_crops_are_the_best_five Qplus 7 Scenario.named_intent
           default_location).
  vm_compute. reflexivity.
Defined.

Lemma current_season_cases (m : nat) :
  _get_current_season m = "kharif" \/ _get_current_season m = "rabi"
  \/ _get_current_season m = "zaid".
Proof.
  unfold _get_current_season.
  destruct (existsb (Nat.eqb m) [6; 7; 8; 9; 10]); [now left |].
  destruct (existsb (Nat.eqb m) [11; 12; 1; 2; 3]); auto.
Qed.

(** X25. Without a state the advisor offers sugarcane or nothing.  When
    the context gives no state and the location utilities fail, the
    location is the default one, Karnataka on red loam, whatever else the
    context says; a query that names no crop then gets sugarcane alone,
    with the score of a full match, in the kharif and rabi months, and no
    crop in the others. *)
Theorem without_a_state_only_sugarcane_is_offered
    fadd get_location_details current_month context query_intent specific_crops :
  (forall c, context = Some c -> od_lookup "state" c = None) ->
  (forall latitude longitude,
     exists e, get_location_details latitude longitude = Raised e) ->
  Dyn.get query_intent "specific_crops" VNone = Returned specific_crops ->
  Dyn.truthy specific_crops = false ->
  _get_relevant_crops fadd current_month query_intent
    (_extract_location_info get_location_details context)
  = Returned
      (if String.eqb (_get_current_season current_month) "zaid" then []
       else [ {| crop_name := "sugarcane";
                 crop_data := sugarcane;
                 suitability_score :=
                   (fadd (fadd (fadd (fadd 0.0 0.4) 0.3) 0.2) 0.1)%Q |} ]).
Proof.
  intros Hstate Hdown Hget Hfalsy.
  unfold _get_relevant_crops. rewrite Hget. cbn [bind]. rewrite Hfalsy.
  unfold _extract_location_info.
  set (location_info := match context with Some (_ :: _) => _ | _ => _ end).
  destruct (Hdown (dict_get location_info "latitude" VNone)
                  (dict_get location_info "longitude" VNone)) as (e & ->).
  assert (exists district latitude longitude,
            location_info
            = [ ("state", VStr "KA"); ("district", district);
                ("latitude", latitude); ("longitude", longitude);
                ("climate_zone", VStr "tropical");
                ("soil_type", VStr "red loam") ])
    as (district & latitude & longitude & ->).
  { subst location_info. destruct context as [[| item rest] |].
    - now eexists _, _, _.
    - eexists _, _, _. cbn. unfold dict_get at 1.
      rewrite (Hstate _ eq_refl). reflexivity.
    - now eexists _, _, _. }
  destruct (current_season_cases current_month) as [Hs | [Hs | Hs]];
    unfold crop_database, local_crops, _calculate_suitability; rewrite Hs;
    reflexivity.
Qed.

Lemma without_a_state_only_sugarcane_is_offered_witness :
  _get_relevant_crops Qplus 7 Scenario.general_intent
    (_extract_location_info Scenario.geocoder_down
       (Some [ ("session_id", VStr "s1"); ("soil_type", VStr "black cotton") ]))
  = Returned
      (if String.eqb (_get_current_season 7) "zaid" then []
       else [ {| crop_name := "sugarcane";
                 crop_data := sugarcane;
                 suitability_score := (0.0 + 0.4 + 0.3 + 0.2 + 0.1)%Q |} ]).
Proof.
  apply (without_a_state_only_sugarcane_is_offered Qplus Scenario.geocoder_down
           7 (Some [ ("session_id", VStr "s1");
                     ("soil_type", VStr "black cotton") ])
           Scenario.general_intent (VList [])).
  - intros c [= <-]. reflexivity.
  - intros latitude longitude. eexists. reflexivity.
  - reflexivity.
  - reflexivity.
Defined.

(** X26. [get_variety_comparison] finds a crop whatever the case of its
    name and echoes the name as it was given; for a name that is not in
    the database it returns the error that quotes it.  A comparison lists
    every variety of the crop, each with empty characteristics and an empty
    suitability: the database records neither for any variety. *)
Theorem variety_comparison_holds_no_characteristics crop_name location :
  (od_lookup (str_lower crop_name) crop_database = None /\
   get_variety_comparison crop_name location
     = [ ("error", VStr ("Crop '" +:+ crop_name +:+ "' not found in database")) ])
  \/
  (exists crop_data varieties,
     od_lookup (str_lower crop_name) crop_database = Some crop_data /\
     od_lookup "crop" (get_variety_comparison crop_name location)
       = Some (VStr crop_name) /\
     od_lookup "varieties" (get_variety_comparison crop_name location)
       = Some (VList varieties) /\
     length varieties = length (CropAdvisor.varieties crop_data) /\
     Forall (fun v => exists d, v = VDict d /\
                       od_lookup "characteristics" d = Some (VStr "") /\
                       od_lookup "suitability" d = Some (VStr ""))
            varieties).
Proof.
  unfold get_variety_comparison, crop_database. cbn [od_lookup].
  destruct (String.eqb "rice" (str_lower crop_name));
    [| destruct (String.eqb "wheat" (str_lower crop_name));
       [| destruct (String.eqb "sugarcane" (str_lower crop_name))]].
  4: { left. split; reflexivity. }
  all: right; eexists _, _; split; [reflexivity |]; split; [reflexivity |];
    split; [reflexivity |]; split; [reflexivity |];
    repeat (constructor; [eexists; split; [reflexivity |]; split; reflexivity |]);
    constructor.
Qed.

End CropAdvisorFacts.

(* ===================================================================== *)
(** * Properties of the backend routes *)
(* ===================================================================== *)

Module ApiFacts.
Import Api.

(** X27. The query route turns the escape of the service into a 500.
    When language detection raises, [AIAgentService.process_query] raises
    [UnboundLocalError] from its own handler; the route catches it and
    answers with status 500 and the detail "Error processing query". *)
Theorem detection_failure_is_answered_with_500 svc uuid4 request e :
  Backend.detect_language svc (query request) = Raised e ->
  process_query svc uuid4 request
    = Raised (HTTPException 500 "Error processing query").
Proof.
  intros Hd. unfold process_query.
  rewrite (BackendFacts.detection_failure_escapes _ _ _ _ _ _ Hd). reflexivity.
Qed.

Lemma detection_failure_is_answered_with_500_witness :
  process_query Scenario.detection_down "s1"
    (Scenario.api_request "12345" None)
  = Raised (HTTPException 500 "Error processing query").
Proof.
  apply (detection_failure_is_answered_with_500 Scenario.detection_down "s1"
           (Scenario.api_request "12345" None)
           (Error "langdetect: no features in text")).
  reflexivity.
Defined.

(** X28. A fallback of the service is served as a regular response.  The
    fallback dictionary has no location, sources, suggestions or metadata;
    the route fills them with its defaults, so the response carries an
    empty list of sources, no suggestions, empty metadata and no
    location, even when the request gave one, beside the apology, the
    agent type [fallback] and the confidence 0.1. *)
Theorem fallback_is_served_with_defaults svc uuid4 request lang e :
  Backend.process_query svc (query request) (value_of_option (user_id request))
    (location request) (context request)
    = Returned (Backend.fallback_result svc (query request) lang e) ->
  exists sid,
    process_query svc uuid4 request
    = Returned
        [ ("session_id", VStr sid);
          ("answer", VStr (Backend._get_fallback_response lang));
          ("agent_type", VStr "fallback");
          ("language", VStr lang);
          ("location", VNone);
          ("sources", VList []);
          ("confidence_score", VNum 0.1);
          ("suggestions", VList []);
          ("processing_time", VNum (Backend.elapsed_seconds svc));
          ("metadata", VDict []) ].
Proof.
  intros Hr. unfold process_query. rewrite Hr. cbn. eauto.
Qed.

Lemma fallback_is_served_with_defaults_witness :
  exists sid,
    process_query Scenario.hindi_backend "s1"
      (Scenario.api_request "aaj mausam kaisa hai" (Some "Pune"))
    = Returned
        [ ("session_id", VStr sid);
          ("answer", VStr (Backend._get_fallback_response "hi"));
          ("agent_type", VStr "fallback");
          ("language", VStr "hi");
          ("location", VNone);
          ("sources", VList []);
          ("confidence_score", VNum 0.1);
          ("suggestions", VList []);
          ("processing_time", VNum (Backend.elapsed_seconds Scenario.hindi_backend));
          ("metadata", VDict []) ].
Proof.
  apply (fallback_is_served_with_defaults Scenario.hindi_backend "s1"
           (Scenario.api_request "aaj mausam kaisa hai" (Some "Pune")) "hi"
           (Error "translation provider timeout")).
  reflexivity.
Defined.

Lemma str_lower_app (s t : string) :
  str_lower (s +:+ t) = str_lower s +:+ str_lower t.
Proof.
  induction s as [| c s IH]; [reflexivity |].
  change (String c s +:+ t) with (String c (s +:+ t)).
  cbn [str_lower]. rewrite IH. reflexivity.
Qed.

(** The query of the weather route names a forecast, so it is a forecast
    query unless it also reads as one about the current weather. *)
Lemma weather_query_is_a_forecast_query location days :
  WeatherAgent.any_word_in ["current"; "now"; "today"; "present"]
    (str_lower (weather_query location days)) = false ->
  WeatherAgent._classify_weather_query (weather_query location days) = "forecast".
Proof.
  intros Hnot. unfold WeatherAgent._classify_weather_query. rewrite Hnot.
  assert (str_contains "forecast" (str_lower (weather_query location days)) = true)
    as Hf.
  { unfold weather_query. rewrite str_lower_app. reflexivity. }
  unfold WeatherAgent.any_word_in at 1. cbn [existsb]. rewrite Hf.
  now rewrite !orb_true_r.
Qed.

(** X29. The weather route does not pass its number of days on.  With the
    weather agent registered, the route always returns, and for a query
    that does not read as one about the current weather, the agent asks
    the weather service for a forecast of 7 days, whatever [days] the
    client asked for. *)
Theorem weather_route_asks_for_seven_days svc wsvc location days :
  od_lookup "weather" (Backend.agents svc)
    = Some (WeatherAgent.process_query wsvc) ->
  WeatherAgent.any_word_in ["current"; "now"; "today"; "present"]
    (str_lower (weather_query location days)) = false ->
  WeatherAgent._get_weather_data wsvc
    (WeatherAgent._classify_weather_query (weather_query location days))
    (Some location)
  = try_except (WeatherAgent.get_forecast wsvc (Some location) 7)
               (fun _ => Returned [])
  /\ exists r, get_weather svc location days = Returned r.
Proof.
  intros Hagent Hnot. split.
  - rewrite (weather_query_is_a_forecast_query _ _ Hnot). reflexivity.
  - unfold get_weather, dict_item at 1. rewrite Hagent. cbn [bind].
    destruct (WeatherAgentFacts.weather_process_query_cases wsvc
                (weather_query location days) (Some location) []
                [ ("forecast_days",
                    match days with
                    | Some d => VNum (inject_Z d)
                    | None => VNone
                    end) ])
      as [(a & s & c & g & w & Hr) | (e & Hr)]; rewrite Hr; cbn; eauto.
Qed.

Lemma weather_route_asks_for_seven_days_witness :
  exists r, get_weather Scenario.english_backend "Pune" (Some 3%Z) = Returned r.
Proof.
  destruct (weather_route_asks_for_seven_days Scenario.english_backend
              Scenario.weather_service "Pune" (Some 3%Z))
    as [_ Hreturns].
  - reflexivity.
  - vm_compute. reflexivity.
  - exact Hreturns.
Defined.

End ApiFacts.
